(** * GAIA dashboard: a shallow embedding of the analysis client

    The repository's executable code is its React/TypeScript front end:
    the score cards ([ESGScoreCard], [ESGRadarChart]), the HTTP/WebSocket
    client ([AnalysisAPI]) and the dashboard component that drives an
    analysis run ([AnalysisDashboard]: [handleWebSocketMessage],
    [fetchFinalResults], [processResults], [pollAnalysisStatus]).

    Conventions of the embedding.
    - A JavaScript number is a rational [Q]: every finite double is a
      rational and the comparisons the code performs are exact on them.
      Where the value of a sum or a quotient matters ([ESGRadarChart64])
      every arithmetic result is rounded to a double by an explicit
      rounding function, of which rounding to nearest is assumed
      ([Double.roundsToNearest]) and of which [Double.binary64] is an
      instance; [ESGRadarChart.avg] is the exact mean and is used only
      in statements that hold whatever the rounding. [NaN], [null] and
      [undefined] are [None] of an [option].
    - A JSON object read by the code is a record with one optional field
      per property the code reads.
    - React state is a record, threaded explicitly; a function component's
      closure (the state values captured when the callback was created) is
      a separate record.
    - [await]ed requests are answered by a [Backend] oracle; a rejected
      promise is a thrown exception of the effect monad. Each callback
      runs to completion before the next one starts.
    - The debate engine itself (the Python agents) is not among the
      sources; the one property stated about it is modelled from the
      specification, in [Debate]. *)

From Stdlib Require Import ZArith QArith Qround Qabs Qpower String Ascii List Bool Lia Lqa.
From Stdlib Require Import DecimalString DecimalPos.
Import ListNotations.

Local Open Scope string_scope.
Local Open Scope Q_scope.

(** ** JavaScript helpers *)

Module JS.

(** Truthiness of an optional number: [undefined], [null], [NaN] and [0]
    are falsy. *)
Definition truthyNum (x : option Q) : bool :=
  match x with
  | Some q => negb (Qeq_bool q 0)
  | None => false
  end.

(** Truthiness of an optional string: absent and the empty string are
    falsy. *)
Definition truthyStr (x : option string) : bool :=
  match x with
  | Some s => negb (String.eqb s "")
  | None => false
  end.

(** Truthiness of an optional object or array: only absence is falsy (an
    empty array is truthy). *)
Definition truthyObj {A : Type} (x : option A) : bool :=
  match x with
  | Some _ => true
  | None => false
  end.

(** [a || b] on optional numbers. *)
Definition orNum (a b : option Q) : option Q :=
  if truthyNum a then a else b.

(** [a || d] where [d] is a number literal. *)
Definition orNumD (a : option Q) (d : Q) : Q :=
  match a with
  | Some q => if Qeq_bool q 0 then d else q
  | None => d
  end.

Definition orStr (a b : option string) : option string :=
  if truthyStr a then a else b.

Definition orStrD (a : option string) (d : string) : string :=
  match a with
  | Some s => if String.eqb s "" then d else s
  | None => d
  end.

Definition orObj {A : Type} (a b : option A) : option A :=
  match a with
  | Some _ => a
  | None => b
  end.

Definition orObjD {A : Type} (a : option A) (d : A) : A :=
  match a with
  | Some x => x
  | None => d
  end.

(** [a === "lit"] for an optional string. *)
Definition strictEq (a : option string) (lit : string) : bool :=
  match a with
  | Some s => String.eqb s lit
  | None => false
  end.

(** [a?.f]: optional chaining. *)
Definition chain {A B : Type} (a : option A) (f : A -> option B) : option B :=
  match a with
  | Some x => f x
  | None => None
  end.

(** [x > y] on numbers. *)
Definition gt (x y : Q) : bool := negb (Qle_bool x y).

(** [x >= y] on numbers. *)
Definition ge (x y : Q) : bool := Qle_bool y x.

(** [Math.round]: the nearest integer, halves rounded up. *)
Definition Math_round (x : Q) : Z := Qfloor (x + (1 # 2)).

(** Decimal rendering of an integer inside a template literal. *)
Definition showZ (z : Z) : string := NilZero.string_of_int (Z.to_int z).

Definition showOptZ (z : option Z) : string :=
  match z with
  | Some n => showZ n
  | None => "undefined"
  end.

Definition lowerAscii (c : ascii) : ascii :=
  let n := nat_of_ascii c in
  if ((65 <=? n) && (n <=? 90))%nat then ascii_of_nat (n + 32) else c.

(** [s.toLowerCase()], on the ASCII range. *)
Fixpoint toLowerCase (s : string) : string :=
  match s with
  | EmptyString => EmptyString
  | String c r => String (lowerAscii c) (toLowerCase r)
  end.

Definition upperAscii (c : ascii) : ascii :=
  let n := nat_of_ascii c in
  if ((97 <=? n) && (n <=? 122))%nat then ascii_of_nat (n - 32) else c.

(** [s.toUpperCase()], on the ASCII range. *)
Fixpoint toUpperCase (s : string) : string :=
  match s with
  | EmptyString => EmptyString
  | String c r => String (upperAscii c) (toUpperCase r)
  end.

(** [s.includes(p)]. *)
Definition includes (s p : string) : bool :=
  match String.index 0 p s with
  | Some _ => true
  | None => false
  end.

Definition isDigit (c : ascii) : bool :=
  let n := nat_of_ascii c in ((48 <=? n) && (n <=? 57))%nat.

Definition isSpace (c : ascii) : bool :=
  let n := nat_of_ascii c in
  ((n =? 32) || ((9 <=? n) && (n <=? 13)))%nat.

Fixpoint skipSpaces (s : string) : string :=
  match s with
  | String c r => if isSpace c then skipSpaces r else s
  | EmptyString => s
  end.

(** The value of the longest prefix of decimal digits, [None] when the
    string does not start with a digit. *)
Fixpoint digitsPrefix (acc : option Z) (s : string) : option Z :=
  match s with
  | String c r =>
      if isDigit c then
        let d := Z.of_nat (nat_of_ascii c - 48) in
        digitsPrefix (Some (match acc with
                            | Some a => 10 * a + d
                            | None => d
                            end)%Z) r
      else acc
  | EmptyString => acc
  end.

(** [parseInt(s)] on decimal input: leading blanks, an optional sign, then
    the longest run of digits; [None] is [NaN]. (The [0x] prefix is not
    modelled.) *)
Definition parseInt (s : string) : option Z :=
  match skipSpaces s with
  | String "-" r => option_map Z.opp (digitsPrefix None r)
  | String "+" r => digitsPrefix None r
  | t => digitsPrefix None t
  end.

(** [haystack.includes(x)] on an array of strings. *)
Definition arrIncludes (l : list string) (x : string) : bool :=
  existsb (String.eqb x) l.

End JS.

(** ** ESGScoreCard *)

Module ESGScoreCard.

(** [getScoreLabel]. *)
Definition getScoreLabel (score : Q) : string :=
  if JS.ge score 80 then "Excellent"
  else if JS.ge score 60 then "Good"
  else if JS.ge score 40 then "Fair"
  else "Poor".


End ESGScoreCard.

(** ** ESGRadarChart *)

Module ESGRadarChart.

(** The component's numeric props; [None] stands for a value that
    [Number(_)] maps to [NaN] or [0] through [null]. *)
Record Props := {
  environmental : option Q;
  social : option Q;
  governance : option Q
}.

(** [Number(x) || 0]. *)
Definition numberOr0 (x : option Q) : Q := JS.orNumD x 0.

Definition envScore (p : Props) : Q := numberOr0 (environmental p).
Definition socScore (p : Props) : Q := numberOr0 (social p).
Definition govScore (p : Props) : Q := numberOr0 (governance p).


(** The [avg] local of [getOverallRating], as the exact mean; its value
    in double arithmetic is [ESGRadarChart64.avg]. *)
Definition avg (p : Props) : Q := (envScore p + socScore p + govScore p) / 3.


End ESGRadarChart.

(** ** The API client ([services/api.ts]) *)

Module AnalysisAPI.

Inductive Verb := GET | POST | PUT | PATCH | DELETE | OPEN_WS.

(** The JSON body of [POST /api/v1/analyze]. *)
Record StartBody := {
  ticker : string;
  company_name : option string;
  include_satellite : bool;
  include_sentiment : bool;
  include_supply_chain : bool;
  debate_rounds : Z
}.

(** What one call of the client puts on the wire; [url] is relative to
    [API_BASE_URL] (or [WS_BASE_URL] for [OPEN_WS]). *)
Record Request := {
  verb : Verb;
  url : string;
  body : option StartBody
}.

(** The static methods of [class AnalysisAPI], with their arguments. *)
Inductive Call :=
| startAnalysis (ticker : string) (companyName : option string)
| getAnalysisStatus (analysisId : string)
| getAnalysisResults (analysisId : string)
| connectWebSocket (analysisId : string)
| getBlockchainStatus
| getAuditTrail (ticker : string)
| verifyBlockchain.

(** The request each method issues. *)
Definition request (c : Call) : Request :=
  match c with
  | startAnalysis ticker companyName =>
      {| verb := POST; url := "/api/v1/analyze";
         body := Some {| ticker := JS.toUpperCase ticker;
                         company_name := companyName;
                         include_satellite := true;
                         include_sentiment := true;
                         include_supply_chain := true;
                         debate_rounds := 3 |} |}
  | getAnalysisStatus analysisId =>
      {| verb := GET; url := "/api/v1/analyze/" ++ analysisId; body := None |}
  | getAnalysisResults analysisId =>
      {| verb := GET; url := "/api/v1/analyze/" ++ analysisId ++ "/results";
         body := None |}
  | connectWebSocket analysisId =>
      {| verb := OPEN_WS; url := "/api/v1/analyze/ws/" ++ analysisId;
         body := None |}
  | getBlockchainStatus =>
      {| verb := GET; url := "/api/v1/blockchain/status"; body := None |}
  | getAuditTrail ticker =>
      {| verb := GET; url := "/api/v1/blockchain/audit/" ++ JS.toUpperCase ticker;
         body := None |}
  | verifyBlockchain =>
      {| verb := GET; url := "/api/v1/blockchain/verify"; body := None |}
  end.

(** The names of the static methods, in source order. *)
Definition methods : list string :=
  [ "startAnalysis"; "getAnalysisStatus"; "getAnalysisResults";
    "connectWebSocket"; "getBlockchainStatus"; "getAuditTrail";
    "verifyBlockchain" ].

Definition methodName (c : Call) : string :=
  match c with
  | startAnalysis _ _ => "startAnalysis"
  | getAnalysisStatus _ => "getAnalysisStatus"
  | getAnalysisResults _ => "getAnalysisResults"
  | connectWebSocket _ => "connectWebSocket"
  | getBlockchainStatus => "getBlockchainStatus"
  | getAuditTrail _ => "getAuditTrail"
  | verifyBlockchain => "verifyBlockchain"
  end.

(** The backend route its README documents for cancelling a run:
    [DELETE /api/v1/analyze/{id}]. *)
Definition cancelRoute (analysisId : string) : Request :=
  {| verb := DELETE; url := "/api/v1/analyze/" ++ analysisId; body := None |}.

(** A request cancels a run when it is the documented route for some run. *)
Definition isCancellation (r : Request) : Prop :=
  exists analysisId, r = cancelRoute analysisId.

End AnalysisAPI.

(** ** Front-end types ([types/index.ts]) *)

(** A JSON value the code stores or forwards without looking inside. *)
Definition Blob : Type := string.

(** [new Date(x)]: from a timestamp string of the payload or from the
    milliseconds [Date.now()] returned. *)
Inductive JsDate :=
| DateOfString (s : string)
| DateOfMillis (ms : Z).

Module Company.
Record t := { name : string; ticker : option string }.
End Company.

Module ESGScores.
Record t := { environmental : Q; social : Q; governance : Q; overall : Q }.
End ESGScores.

Module SDGImpact.
Record t := {
  goal : option Z;
  title : string;
  score : Z;
  impact : string;
  evidence : list string
}.
End SDGImpact.

Inductive Severity := low | medium | high | critical.

Module GreenwashingAlert.
Record t := {
  severity : Severity;
  category : string;
  description : string;
  evidence : list string;
  confidence : Q
}.
End GreenwashingAlert.

Inductive AgentState := idle | working | completed | debating.

Module AgentStatus.
Record t := {
  id : string;
  name : string;
  role : string;
  status : AgentState;
  currentTask : option string;
  progress : Q;
  findings : option (list string);
  avatar : option string
}.
End AgentStatus.

Module AnalysisResult.
Record t := {
  company : Company.t;
  esgScores : ESGScores.t;
  sdgImpacts : list SDGImpact.t;
  greenwashingAlerts : list GreenwashingAlert.t;
  agents : list AgentStatus.t;
  debate : list Blob;
  analysisDate : JsDate;
  confidence : Q
}.
End AnalysisResult.

(** ** What the backend sends *)

Module EsgScoresJson.
Record t := {
  environmental : option Q;
  social : option Q;
  governance : option Q;
  overall : option Q
}.
End EsgScoresJson.

(** One element of [top_sdgs], or one entry built from [sdg_impact]. *)
Module SdgJson.
Record t := {
  goal : option Z;
  sdg_number : option Z;
  score : option Q;
  impact_score : option Q;
  impact_type : option string;
  evidence : option (list string);
  initiatives : option (list string)
}.
End SdgJson.

Module SignalJson.
Record t := {
  severity : option string;
  risk_level : option string;
  category : option string;
  type : option string;
  description : option string;
  signal : option string;
  evidence : option (list string);
  indicators : option (list string);
  confidence : option Q;
  confidence_score : option Q
}.
End SignalJson.

Module ResolutionJson.
Record t := { final_confidence : option Q }.
End ResolutionJson.

Module DebateSummaryJson.
Record t := {
  greenwashing_signals : option (list SignalJson.t);
  arguments : option (list Blob);
  resolution : option ResolutionJson.t
}.
End DebateSummaryJson.

Module OrchestratorSummaryJson.
Record t := {
  debate_sessions : option (list Blob);
  greenwashing_signals : option (list Blob)
}.
End OrchestratorSummaryJson.

(** The results payload, as [processResults] reads it. [sdg_impact] is the
    object's entry list, in the order [Object.entries] yields it. *)
Module Payload.
Record t := {
  environmental_score : option Q;
  social_score : option Q;
  governance_score : option Q;
  overall_score : option Q;
  esg_scores : option EsgScoresJson.t;
  sdg_impact : option (list (string * Q));
  top_sdgs : option (list SdgJson.t);
  debate_summary : option DebateSummaryJson.t;
  greenwashing_alerts : option (list SignalJson.t);
  company_name : option string;
  ticker : option string;
  completed_at : option string;
  created_at : option string;
  confidence : option Q;
  blockchain : option Blob;
  orchestrator_summary : option OrchestratorSummaryJson.t;
  debate_sessions : option (list Blob);
  greenwashing_signals : option (list Blob)
}.
End Payload.

(** The reply of [GET /api/v1/analyze/{id}]. *)
Module StatusJson.
Record t := {
  status : option string;
  results : option Payload.t;
  error : option string;
  completed_agents : option (list string);
  pending_agents : option (list string)
}.
End StatusJson.

(** A message parsed from the WebSocket. *)
Module WsMessage.
Record t := {
  type : string;
  status : option string;
  message : option string;
  agent_id : option string;
  task : option string;
  findings : option (list string);
  round : option Z;
  data : option Payload.t
}.
End WsMessage.

(** ** The dashboard component ([AnalysisDashboard]) *)

Module Dashboard.

(** The [useState] cells the analysis run reads or writes. *)
Record State := {
  isAnalyzing : bool;
  analysisResult : option AnalysisResult.t;
  agents : list AgentStatus.t;
  error : option string;
  analysisId : option string;
  blockchainStatus : option Blob;
  debateSessions : list Blob;
  greenwashingSignals : list Blob;
  isDebating : bool;
  currentDebateRound : Z
}.

(** Which function issued a status request: the [poll] closure of
    [pollAnalysisStatus], or the fallback inside [fetchFinalResults]. *)
Inductive Origin := ByPoll | ByFetch.

(** One request and what came back; [None] is a rejected promise. *)
Inductive Exchange :=
| StatusExchange (who : Origin) (id : string) (reply : option StatusJson.t)
| ResultsExchange (id : string) (reply : option Payload.t).

(** The environment outside the component: the server's answer to the
    n-th request of the run, and the clock. *)
Record Backend := {
  statusReply : nat -> string -> option StatusJson.t;
  resultsReply : nat -> string -> option Payload.t;
  dateNow : nat -> Z
}.

(** Everything a callback can change: the React state, the console and the
    log of requests made so far. *)
Record World := {
  ui : State;
  console : list string;
  wire : list Exchange
}.

(** The state values a callback captured when it was created. *)
Record Closure := {
  seen_analysisId : option string;
  seen_agents : list AgentStatus.t
}.

(** *** Effects: state, and exceptions that keep the state *)

Inductive Res (A : Type) :=
| Returned (a : A)
| Thrown.
Arguments Returned {A} a.
Arguments Thrown {A}.

Definition M (A : Type) : Type := World -> Res A * World.

Definition ret {A : Type} (a : A) : M A := fun w => (Returned a, w).

Definition bind {A B : Type} (m : M A) (k : A -> M B) : M B :=
  fun w =>
    match m w with
    | (Returned a, w') => k a w'
    | (Thrown, w') => (Thrown, w')
    end.

Definition throw {A : Type} : M A := fun w => (Thrown, w).

(** [try { m } catch { h }]. *)
Definition try_catch {A : Type} (m h : M A) : M A :=
  fun w =>
    match m w with
    | (Returned a, w') => (Returned a, w')
    | (Thrown, w') => h w'
    end.

Notation "x <- m ;; k" := (bind m (fun x => k))
  (at level 61, m at next level, right associativity).
Notation "m ;; k" := (bind m (fun _ => k))
  (at level 61, right associativity).

Definition when (b : bool) (m : M unit) : M unit :=
  if b then m else ret tt.

Definition modify (f : State -> State) : M unit :=
  fun w => (Returned tt, {| ui := f (ui w); console := console w; wire := wire w |}).

(** [console.log] / [console.error], recorded by their first argument. *)
Definition log (line : string) : M unit :=
  fun w => (Returned tt, {| ui := ui w; console := console w ++ [line]; wire := wire w |}).

(** *** State setters *)

Definition setIsAnalyzing (b : bool) : M unit :=
  modify (fun s =>
    {| isAnalyzing := b; analysisResult := analysisResult s; agents := agents s;
       error := error s; analysisId := analysisId s;
       blockchainStatus := blockchainStatus s; debateSessions := debateSessions s;
       greenwashingSignals := greenwashingSignals s; isDebating := isDebating s;
       currentDebateRound := currentDebateRound s |}).

Definition setAnalysisResult (r : option AnalysisResult.t) : M unit :=
  modify (fun s =>
    {| isAnalyzing := isAnalyzing s; analysisResult := r; agents := agents s;
       error := error s; analysisId := analysisId s;
       blockchainStatus := blockchainStatus s; debateSessions := debateSessions s;
       greenwashingSignals := greenwashingSignals s; isDebating := isDebating s;
       currentDebateRound := currentDebateRound s |}).

(** [setAgents(prev => f(prev))]. *)
Definition setAgents (f : list AgentStatus.t -> list AgentStatus.t) : M unit :=
  modify (fun s =>
    {| isAnalyzing := isAnalyzing s; analysisResult := analysisResult s;
       agents := f (agents s);
       error := error s; analysisId := analysisId s;
       blockchainStatus := blockchainStatus s; debateSessions := debateSessions s;
       greenwashingSignals := greenwashingSignals s; isDebating := isDebating s;
       currentDebateRound := currentDebateRound s |}).

Definition setError (e : option string) : M unit :=
  modify (fun s =>
    {| isAnalyzing := isAnalyzing s; analysisResult := analysisResult s;
       agents := agents s;
       error := e; analysisId := analysisId s;
       blockchainStatus := blockchainStatus s; debateSessions := debateSessions s;
       greenwashingSignals := greenwashingSignals s; isDebating := isDebating s;
       currentDebateRound := currentDebateRound s |}).

Definition setBlockchainStatus (b : option Blob) : M unit :=
  modify (fun s =>
    {| isAnalyzing := isAnalyzing s; analysisResult := analysisResult s;
       agents := agents s;
       error := error s; analysisId := analysisId s;
       blockchainStatus := b; debateSessions := debateSessions s;
       greenwashingSignals := greenwashingSignals s; isDebating := isDebating s;
       currentDebateRound := currentDebateRound s |}).

Definition setDebateSessions (l : list Blob) : M unit :=
  modify (fun s =>
    {| isAnalyzing := isAnalyzing s; analysisResult := analysisResult s;
       agents := agents s;
       error := error s; analysisId := analysisId s;
       blockchainStatus := blockchainStatus s; debateSessions := l;
       greenwashingSignals := greenwashingSignals s; isDebating := isDebating s;
       currentDebateRound := currentDebateRound s |}).

Definition setGreenwashingSignals (l : list Blob) : M unit :=
  modify (fun s =>
    {| isAnalyzing := isAnalyzing s; analysisResult := analysisResult s;
       agents := agents s;
       error := error s; analysisId := analysisId s;
       blockchainStatus := blockchainStatus s; debateSessions := debateSessions s;
       greenwashingSignals := l; isDebating := isDebating s;
       currentDebateRound := currentDebateRound s |}).

Definition setIsDebating (b : bool) : M unit :=
  modify (fun s =>
    {| isAnalyzing := isAnalyzing s; analysisResult := analysisResult s;
       agents := agents s;
       error := error s; analysisId := analysisId s;
       blockchainStatus := blockchainStatus s; debateSessions := debateSessions s;
       greenwashingSignals := greenwashingSignals s; isDebating := b;
       currentDebateRound := currentDebateRound s |}).

Definition setCurrentDebateRound (n : Z) : M unit :=
  modify (fun s =>
    {| isAnalyzing := isAnalyzing s; analysisResult := analysisResult s;
       agents := agents s;
       error := error s; analysisId := analysisId s;
       blockchainStatus := blockchainStatus s; debateSessions := debateSessions s;
       greenwashingSignals := greenwashingSignals s; isDebating := isDebating s;
       currentDebateRound := n |}).

(** *** Requests *)

Definition record (e : Exchange) (w : World) : World :=
  {| ui := ui w; console := console w; wire := wire w ++ [e] |}.

(** [await AnalysisAPI.getAnalysisStatus(id)]. *)
Definition API_getAnalysisStatus (be : Backend) (who : Origin) (id : string)
  : M StatusJson.t :=
  fun w =>
    let reply := statusReply be (length (wire w)) id in
    let w' := record (StatusExchange who id reply) w in
    match reply with
    | Some status => (Returned status, w')
    | None => (Thrown, w')
    end.

(** [await AnalysisAPI.getAnalysisResults(id)]. *)
Definition API_getAnalysisResults (be : Backend) (id : string) : M Payload.t :=
  fun w =>
    let reply := resultsReply be (length (wire w)) id in
    let w' := record (ResultsExchange id reply) w in
    match reply with
    | Some results => (Returned results, w')
    | None => (Thrown, w')
    end.

(** [Date.now()]. *)
Definition Date_now (be : Backend) : M Z :=
  fun w => (Returned (dateNow be (length (wire w))), w).

(** *** processResults and its helpers *)

(** The [titles] table of [getSDGTitle]. *)
Definition titles (goal : Z) : option string :=
  match goal with
  | 1 => Some "No Poverty"
  | 2 => Some "Zero Hunger"
  | 3 => Some "Good Health"
  | 4 => Some "Quality Education"
  | 5 => Some "Gender Equality"
  | 6 => Some "Clean Water"
  | 7 => Some "Clean Energy"
  | 8 => Some "Decent Work"
  | 9 => Some "Innovation"
  | 10 => Some "Reduced Inequality"
  | 11 => Some "Sustainable Cities"
  | 12 => Some "Responsible Consumption"
  | 13 => Some "Climate Action"
  | 14 => Some "Life Below Water"
  | 15 => Some "Life on Land"
  | 16 => Some "Peace & Justice"
  | 17 => Some "Partnerships"
  | _ => None
  end%Z.

(** [getSDGTitle]: [titles[goal] || `SDG ${goal}`]. *)
Definition getSDGTitle (goal : option Z) : string :=
  JS.orStrD (JS.chain goal titles) ("SDG " ++ JS.showOptZ goal).

(** [mapSeverity]. *)
Definition mapSeverity (severity : string) : Severity :=
  let lower := JS.toLowerCase severity in
  if JS.includes lower "critical" || JS.includes lower "severe" then critical
  else if JS.includes lower "high" then high
  else if JS.includes lower "low" || JS.includes lower "minor" then low
  else medium.

(** [a || b] on optional integers ([0] is falsy). *)
Definition orInt (a b : option Z) : option Z :=
  match a with
  | Some 0%Z => b
  | Some _ => a
  | None => b
  end.

(** [a || d] on an optional integer, [d] a literal. *)
Definition orIntD (a : option Z) (d : Z) : Z :=
  match a with
  | Some 0%Z => d
  | Some n => n
  | None => d
  end.

(** [sdg.score > 50], false when the score is missing. *)
Definition scoreAbove50 (score : option Q) : bool :=
  match score with
  | Some q => JS.gt q 50
  | None => false
  end.

(** The object the [.map] over [Object.entries(data.sdg_impact)] builds
    from one [[goal, score]] entry. *)
Definition sdgOfEntry (entry : string * Q) : SdgJson.t :=
  let '(goal, score) := entry in
  {| SdgJson.goal := JS.parseInt goal;
     SdgJson.sdg_number := None;
     SdgJson.score := Some score;
     SdgJson.impact_score := None;
     SdgJson.impact_type := Some (if JS.gt score 50 then "positive" else "neutral");
     SdgJson.evidence := None;
     SdgJson.initiatives := None |}.

(** The element the [forEach] pushes onto [sdgImpacts]. *)
Definition sdgImpactOf (sdg : SdgJson.t) : SDGImpact.t :=
  {| SDGImpact.goal := orInt (SdgJson.goal sdg) (SdgJson.sdg_number sdg);
     SDGImpact.title := getSDGTitle (orInt (SdgJson.goal sdg) (SdgJson.sdg_number sdg));
     SDGImpact.score :=
       JS.Math_round
         (JS.orNumD (JS.orNum (SdgJson.score sdg) (SdgJson.impact_score sdg)) 0);
     SDGImpact.impact :=
       JS.orStrD (SdgJson.impact_type sdg)
         (if scoreAbove50 (SdgJson.score sdg) then "positive" else "neutral");
     SDGImpact.evidence :=
       JS.orObjD (JS.orObj (SdgJson.evidence sdg) (SdgJson.initiatives sdg)) [] |}.

(** The [sdgData] local. *)
Definition sdgData (data : Payload.t) : list SdgJson.t :=
  match Payload.top_sdgs data with
  | Some l => l
  | None => map sdgOfEntry (JS.orObjD (Payload.sdg_impact data) [])
  end.

(** The [sdgImpacts] array once the first [if] has run. *)
Definition sdgImpactsOf (data : Payload.t) : list SDGImpact.t :=
  if JS.truthyObj (Payload.sdg_impact data) || JS.truthyObj (Payload.top_sdgs data)
  then map sdgImpactOf (sdgData data)
  else [].

(** The element the second [forEach] pushes onto [greenwashingAlerts]. *)
Definition alertOf (signal : SignalJson.t) : GreenwashingAlert.t :=
  {| GreenwashingAlert.severity :=
       mapSeverity
         (JS.orStrD (JS.orStr (SignalJson.severity signal) (SignalJson.risk_level signal))
            "medium");
     GreenwashingAlert.category :=
       JS.orStrD (JS.orStr (SignalJson.category signal) (SignalJson.type signal))
         "General";
     GreenwashingAlert.description :=
       JS.orStrD (JS.orStr (SignalJson.description signal) (SignalJson.signal signal)) "";
     GreenwashingAlert.evidence :=
       JS.orObjD (JS.orObj (SignalJson.evidence signal) (SignalJson.indicators signal)) [];
     GreenwashingAlert.confidence :=
       JS.orNumD
         (JS.orNum (SignalJson.confidence signal) (SignalJson.confidence_score signal))
         0.5 |}.

(** The [greenwashingAlerts] array once the second [if] has run. *)
Definition greenwashingAlertsOf (data : Payload.t) : list GreenwashingAlert.t :=
  let signals :=
    JS.orObj (JS.chain (Payload.debate_summary data) DebateSummaryJson.greenwashing_signals)
             (Payload.greenwashing_alerts data) in
  if JS.truthyObj signals then map alertOf (JS.orObjD signals []) else [].

(** The [esgScores] local. *)
Definition esgScoresOf (data : Payload.t) : ESGScores.t :=
  {| ESGScores.environmental :=
       JS.orNumD (JS.orNum (Payload.environmental_score data)
                    (JS.chain (Payload.esg_scores data) EsgScoresJson.environmental)) 0;
     ESGScores.social :=
       JS.orNumD (JS.orNum (Payload.social_score data)
                    (JS.chain (Payload.esg_scores data) EsgScoresJson.social)) 0;
     ESGScores.governance :=
       JS.orNumD (JS.orNum (Payload.governance_score data)
                    (JS.chain (Payload.esg_scores data) EsgScoresJson.governance)) 0;
     ESGScores.overall :=
       JS.orNumD (JS.orNum (Payload.overall_score data)
                    (JS.chain (Payload.esg_scores data) EsgScoresJson.overall)) 0 |}.

(** [data.debate_summary?.resolution?.final_confidence]. *)
Definition final_confidence (data : Payload.t) : option Q :=
  JS.chain (JS.chain (Payload.debate_summary data) DebateSummaryJson.resolution)
           ResolutionJson.final_confidence.

(** [new Date(data.completed_at || data.created_at || Date.now())]. *)
Definition analysisDateOf (now : Z) (data : Payload.t) : JsDate :=
  match JS.orStr (Payload.completed_at data) (Payload.created_at data) with
  | Some s => if String.eqb s "" then DateOfMillis now else DateOfString s
  | None => DateOfMillis now
  end.

(** The [result] local of [processResults]: [agents] is the array the
    closure captured, [now] the reading of [Date.now()]. *)
Definition resultOf (agents : list AgentStatus.t) (now : Z) (data : Payload.t)
  : AnalysisResult.t :=
  {| AnalysisResult.company :=
       {| Company.name :=
            JS.orStrD (JS.orStr (Payload.company_name data) (Payload.ticker data))
              "Unknown";
          Company.ticker := Payload.ticker data |};
     AnalysisResult.esgScores := esgScoresOf data;
     AnalysisResult.sdgImpacts := sdgImpactsOf data;
     AnalysisResult.greenwashingAlerts := greenwashingAlertsOf data;
     AnalysisResult.agents := agents;
     AnalysisResult.debate :=
       JS.orObjD (JS.chain (Payload.debate_summary data) DebateSummaryJson.arguments) [];
     AnalysisResult.analysisDate := analysisDateOf now data;
     AnalysisResult.confidence :=
       JS.orNumD (JS.orNum (final_confidence data) (Payload.confidence data)) 0.85 |}.

(** [processResults(data)]. Reading a property of an absent [data] throws,
    after the first [console.log]. *)
Definition processResults (cl : Closure) (be : Backend) (data : option Payload.t)
  : M unit :=
  log "Processing results:" ;;
  match data with
  | None => throw
  | Some data =>
      now <- Date_now be ;;
      setAnalysisResult (Some (resultOf (seen_agents cl) now data)) ;;
      when (JS.truthyObj (Payload.blockchain data))
        (setBlockchainStatus (Payload.blockchain data)) ;;
      (let sessions :=
         JS.orObj (JS.chain (Payload.orchestrator_summary data)
                     OrchestratorSummaryJson.debate_sessions)
                  (Payload.debate_sessions data) in
       when (JS.truthyObj sessions) (setDebateSessions (JS.orObjD sessions []))) ;;
      (let signals :=
         JS.orObj (JS.chain (Payload.orchestrator_summary data)
                     OrchestratorSummaryJson.greenwashing_signals)
                  (Payload.greenwashing_signals data) in
       when (JS.truthyObj signals) (setGreenwashingSignals (JS.orObjD signals [])))
  end.

(** *** fetchFinalResults *)

(** [fetchFinalResults(id)], run to completion. *)
Definition fetchFinalResults (cl : Closure) (be : Backend) (id : string) : M unit :=
  try_catch
    (results <- API_getAnalysisResults be id ;;
     processResults cl be (Some results) ;;
     setIsAnalyzing false)
    (log "Error fetching results:" ;;
     try_catch
       (status <- API_getAnalysisStatus be ByFetch id ;;
        when (JS.truthyObj (StatusJson.results status))
          (processResults cl be (StatusJson.results status)))
       (setError (Some "Failed to fetch analysis results")) ;;
     setIsAnalyzing false).

(** *** handleWebSocketMessage *)

(** The [case] labels of the [switch (message.type)], in source order. *)
Definition caseLabels : list string :=
  [ "connected"; "status"; "progress"; "agent_start"; "agent_complete";
    "debate_update"; "debate_complete"; "result"; "error" ].

(** [agent.id === message.agent_id]. *)
Definition isAgent (agent_id : option string) (agent : AgentStatus.t) : bool :=
  match agent_id with
  | Some i => String.eqb (AgentStatus.id agent) i
  | None => false
  end.

(** The update of the [agent_start] case. *)
Definition startAgent (message : WsMessage.t) (agent : AgentStatus.t) : AgentStatus.t :=
  if isAgent (WsMessage.agent_id message) agent then
    {| AgentStatus.id := AgentStatus.id agent;
       AgentStatus.name := AgentStatus.name agent;
       AgentStatus.role := AgentStatus.role agent;
       AgentStatus.status := working;
       AgentStatus.currentTask :=
         Some (JS.orStrD (WsMessage.task message) "Analyzing...");
       AgentStatus.progress := 0;
       AgentStatus.findings := AgentStatus.findings agent;
       AgentStatus.avatar := AgentStatus.avatar agent |}
  else agent.

(** The update of the [agent_complete] case. *)
Definition completeAgent (message : WsMessage.t) (agent : AgentStatus.t) : AgentStatus.t :=
  if isAgent (WsMessage.agent_id message) agent then
    {| AgentStatus.id := AgentStatus.id agent;
       AgentStatus.name := AgentStatus.name agent;
       AgentStatus.role := AgentStatus.role agent;
       AgentStatus.status := completed;
       AgentStatus.currentTask := AgentStatus.currentTask agent;
       AgentStatus.progress := 100;
       AgentStatus.findings := Some (JS.orObjD (WsMessage.findings message) []);
       AgentStatus.avatar := AgentStatus.avatar agent |}
  else agent.

(** The update of the [debate_update] case. *)
Definition debateAgent (message : WsMessage.t) (agent : AgentStatus.t) : AgentStatus.t :=
  if String.eqb (AgentStatus.id agent) "orchestrator" then
    {| AgentStatus.id := AgentStatus.id agent;
       AgentStatus.name := AgentStatus.name agent;
       AgentStatus.role := AgentStatus.role agent;
       AgentStatus.status := debating;
       AgentStatus.currentTask :=
         Some ("Debate Round " ++ JS.showOptZ (WsMessage.round message));
       AgentStatus.progress := AgentStatus.progress agent;
       AgentStatus.findings := AgentStatus.findings agent;
       AgentStatus.avatar := AgentStatus.avatar agent |}
  else agent.

(** [handleWebSocketMessage(message)]; [cl] holds the [analysisId] and
    [agents] of the render that created the callback. *)
Definition handleWebSocketMessage (cl : Closure) (be : Backend) (message : WsMessage.t)
  : M unit :=
  log "WebSocket message:" ;;
  let type := WsMessage.type message in
  if String.eqb type "connected" then
    log "Connected to analysis WebSocket"
  else if String.eqb type "status" then
    if JS.strictEq (WsMessage.status message) "completed" then
      match seen_analysisId cl with
      | Some analysisId =>
          if String.eqb analysisId "" then ret tt
          else fetchFinalResults cl be analysisId
      | None => ret tt
      end
    else if JS.strictEq (WsMessage.status message) "failed" then
      setError (Some (JS.orStrD (WsMessage.message message) "Analysis failed")) ;;
      setIsAnalyzing false
    else ret tt
  else if String.eqb type "progress" then
    log "Progress:"
  else if String.eqb type "agent_start" then
    setAgents (map (startAgent message))
  else if String.eqb type "agent_complete" then
    setAgents (map (completeAgent message))
  else if String.eqb type "debate_update" then
    setIsDebating true ;;
    setCurrentDebateRound (orIntD (WsMessage.round message) 0%Z) ;;
    setAgents (map (debateAgent message))
  else if String.eqb type "debate_complete" then
    setIsDebating false
  else if String.eqb type "result" then
    processResults cl be (WsMessage.data message) ;;
    setIsAnalyzing false
  else if String.eqb type "error" then
    setError (Some (JS.orStrD (WsMessage.message message) "An error occurred")) ;;
    setIsAnalyzing false
  else ret tt.

(** [ws.onmessage] of [AnalysisAPI.connectWebSocket], for a frame that
    parsed: the callback runs inside the handler's [try]. *)
Definition onmessage (cl : Closure) (be : Backend) (message : WsMessage.t) : M unit :=
  try_catch
    (handleWebSocketMessage cl be message)
    (log "Failed to parse WebSocket message:").

(** *** pollAnalysisStatus *)

Definition maxAttempts : nat := 120.

(** The agent update the poll applies when [status.completed_agents] is
    present. *)
Definition pollAgent (status : StatusJson.t) (completed_agents : list string)
  (agent : AgentStatus.t) : AgentStatus.t :=
  {| AgentStatus.id := AgentStatus.id agent;
     AgentStatus.name := AgentStatus.name agent;
     AgentStatus.role := AgentStatus.role agent;
     AgentStatus.status :=
       if JS.arrIncludes completed_agents (AgentStatus.id agent) then completed
       else if match StatusJson.pending_agents status with
               | Some pending => JS.arrIncludes pending (AgentStatus.id agent)
               | None => false
               end
            then working
            else AgentStatus.status agent;
     AgentStatus.currentTask := AgentStatus.currentTask agent;
     AgentStatus.progress :=
       if JS.arrIncludes completed_agents (AgentStatus.id agent) then 100
       else AgentStatus.progress agent;
     AgentStatus.findings := AgentStatus.findings agent;
     AgentStatus.avatar := AgentStatus.avatar agent |}.

(** How the [try] block of [poll] ends when it does not throw. *)
Inductive Next :=
| Done       (* [return] *)
| Continue.  (* [attempts++; setTimeout(poll, 1000)] *)

(** The [try] block of [poll]. *)
Definition pollTry (cl : Closure) (be : Backend) (id : string) : M Next :=
  status <- API_getAnalysisStatus be ByPoll id ;;
  log "Poll status:" ;;
  match StatusJson.completed_agents status with
  | Some completed_agents => setAgents (map (pollAgent status completed_agents))
  | None => ret tt
  end ;;
  if JS.strictEq (StatusJson.status status) "completed" then
    match StatusJson.results status with
    | Some results => processResults cl be (Some results)
    | None => fetchFinalResults cl be id
    end ;;
    setIsAnalyzing false ;;
    ret Done
  else if JS.strictEq (StatusJson.status status) "failed" then
    setError (Some (JS.orStrD (StatusJson.error status) "Analysis failed")) ;;
    setIsAnalyzing false ;;
    ret Done
  else ret Continue.

(** The variables of one [pollAnalysisStatus(id)] activation: the local
    [attempts], the pending [setTimeout(poll, delay)] if any, and the
    world the callbacks act on. *)
Record Loop := {
  attempts : nat;
  timer : option Z;
  world : World
}.

(** One run of the [poll] closure, started by its timer. *)
Definition poll (cl : Closure) (be : Backend) (id : string) (l : Loop) : Loop :=
  if (maxAttempts <=? attempts l)%nat then
    {| attempts := attempts l;
       timer := None;
       world := snd ((setError (Some "Analysis timed out") ;;
                      setIsAnalyzing false) (world l)) |}
  else
    match pollTry cl be id (world l) with
    | (Returned Done, w) =>
        {| attempts := attempts l; timer := None; world := w |}
    | (Returned Continue, w) =>
        {| attempts := S (attempts l); timer := Some 1000%Z; world := w |}
    | (Thrown, w) =>
        {| attempts := S (attempts l); timer := Some 2000%Z; world := w |}
    end.

(** [pollAnalysisStatus(id)]: [attempts = 0] and [setTimeout(poll, 2000)]. *)
Definition pollAnalysisStatus (w : World) : Loop :=
  {| attempts := 0; timer := Some 2000%Z; world := w |}.

(** The event loop, restricted to this activation's timer: fire it up to
    [n] times; a loop with no pending timer is at rest. *)
Fixpoint run (cl : Closure) (be : Backend) (id : string) (n : nat) (l : Loop) : Loop :=
  match n with
  | O => l
  | S n' =>
      match timer l with
      | Some _ => run cl be id n' (poll cl be id l)
      | None => l
      end
  end.

(** The status requests the [poll] closure itself has issued. *)
Definition pollRequests (log : list Exchange) : nat :=
  length (filter (fun e => match e with
                           | StatusExchange ByPoll _ _ => true
                           | _ => false
                           end) log).

(** All requests to the status route, the fallback of [fetchFinalResults]
    included. *)
Definition statusRequests (log : list Exchange) : nat :=
  length (filter (fun e => match e with
                           | StatusExchange _ _ _ => true
                           | _ => false
                           end) log).

(** The fallback of [fetchFinalResults] came back without results: the
    branch that stores nothing and reports nothing. *)
Definition silentFallback (log : list Exchange) : bool :=
  existsb (fun e => match e with
                    | StatusExchange ByFetch _ (Some status) =>
                        negb (JS.truthyObj (StatusJson.results status))
                    | _ => false
                    end) log.

End Dashboard.

(** ** The specification's own tables *)

Module Spec.

(** The risk bands of the specification: critical below 20, high 20-40,
    moderate 40-60, low 60-80, minimal from 80. *)
Definition riskLevel (score : Q) : string :=
  if JS.ge score 80 then "minimal"
  else if JS.ge score 60 then "low"
  else if JS.ge score 40 then "moderate"
  else if JS.ge score 20 then "high"
  else "critical".

(** The three-pillar rollup of the specification: weights 0.33, 0.33 and
    0.34. *)
Definition weightedMean (environmental social governance : Q) : Q :=
  0.33 * environmental + 0.33 * social + 0.34 * governance.

(** The progress events of the specification. *)
Definition taxonomy : list string :=
  [ "run_started"; "worker_completed"; "worker_timeout"; "debate_round_started";
    "debate_round_completed"; "run_completed"; "run_failed" ].

End Spec.

(** ** Belief revision under challenge *)

Module Debate.

(** Modelled from the spec: the kinds of evidence of its data model (the
    Python models are not among the sources). *)
Inductive EvidenceKind :=
| document | sensor_reading | certification | ledger_record | media_mention
| public_record.

(** Modelled from the spec: one observed fact, with its fixed reliability
    in [0,1] (the Python [Evidence] class is not among the sources). *)
Record Evidence := {
  kind : EvidenceKind;
  source : string;
  reliability : Q;
  observedAt : Z
}.

(** Modelled from the spec: the domains a finding or a worker belongs to
    (the Python enumerations are not among the sources). *)
Inductive Category :=
| environmental | social | governance | financial_inclusion | compliance.

Definition Category_eqb (a b : Category) : bool :=
  match a, b with
  | environmental, environmental
  | social, social
  | governance, governance
  | financial_inclusion, financial_inclusion
  | compliance, compliance => true
  | _, _ => false
  end.

(** Modelled from the spec: a worker's claim, with the fields the
    revision reads or writes (the Python [Finding] class is not among the
    sources). *)
Record Finding := {
  id : string;
  producedBy : string;
  category : Category;
  confidence : Q;
  evidence : list Evidence
}.

(** Modelled from the spec: one worker's contest of another's finding
    (no challenge type is among the sources). *)
Record Challenge := {
  targetFindingId : string;
  challenger : string;
  counterEvidence : list Evidence;
  rationale : string;
  round : nat
}.

Section Revision.

(** The engine's configuration: each worker's domain, how a batch of
    counter-evidence is reduced to one reliability in [0,1], and the two
    values of the independence bonus. *)
Variable domainOf : string -> Category.
Variable normalizedReliability : list Evidence -> Q.
Variable bonusSame bonusCross : Q.

(** Modelled from the spec: the challenge-source-independence bonus; the
    Python [challenge_finding] that computes it is not part of the sources
    at hand. A challenger from another domain than the finding's category
    gets the larger of the two bonuses. *)
Definition independenceBonus (f : Finding) (c : Challenge) : Q :=
  if Category_eqb (domainOf (challenger c)) (category f) then bonusSame
  else bonusCross.

(** Modelled from the spec: [counter_weight], the counter-evidence's
    normalized reliability times the independence bonus ([challenge_finding]
    is missing from the sources). *)
Definition counterWeight (f : Finding) (c : Challenge) : Q :=
  normalizedReliability (counterEvidence c) * independenceBonus f c.

(** Modelled from the spec: the belief revision of the Confidence
    Calculator, [old_confidence * (1 - counter_weight)] (its code is
    missing from the sources). *)
Definition revise (old_confidence counter_weight : Q) : Q :=
  old_confidence * (1 - counter_weight).

(** Modelled from the spec: applying one challenge to a finding, as the
    Debate Coordinator does ([challenge_finding] is missing from the
    sources). A challenge without counter-evidence is malformed and
    ignored; otherwise the counter-evidence is appended and the confidence
    revised. *)
Definition applyChallenge (f : Finding) (c : Challenge) : Finding :=
  match counterEvidence c with
  | [] => f
  | _ :: _ =>
      {| id := id f;
         producedBy := producedBy f;
         category := category f;
         confidence := revise (confidence f) (counterWeight f c);
         evidence := evidence f ++ counterEvidence c |}
  end.

(** Modelled from the spec: a round's challenges applied in order (the
    Debate Coordinator's loop is missing from the sources). *)
Definition applyChallenges (f : Finding) (cs : list Challenge) : Finding :=
  fold_left applyChallenge cs f.

End Revision.

End Debate.

(** ** Observations and sample inputs *)

Module Observe.

(** A message type is dispatched on when some message of that type makes
    the handler do more than its unconditional first [console.log]. *)
Definition dispatches (type : string) : Prop :=
  exists cl be message w,
    WsMessage.type message = type /\
    Dashboard.handleWebSocketMessage cl be message w
    <> Dashboard.log "WebSocket message:" w.

(** A confidence value the [||] chain skips: absent, [null] or zero. *)
Definition absentOrZero (x : option Q) : Prop :=
  match x with
  | Some q => q == 0
  | None => True
  end.

(** The result the dashboard holds in a world. *)
Definition shown (w : Dashboard.World) : option AnalysisResult.t :=
  Dashboard.analysisResult (Dashboard.ui w).

(** The caller got something: a stored result or an error message. *)
Definition answered (w : Dashboard.World) : Prop :=
  Dashboard.analysisResult (Dashboard.ui w) <> None \/
  Dashboard.error (Dashboard.ui w) <> None.

End Observe.

Module Sample.

Definition payload : Payload.t :=
  {| Payload.environmental_score := None;
     Payload.social_score := None;
     Payload.governance_score := None;
     Payload.overall_score := None;
     Payload.esg_scores := None;
     Payload.sdg_impact := None;
     Payload.top_sdgs := None;
     Payload.debate_summary := None;
     Payload.greenwashing_alerts := None;
     Payload.company_name := None;
     Payload.ticker := None;
     Payload.completed_at := None;
     Payload.created_at := None;
     Payload.confidence := None;
     Payload.blockchain := None;
     Payload.orchestrator_summary := None;
     Payload.debate_sessions := None;
     Payload.greenwashing_signals := None |}.

(** A payload that reports confidence 0 and three SDG scores. *)
Definition scored : Payload.t :=
  {| Payload.environmental_score := Some 70;
     Payload.social_score := Some 55;
     Payload.governance_score := Some 62;
     Payload.overall_score := Some 62;
     Payload.esg_scores := None;
     Payload.sdg_impact := Some [("7", 81); ("8", 12); ("13", 50)];
     Payload.top_sdgs := None;
     Payload.debate_summary := None;
     Payload.greenwashing_alerts := None;
     Payload.company_name := Some "Tesla";
     Payload.ticker := Some "TSLA";
     Payload.completed_at := Some "2025-01-01T00:00:00Z";
     Payload.created_at := None;
     Payload.confidence := Some 0;
     Payload.blockchain := None;
     Payload.orchestrator_summary := None;
     Payload.debate_sessions := None;
     Payload.greenwashing_signals := None |}.

Definition agent (id : string) (status : AgentState) : AgentStatus.t :=
  {| AgentStatus.id := id;
     AgentStatus.name := id;
     AgentStatus.role := "";
     AgentStatus.status := status;
     AgentStatus.currentTask := None;
     AgentStatus.progress := 0;
     AgentStatus.findings := None;
     AgentStatus.avatar := None |}.

(** The state [handleAnalyze] leaves behind before the first reply. *)
Definition analyzing : Dashboard.State :=
  {| Dashboard.isAnalyzing := true;
     Dashboard.analysisResult := None;
     Dashboard.agents := [agent "sentinel" idle; agent "orchestrator" idle];
     Dashboard.error := None;
     Dashboard.analysisId := None;
     Dashboard.blockchainStatus := None;
     Dashboard.debateSessions := [];
     Dashboard.greenwashingSignals := [];
     Dashboard.isDebating := false;
     Dashboard.currentDebateRound := 0 |}.

Definition world : Dashboard.World :=
  {| Dashboard.ui := analyzing; Dashboard.console := []; Dashboard.wire := [] |}.

(** The same world in the middle of a debate. *)
Definition debatingWorld : Dashboard.World :=
  snd (Dashboard.setIsDebating true world).

(** The closure of the first render: no analysis id yet. *)
Definition firstRender : Dashboard.Closure :=
  {| Dashboard.seen_analysisId := None; Dashboard.seen_agents := [] |}.

(** A closure created once the analysis id was known. *)
Definition laterRender : Dashboard.Closure :=
  {| Dashboard.seen_analysisId := Some "run-1";
     Dashboard.seen_agents := [agent "sentinel" idle] |}.

Definition message (type : string) (status : option string) : WsMessage.t :=
  {| WsMessage.type := type;
     WsMessage.status := status;
     WsMessage.message := None;
     WsMessage.agent_id := Some "sentinel";
     WsMessage.task := None;
     WsMessage.findings := None;
     WsMessage.round := Some 2%Z;
     WsMessage.data := Some scored |}.

Definition statusJson (status : string) (results : option Payload.t) : StatusJson.t :=
  {| StatusJson.status := Some status;
     StatusJson.results := results;
     StatusJson.error := None;
     StatusJson.completed_agents := None;
     StatusJson.pending_agents := None |}.

(** A backend that is unreachable; its clock reads [now]. *)
Definition offline (now : Z) : Dashboard.Backend :=
  {| Dashboard.statusReply := fun _ _ => None;
     Dashboard.resultsReply := fun _ _ => None;
     Dashboard.dateNow := fun _ => now |}.

(** A backend whose run never leaves the "running" status. *)
Definition stuck : Dashboard.Backend :=
  {| Dashboard.statusReply := fun _ _ => Some (statusJson "running" None);
     Dashboard.resultsReply := fun _ _ => None;
     Dashboard.dateNow := fun _ => 0%Z |}.

(** A backend whose run is complete and whose results can be fetched. *)
Definition finished : Dashboard.Backend :=
  {| Dashboard.statusReply := fun _ _ => Some (statusJson "completed" None);
     Dashboard.resultsReply := fun _ _ => Some scored;
     Dashboard.dateNow := fun _ => 0%Z |}.

(** A backend that reports completion but serves no results anywhere. *)
Definition hollow : Dashboard.Backend :=
  {| Dashboard.statusReply := fun _ _ => Some (statusJson "completed" None);
     Dashboard.resultsReply := fun _ _ => None;
     Dashboard.dateNow := fun _ => 0%Z |}.

(** A backend that says "running" 119 times, then reports completion
    without results and serves none. *)
Definition lateHollow : Dashboard.Backend :=
  {| Dashboard.statusReply :=
       fun n _ => if (n <? 119)%nat then Some (statusJson "running" None)
                  else Some (statusJson "completed" None);
     Dashboard.resultsReply := fun _ _ => None;
     Dashboard.dateNow := fun _ => 0%Z |}.

End Sample.

(** ** Terminal paths of a run *)

Module Runs.

(** The messages that end a run from the consumer's side: an [error]
    message, a [result] message that carries its payload, a [status]
    message saying [failed], and a [status] message saying [completed]
    received by a callback that knows the analysis id. *)
Definition terminalMessage (cl : Dashboard.Closure) (message : WsMessage.t) : Prop :=
  WsMessage.type message = "error" \/
  (WsMessage.type message = "result" /\ WsMessage.data message <> None) \/
  (WsMessage.type message = "status" /\ WsMessage.status message = Some "failed") \/
  (WsMessage.type message = "status" /\
   WsMessage.status message = Some "completed" /\
   JS.truthyStr (Dashboard.seen_analysisId cl) = true).

(** The world at the end of a terminal path that starts in [w0]: after a
    terminal message went through [ws.onmessage], or after the polling
    loop ran until no timer was left. *)
Inductive Terminal (w0 : Dashboard.World) : Dashboard.World -> Prop :=
| ByMessage cl be message :
    terminalMessage cl message ->
    Terminal w0 (snd (Dashboard.onmessage cl be message w0))
| ByPolling cl be id :
    Terminal w0
      (Dashboard.world
         (Dashboard.run cl be id (S Dashboard.maxAttempts)
            (Dashboard.pollAnalysisStatus w0))).

(** A status reply that keeps the loop polling: a rejected request, or a
    status that is neither [completed] nor [failed]. *)
Definition keepsPolling (reply : option StatusJson.t) : Prop :=
  match reply with
  | Some status =>
      JS.strictEq (StatusJson.status status) "completed" = false /\
      JS.strictEq (StatusJson.status status) "failed" = false
  | None => True
  end.

(** The [status] message that says [completed]. *)
Definition completedMessage : WsMessage.t :=
  {| WsMessage.type := "status";
     WsMessage.status := Some "completed";
     WsMessage.message := None;
     WsMessage.agent_id := None;
     WsMessage.task := None;
     WsMessage.findings := None;
     WsMessage.round := None;
     WsMessage.data := None |}.

End Runs.

(** ** A sample debate *)

Module Scenario.

(** Worker A speaks for the environmental domain, B and C for others. *)
Definition domainOf (worker : string) : Debate.Category :=
  if String.eqb worker "A" then Debate.environmental
  else if String.eqb worker "B" then Debate.social
  else Debate.governance.

Definition bonusSame : Q := 0.5.
Definition bonusCross : Q := 0.75.

(** One way to reduce counter-evidence to a reliability in [0,1]: the mean
    of the items' reliabilities. *)
Definition meanReliability (l : list Debate.Evidence) : Q :=
  match l with
  | [] => 0
  | _ =>
      fold_right (fun e acc => Debate.reliability e + acc) 0 l
      / inject_Z (Z.of_nat (length l))
  end.

Definition cert : Debate.Evidence :=
  {| Debate.kind := Debate.certification;
     Debate.source := "ISO 14001";
     Debate.reliability := 0.9;
     Debate.observedAt := 0 |}.

Definition mention (reliability : Q) : Debate.Evidence :=
  {| Debate.kind := Debate.media_mention;
     Debate.source := "press";
     Debate.reliability := reliability;
     Debate.observedAt := 1 |}.

Definition finding (confidence : Q) : Debate.Finding :=
  {| Debate.id := "f1";
     Debate.producedBy := "A";
     Debate.category := Debate.environmental;
     Debate.confidence := confidence;
     Debate.evidence := [cert] |}.

Definition challengeBy (worker : string) (reliability : Q) : Debate.Challenge :=
  {| Debate.targetFindingId := "f1";
     Debate.challenger := worker;
     Debate.counterEvidence := [mention reliability];
     Debate.rationale := "";
     Debate.round := 1 |}.

End Scenario.

(** ** Company names and tickers ([getTickerFromInput]) *)

Module Ticker.

(** The strings the text functions are exact on: every character below
    128. *)
Definition isAscii (s : string) : Prop :=
  Forall (fun c => (nat_of_ascii c < 128)%nat) (list_ascii_of_string s).

(** Drops the blanks at the end of a string. *)
Fixpoint trimEnd (s : string) : string :=
  match s with
  | EmptyString => EmptyString
  | String c r =>
      match trimEnd r with
      | EmptyString => if JS.isSpace c then EmptyString else String c EmptyString
      | kept => String c kept
      end
  end.

(** [s.trim()]. *)
Definition trim (s : string) : string := trimEnd (JS.skipSpaces s).

(** The [TICKER_MAP] table, in source order. *)
Definition TICKER_MAP : list (string * string) :=
  [ ("apple", "AAPL"); ("microsoft", "MSFT"); ("tesla", "TSLA");
    ("google", "GOOGL"); ("amazon", "AMZN"); ("meta", "META");
    ("nvidia", "NVDA"); ("exxon", "XOM"); ("exxon mobil", "XOM");
    ("nike", "NKE"); ("walmart", "WMT"); ("coca-cola", "KO");
    ("pepsi", "PEP"); ("chevron", "CVX"); ("shell", "SHEL"); ("bp", "BP") ].

(** The own property [key] of a table. *)
Fixpoint own (key : string) (table : list (string * string)) : option string :=
  match table with
  | [] => None
  | (k, v) :: rest => if String.eqb key k then Some v else own key rest
  end.

(** The lower-case keys every object inherits from [Object.prototype]:
    [TICKER_MAP[key]] is a truthy object for them, not a string. *)
Definition inherited (key : string) : bool :=
  String.eqb key "constructor" || String.eqb key "__proto__".

(** What [getTickerFromInput] returns: a ticker symbol, or for an
    inherited key the inherited object. *)
Inductive Result :=
| Symbol (ticker : string)
| Inherited (key : string).

(** [getTickerFromInput(input)]. Both branches of the shape test return
    [input.toUpperCase().trim()]. *)
Definition getTickerFromInput (input : string) : Result :=
  let normalized := trim (JS.toLowerCase input) in
  match own normalized TICKER_MAP with
  | Some ticker => Symbol ticker
  | None =>
      if inherited normalized then Inherited normalized
      else Symbol (trim (JS.toUpperCase input))
  end.

End Ticker.

(** ** What the score components print *)

Module ScoreView.

(** The number [ESGScoreCard] prints next to its label:
    [Math.round(score)]. *)
Definition cardNumber (score : Q) : Z := JS.Math_round score.

(** The three "Strongest in ..." spans of [ESGRadarChart], each with the
    condition that renders it. *)
Definition strongestEnvironmental (p : ESGRadarChart.Props) : bool :=
  JS.ge (ESGRadarChart.envScore p) (ESGRadarChart.socScore p)
  && JS.ge (ESGRadarChart.envScore p) (ESGRadarChart.govScore p).

Definition strongestSocial (p : ESGRadarChart.Props) : bool :=
  JS.gt (ESGRadarChart.socScore p) (ESGRadarChart.envScore p)
  && JS.ge (ESGRadarChart.socScore p) (ESGRadarChart.govScore p).

Definition strongestGovernance (p : ESGRadarChart.Props) : bool :=
  JS.gt (ESGRadarChart.govScore p) (ESGRadarChart.envScore p)
  && JS.gt (ESGRadarChart.govScore p) (ESGRadarChart.socScore p).

(** The insight spans that are rendered, in source order. *)
Definition insights (p : ESGRadarChart.Props) : list string :=
  (if strongestEnvironmental p then ["Environmental"] else [])
  ++ (if strongestSocial p then ["Social"] else [])
  ++ (if strongestGovernance p then ["Governance"] else []).

End ScoreView.

(** ** The alert panel ([GreenwashingAlert]) *)

Module AlertPanel.

(** [a.severity === severity]. *)
Definition Severity_eqb (a b : Severity) : bool :=
  match a, b with
  | low, low | medium, medium | high, high | critical, critical => true
  | _, _ => false
  end.

(** The strings of the type ['low' | 'medium' | 'high' | 'critical']. *)
Definition severityName (s : Severity) : string :=
  match s with
  | low => "low"
  | medium => "medium"
  | high => "high"
  | critical => "critical"
  end.

(** The [count] of one cell of the summary row:
    [alerts.filter((a) => a.severity === severity).length]. *)
Definition count (severity : Severity) (alerts : list GreenwashingAlert.t) : nat :=
  length (filter (fun a => Severity_eqb (GreenwashingAlert.severity a) severity) alerts).

(** The four cells, in the order of [['critical', 'high', 'medium', 'low']]. *)
Definition summary (alerts : list GreenwashingAlert.t) : list nat :=
  map (fun severity => count severity alerts) [critical; high; medium; low].

End AlertPanel.

(** ** Decimal numerals *)

(** The value of a decimal numeral read after the digits of [acc]. *)
Fixpoint numeral (d : Decimal.uint) (acc : Z) : Z :=
  match d with
  | Decimal.Nil => acc
  | Decimal.D0 d => numeral d (10 * acc)
  | Decimal.D1 d => numeral d (10 * acc + 1)
  | Decimal.D2 d => numeral d (10 * acc + 2)
  | Decimal.D3 d => numeral d (10 * acc + 3)
  | Decimal.D4 d => numeral d (10 * acc + 4)
  | Decimal.D5 d => numeral d (10 * acc + 5)
  | Decimal.D6 d => numeral d (10 * acc + 6)
  | Decimal.D7 d => numeral d (10 * acc + 7)
  | Decimal.D8 d => numeral d (10 * acc + 8)
  | Decimal.D9 d => numeral d (10 * acc + 9)
  end%Z.

(** ** What stays fixed during a run *)

Module Invariant.

(** The part of an agent no update of the dashboard writes: who it is. *)
Definition card (agent : AgentStatus.t) : string * string * string * option string :=
  (AgentStatus.id agent, AgentStatus.name agent, AgentStatus.role agent,
   AgentStatus.avatar agent).

(** The agents on display, by identity and in order. *)
Definition roster (w : Dashboard.World) : list (string * string * string * option string) :=
  map card (Dashboard.agents (Dashboard.ui w)).

(** The error banner is rendered by [error && ...]: an empty message would
    be set and yet not shown. *)
Definition errorShows (w : Dashboard.World) : Prop :=
  Dashboard.error (Dashboard.ui w) <> Some "".

(** An error message as the callbacks build them: a text of the backend or,
    when that is missing or empty, a non-empty literal. *)
Definition errorText (e : option string) : Prop :=
  exists reported fallback,
    fallback <> "" /\ e = Some (JS.orStrD reported fallback).

End Invariant.

(** ** Backends with a scripted run *)

Module Script.

(** A run that reports "running" [k] times and then fails with [reason]. *)
Definition failsAfter (k : nat) (reason : option string) : Dashboard.Backend :=
  {| Dashboard.statusReply :=
       fun n _ => if (n <? k)%nat then Some (Sample.statusJson "running" None)
                  else Some {| StatusJson.status := Some "failed";
                               StatusJson.results := None;
                               StatusJson.error := reason;
                               StatusJson.completed_agents := Some ["sentinel"];
                               StatusJson.pending_agents := None |};
     Dashboard.resultsReply := fun _ _ => None;
     Dashboard.dateNow := fun _ => 0%Z |}.

(** A run that is unreachable [k] times and then reports completion with
    its results; the clock reads the number of requests made so far. *)
Definition completesAfter (k : nat) : Dashboard.Backend :=
  {| Dashboard.statusReply :=
       fun n _ => if (n <? k)%nat then None
                  else Some (Sample.statusJson "completed" (Some Sample.payload));
     Dashboard.resultsReply := fun _ _ => None;
     Dashboard.dateNow := fun n => Z.of_nat n |}.

End Script.

(** ** Starting a run ([handleAnalyze]) *)

Module Analyze.

Local Notation "m ;; k" := (Dashboard.bind m (fun _ => k))
  (at level 61, right associativity).

(** [GAIA_AGENTS] of [services/api.ts]. *)
Definition GAIA_AGENTS : list AgentStatus.t :=
  [ {| AgentStatus.id := "sentinel"; AgentStatus.name := "Sentinel";
       AgentStatus.role := "Environmental Monitoring";
       AgentStatus.status := idle; AgentStatus.currentTask := None;
       AgentStatus.progress := 0; AgentStatus.findings := None;
       AgentStatus.avatar := Some "🛡️" |};
    {| AgentStatus.id := "veritas"; AgentStatus.name := "Veritas";
       AgentStatus.role := "Supply Chain Verification";
       AgentStatus.status := idle; AgentStatus.currentTask := None;
       AgentStatus.progress := 0; AgentStatus.findings := None;
       AgentStatus.avatar := Some "🔍" |};
    {| AgentStatus.id := "pulse"; AgentStatus.name := "Pulse";
       AgentStatus.role := "Sentiment Analysis";
       AgentStatus.status := idle; AgentStatus.currentTask := None;
       AgentStatus.progress := 0; AgentStatus.findings := None;
       AgentStatus.avatar := Some "📊" |};
    {| AgentStatus.id := "regulus"; AgentStatus.name := "Regulus";
       AgentStatus.role := "Regulatory Compliance";
       AgentStatus.status := idle; AgentStatus.currentTask := None;
       AgentStatus.progress := 0; AgentStatus.findings := None;
       AgentStatus.avatar := Some "⚖️" |};
    {| AgentStatus.id := "impact"; AgentStatus.name := "Impact";
       AgentStatus.role := "SDG Quantification";
       AgentStatus.status := idle; AgentStatus.currentTask := None;
       AgentStatus.progress := 0; AgentStatus.findings := None;
       AgentStatus.avatar := Some "🎯" |};
    {| AgentStatus.id := "nexus"; AgentStatus.name := "NEXUS";
       AgentStatus.role := "Financial Inclusion";
       AgentStatus.status := idle; AgentStatus.currentTask := None;
       AgentStatus.progress := 0; AgentStatus.findings := None;
       AgentStatus.avatar := Some "🌐" |};
    {| AgentStatus.id := "orchestrator"; AgentStatus.name := "Orchestrator";
       AgentStatus.role := "Adversarial Debate";
       AgentStatus.status := idle; AgentStatus.currentTask := None;
       AgentStatus.progress := 0; AgentStatus.findings := None;
       AgentStatus.avatar := Some "🧠" |} ].

(** [GAIA_AGENTS.map(agent => ({...agent, status: 'idle', progress: 0,
    currentTask: undefined, findings: undefined}))]. *)
Definition initialAgents : list AgentStatus.t :=
  map (fun agent =>
         {| AgentStatus.id := AgentStatus.id agent;
            AgentStatus.name := AgentStatus.name agent;
            AgentStatus.role := AgentStatus.role agent;
            AgentStatus.status := idle;
            AgentStatus.currentTask := None;
            AgentStatus.progress := 0;
            AgentStatus.findings := None;
            AgentStatus.avatar := AgentStatus.avatar agent |})
      GAIA_AGENTS.

Definition setAnalysisId (id : option string) : Dashboard.M unit :=
  Dashboard.modify (fun s =>
    {| Dashboard.isAnalyzing := Dashboard.isAnalyzing s;
       Dashboard.analysisResult := Dashboard.analysisResult s;
       Dashboard.agents := Dashboard.agents s;
       Dashboard.error := Dashboard.error s;
       Dashboard.analysisId := id;
       Dashboard.blockchainStatus := Dashboard.blockchainStatus s;
       Dashboard.debateSessions := Dashboard.debateSessions s;
       Dashboard.greenwashingSignals := Dashboard.greenwashingSignals s;
       Dashboard.isDebating := Dashboard.isDebating s;
       Dashboard.currentDebateRound := Dashboard.currentDebateRound s |}).

(** How [await AnalysisAPI.startAnalysis(...)] ends: with the id of the new
    run, or rejected with an error whose [response.data.detail] and
    [message] may be missing. *)
Inductive StartReply :=
| Started (analysis_id : string)
| Rejected (detail message : option string).

(** What the JavaScript engine contributes: the text a template literal
    gives an inherited object, the message of the TypeError raised when
    [toUpperCase] is called on one, and what [new WebSocket(url)] does:
    [None] when it constructs the socket, the message of the exception
    when it throws. *)
Record Engine := {
  inheritedText : string -> string;
  notAFunction : string;
  newWebSocket : string -> option string
}.

(** What a call leaves outside the React state: the POST it issued, the
    socket it closed, the socket [wsRef] holds afterwards (by analysis id),
    and the run it started to poll. *)
Record Outcome := {
  posted : option AnalysisAPI.Request;
  closed : option string;
  wsRef : option string;
  polling : option string;
  after : Dashboard.World
}.

(** The statements before the [try]. *)
Definition reset : Dashboard.M unit :=
  Dashboard.setError None ;;
  Dashboard.setIsAnalyzing true ;;
  Dashboard.setAnalysisResult None ;;
  Dashboard.setDebateSessions [] ;;
  Dashboard.setGreenwashingSignals [] ;;
  Dashboard.setIsDebating false ;;
  Dashboard.setCurrentDebateRound 0 ;;
  Dashboard.setBlockchainStatus None ;;
  Dashboard.setAgents (fun _ => initialAgents).

(** The [catch] block, for an error with the given [response.data.detail]
    and [message]. *)
Definition failure (detail message : option string) : Dashboard.M unit :=
  Dashboard.log "Analysis error:" ;;
  Dashboard.setError
    (Some (JS.orStrD (JS.orStr detail message) "Failed to start analysis")) ;;
  Dashboard.setIsAnalyzing false.

(** [handleAnalyze()], for the text in the input box, the socket held by
    [wsRef] and the server's answer to the POST (read only if the POST is
    issued). The polling it starts is [Dashboard.pollAnalysisStatus] on
    the world it leaves. When [new WebSocket] throws, the old socket is
    already closed and the id stored; [wsRef] is not assigned and the
    [catch] block runs. The response is taken to carry its
    [analysis_id]. *)
Definition handleAnalyze (engine : Engine) (companyInput : string)
    (socket : option string) (reply : StartReply) (w : Dashboard.World) : Outcome :=
  let input := Ticker.trim companyInput in
  if String.eqb input "" then
    {| posted := None; closed := None; wsRef := socket; polling := None; after := w |}
  else
    let w1 := snd (reset w) in
    match Ticker.getTickerFromInput input with
    | Ticker.Inherited key =>
        let w2 := snd (Dashboard.log ("Starting analysis for ticker: "
                                      ++ inheritedText engine key) w1) in
        {| posted := None; closed := None; wsRef := socket; polling := None;
           after := snd (failure None (Some (notAFunction engine)) w2) |}
    | Ticker.Symbol ticker =>
        let w2 := snd (Dashboard.log ("Starting analysis for ticker: " ++ ticker) w1) in
        let request := AnalysisAPI.request (AnalysisAPI.startAnalysis ticker (Some input)) in
        match reply with
        | Rejected detail message =>
            {| posted := Some request; closed := None; wsRef := socket;
               polling := None; after := snd (failure detail message w2) |}
        | Started analysis_id =>
            let w3 := snd ((Dashboard.log "Analysis started:" ;;
                            setAnalysisId (Some analysis_id)) w2) in
            match newWebSocket engine
                    (AnalysisAPI.url
                       (AnalysisAPI.request (AnalysisAPI.connectWebSocket analysis_id)))
            with
            | None =>
                {| posted := Some request; closed := socket;
                   wsRef := Some analysis_id; polling := Some analysis_id;
                   after := w3 |}
            | Some message =>
                {| posted := Some request; closed := socket;
                   wsRef := socket; polling := None;
                   after := snd (failure None (Some message) w3) |}
            end
        end
    end.

(** The input box holds nothing but blanks. *)
Definition blank (s : string) : Prop :=
  Forall (fun c => JS.isSpace c = true) (list_ascii_of_string s).

(** A JavaScript engine as V8 words it. *)
Definition v8 : Engine :=
  {| inheritedText := fun key =>
       if String.eqb key "constructor" then "function Object() { [native code] }"
       else "[object Object]";
     notAFunction := "ticker.toUpperCase is not a function";
     newWebSocket := fun _ => None |}.

(** The same engine on a page that may not open sockets. *)
Definition blocked : Engine :=
  {| inheritedText := inheritedText v8;
     notAFunction := notAFunction v8;
     newWebSocket := fun _ => Some "Failed to construct 'WebSocket'" |}.

End Analyze.

(** ** The history list ([AnalysisHistory]) *)

Module AnalysisHistory.

Record AnalysisSummary := {
  analysis_id : string;
  ticker : string;
  company_name : string;
  overall_score : option Q;
  risk_level : option string;
  recommendation : option string;
  greenwashing_signals_count : Z;
  created_at : option string;
  status : string
}.

(** The callback of [analyses.filter]: [searchTicker] is the text of the
    search box, [filterRisk] the chosen risk level or [null]. *)
Definition keeps (searchTicker : string) (filterRisk : option string)
    (a : AnalysisSummary) : bool :=
  if JS.truthyStr (Some searchTicker)
     && negb (JS.includes (JS.toLowerCase (ticker a)) (JS.toLowerCase searchTicker))
  then false
  else
    match filterRisk with
    | Some level =>
        if JS.truthyStr filterRisk && negb (JS.strictEq (risk_level a) level)
        then false else true
    | None => true
    end.

(** [filteredAnalyses]. *)
Definition filteredAnalyses (searchTicker : string) (filterRisk : option string)
    (analyses : list AnalysisSummary) : list AnalysisSummary :=
  filter (keeps searchTicker filterRisk) analyses.

(** The clock and the date functions of the browser: the time value
    [new Date(s).getTime()] of a string ([None] for an invalid date), the
    time value of [new Date()], and [toLocaleDateString] of a valid
    date. *)
Record Clock := {
  parse : string -> option Z;
  now : Z;
  toLocaleDateString : Z -> string
}.

(** [formatDate(dateStr)]. Time values are whole milliseconds; with an
    invalid date every comparison is false and [toLocaleDateString] gives
    'Invalid Date'. *)
Definition formatDate (env : Clock) (dateStr : option string) : string :=
  if negb (JS.truthyStr dateStr) then "N/A"
  else
    match JS.chain dateStr (parse env) with
    | None => "Invalid Date"
    | Some date =>
        let diff := (now env - date)%Z in
        let days := (diff / (1000 * 60 * 60 * 24))%Z in
        let hours := (diff / (1000 * 60 * 60))%Z in
        let minutes := (diff / (1000 * 60))%Z in
        if (minutes <? 60)%Z then JS.showZ minutes ++ "m ago"
        else if (hours <? 24)%Z then JS.showZ hours ++ "h ago"
        else if (days <? 7)%Z then JS.showZ days ++ "d ago"
        else toLocaleDateString env date
    end.

(** A clock that reads [t] and parses every string as the instant [d]. *)
Definition clockAt (t d : Z) : Clock :=
  {| parse := fun _ => Some d; now := t; toLocaleDateString := fun _ => "1/1/2025" |}.

(** A row of the list. *)
Definition row (ticker : string) (risk : option string) : AnalysisSummary :=
  {| analysis_id := "a"; ticker := ticker; company_name := ticker;
     overall_score := None; risk_level := risk; recommendation := None;
     greenwashing_signals_count := 0; created_at := None; status := "completed" |}.

End AnalysisHistory.

(** ** The demo data of [FinancialInclusionDashboard] *)

Module FinancialInclusion.

(** The locals of [generateMockData]. *)
Definition isHighInclusion (ticker companyName : string) : bool :=
  JS.includes (JS.toLowerCase ticker) "mfi"
  || JS.includes (JS.toLowerCase companyName) "micro".

Definition baseScore (ticker companyName : string) : Q :=
  if isHighInclusion ticker companyName then 75 else 55.

(** The fields of the returned object that do not draw from
    [Math.random]: [inclusion_score.grade], [washing_risk.risk_level] and
    [washing_risk.indicators]. *)
Definition grade (ticker companyName : string) : string :=
  if JS.gt (baseScore ticker companyName) 70 then "A-"
  else if JS.gt (baseScore ticker companyName) 60 then "B+"
  else "B".

Definition risk_level (ticker companyName : string) : string :=
  if JS.gt (baseScore ticker companyName) 70 then "low"
  else if JS.gt (baseScore ticker companyName) 55 then "moderate"
  else "high".

Definition indicators (ticker companyName : string) : list string :=
  if JS.gt 60 (baseScore ticker companyName)
  then ["Impact metrics may be overstated"; "Limited rural verification"]
  else [].

End FinancialInclusion.

(** ** Double-precision arithmetic *)

Module Double.

(** 2^53: up to it every integer is a double. *)
Definition limit : Q := 9007199254740992.

(** The unit roundoff of binary64, 2^-53, and half its smallest positive
    step, 2^-1075. *)
Definition u : Q := 1 # 9007199254740992.

Definition tiny : Q := Eval vm_compute in 1 # (2 ^ 1075).

(** What is used of the engine's rounding [fl] of an exact result to a
    double (round to nearest). Below 2^53 in magnitude the rounded value
    is off by at most [u * |x| + tiny], and it is at least as near to [x]
    as any integer up to 2^53 is: those integers are doubles. *)
Definition roundsToNearest (fl : Q -> Q) : Prop :=
  forall x,
    Qabs x < limit ->
    Qabs (fl x - x) <= u * Qabs x + tiny /\
    (forall k : Z,
       (Z.abs k <= 2 ^ 53)%Z -> Qabs (fl x - x) <= Qabs (inject_Z k - x)).

(** The nearest integer, ties to the even one. *)
Definition nearestEven (x : Q) : Z :=
  let f := Qfloor x in
  match Qcompare (x - inject_Z f) (1 # 2) with
  | Lt => f
  | Gt => (f + 1)%Z
  | Eq => if Z.even f then f else (f + 1)%Z
  end.

(** The exponent of the leading binary digit of [x <> 0]: the floor of
    its logarithm to base 2. *)
Definition ilog2 (x : Q) : Z :=
  let c := (Z.log2 (Z.abs (Qnum x)) - Z.log2 (Zpos (Qden x)))%Z in
  if Qle_bool (2 ^ c) (Qabs x) then c else (c - 1)%Z.

(** The exponent of the last place of the double nearest [x]: 52 places
    below the leading digit, and never below the subnormal step 2^-1074. *)
Definition lastPlace (x : Q) : Z := Z.max (ilog2 x - 52) (-1074).

(** IEEE 754 binary64 rounding to nearest, ties to even, of an exact value
    below the overflow threshold. *)
Definition binary64 (x : Q) : Q :=
  if Qeq_bool x 0 then 0
  else inject_Z (nearestEven (x / 2 ^ lastPlace x)) * 2 ^ lastPlace x.

End Double.

(** ** ESGRadarChart in double arithmetic *)

Module ESGRadarChart64.

Section Arithmetic.

(** The rounding of every arithmetic result to a double. *)
Variable fl : Q -> Q.

(** [(envScore + socScore + govScore) / 3] as the engine evaluates it:
    from left to right, every result rounded. *)
Definition avg (p : ESGRadarChart.Props) : Q :=
  fl (fl (fl (ESGRadarChart.envScore p + ESGRadarChart.socScore p)
          + ESGRadarChart.govScore p) / 3).

(** The overall number the chart prints:
    [Math.round((envScore + socScore + govScore) / 3)]. *)
Definition overallShown (p : ESGRadarChart.Props) : Z :=
  JS.Math_round (avg p).

End Arithmetic.

(** 2^40: scores up to it in magnitude keep every intermediate result far
    below 2^53. *)
Definition scoreRange : Q := 1099511627776.

(** Doubles as exact values. *)
Definition props (environmental social governance : Q) : ESGRadarChart.Props :=
  {| ESGRadarChart.environmental := Some environmental;
     ESGRadarChart.social := Some social;
     ESGRadarChart.governance := Some governance |}.

End ESGRadarChart64.

(** * Properties *)

(** ** Comparisons *)

Lemma ge_true (x y : Q) : JS.ge x y = true <-> y <= x.
Proof. unfold JS.ge. apply Qle_bool_iff. Qed.

Lemma ge_false (x y : Q) : JS.ge x y = false <-> x < y.
Proof.
  unfold JS.ge. split; intro H.
  - apply Qnot_le_lt. intro Hle. apply Qle_bool_iff in Hle. congruence.
  - destruct (Qle_bool y x) eqn:E; [|reflexivity].
    apply Qle_bool_iff in E. exfalso. apply (Qlt_not_le _ _ H E).
Qed.

Lemma gt_true (x y : Q) : JS.gt x y = true <-> y < x.
Proof.
  unfold JS.gt. rewrite negb_true_iff. apply (ge_false y x).
Qed.

Lemma gt_false (x y : Q) : JS.gt x y = false <-> x <= y.
Proof.
  unfold JS.gt. rewrite negb_false_iff. apply (ge_true y x).
Qed.

(** Splits every [JS.ge] test of the goal into its two arithmetic cases. *)
Ltac split_ge :=
  repeat match goal with
         | |- context [JS.ge ?x ?y] =>
             let E := fresh "E" in
             destruct (JS.ge x y) eqn:E;
             [apply ge_true in E | apply ge_false in E]
         end.

(** ** Score labels *)



(** Where the two tables meet: on every score the four labels coarsen the
    specification's five bands, "Poor" covering both high and critical. *)
Lemma labels_coarsen_risk_bands (score : Q) :
  (Spec.riskLevel score = "minimal" <-> ESGScoreCard.getScoreLabel score = "Excellent") /\
  (Spec.riskLevel score = "low" <-> ESGScoreCard.getScoreLabel score = "Good") /\
  (Spec.riskLevel score = "moderate" <-> ESGScoreCard.getScoreLabel score = "Fair") /\
  (Spec.riskLevel score = "high" \/ Spec.riskLevel score = "critical"
   <-> ESGScoreCard.getScoreLabel score = "Poor").
Proof.
  unfold ESGScoreCard.getScoreLabel, Spec.riskLevel.
  split_ge; simpl; intuition (try discriminate; try lra).
Qed.

(** ** The overall score *)

Lemma JS_Math_round_comp (x y : Q) : x == y -> JS.Math_round x = JS.Math_round y.
Proof. intros H. unfold JS.Math_round. rewrite H. reflexivity. Qed.

Lemma Qeq_alt_Z (a b : Z) : inject_Z a == inject_Z b -> a = b.
Proof. unfold Qeq. simpl. lia. Qed.

(** Case analysis on the sign under an absolute value. *)
Ltac qabs t :=
  let H := fresh "Hsign" in
  destruct (Qlt_le_dec t 0) as [H | H];
  [ rewrite (Qabs_neg t) in * by (apply Qlt_le_weak; exact H)
  | rewrite (Qabs_pos t) in * by exact H ].

Lemma tiny_small : 0 < Double.tiny /\ Double.tiny <= Double.u.
Proof. split; [reflexivity | discriminate]. Qed.

(** An integer below 2^53 is rounded to itself. *)
Lemma exact_on_integers fl (x : Q) (k : Z) :
  Double.roundsToNearest fl ->
  (Z.abs k < 2 ^ 53)%Z ->
  x == inject_Z k ->
  fl x == x.
Proof.
  intros Hfl Hk Hx.
  assert (Hlimit : Qabs x < Double.limit).
  { rewrite Hx. rewrite Qabs_Qlt_condition. unfold Double.limit.
    change 9007199254740992 with (inject_Z (2 ^ 53)).
    rewrite <- inject_Z_opp, <- !Zlt_Qlt. lia. }
  destruct (Hfl x Hlimit) as [_ Hnear].
  specialize (Hnear k ltac:(lia)).
  assert (Hzero : inject_Z k - x == 0) by (rewrite Hx; ring).
  rewrite Hzero in Hnear. change (Qabs 0) with 0 in Hnear.
  pose proof (Qabs_nonneg (fl x - x)) as Hpos.
  qabs (fl x - x); lra.
Qed.

(** A value between two integers below 2^53 is rounded to a value between
    them. *)
Lemma between_integers fl (x : Q) (a b : Z) :
  Double.roundsToNearest fl ->
  (Z.abs a < 2 ^ 53)%Z -> (Z.abs b < 2 ^ 53)%Z ->
  inject_Z a <= x -> x <= inject_Z b ->
  inject_Z a <= fl x /\ fl x <= inject_Z b.
Proof.
  intros Hfl Ha Hb Hlo Hhi.
  assert (Ha' : - Double.limit < inject_Z a).
  { unfold Double.limit. change 9007199254740992 with (inject_Z (2 ^ 53)).
    rewrite <- inject_Z_opp, <- Zlt_Qlt. lia. }
  assert (Hb' : inject_Z b < Double.limit).
  { unfold Double.limit. change 9007199254740992 with (inject_Z (2 ^ 53)).
    rewrite <- Zlt_Qlt. lia. }
  assert (Hlimit : Qabs x < Double.limit).
  { rewrite Qabs_Qlt_condition. split; lra. }
  destruct (Hfl x Hlimit) as [_ Hnear].
  pose proof (Hnear a ltac:(lia)) as Hna.
  pose proof (Hnear b ltac:(lia)) as Hnb.
  rewrite (Qabs_neg (inject_Z a - x)) in Hna by lra.
  rewrite (Qabs_pos (inject_Z b - x)) in Hnb by lra.
  qabs (fl x - x); split; lra.
Qed.

Lemma abs_bound (z : Z) (x : Q) (n : Z) :
  x == inject_Z z -> Qabs x <= inject_Z n -> (Z.abs z <= n)%Z.
Proof.
  intros Hx Hb. rewrite Hx in Hb. apply Qabs_Qle_condition in Hb.
  rewrite <- inject_Z_opp, <- !Zle_Qle in Hb. lia.
Qed.

(** [Math.round] of a value near a third of an integer. *)
Lemma round_near_third (y : Q) (k : Z) :
  Qabs (y - inject_Z k / 3) <= 1 # 8 ->
  JS.Math_round y = JS.Math_round (inject_Z k / 3).
Proof.
  intros Hnear. apply Qabs_Qle_condition in Hnear. destruct Hnear as [Hlo Hhi].
  unfold JS.Math_round.
  set (m := ((2 * k + 3) / 6)%Z).
  assert (Hmod : (6 * m + 1 <= 2 * k + 3 <= 6 * m + 5)%Z).
  { subst m. pose proof (Z.div_mod (2 * k + 3) 6 ltac:(lia)) as Hdm.
    pose proof (Z.mod_pos_bound (2 * k + 3) 6 ltac:(lia)) as Hr. lia. }
  assert (Hq1 : inject_Z (6 * m + 1) <= inject_Z (2 * k + 3))
    by (rewrite <- Zle_Qle; lia).
  assert (Hq2 : inject_Z (2 * k + 3) <= inject_Z (6 * m + 5))
    by (rewrite <- Zle_Qle; lia).
  rewrite !inject_Z_plus, !inject_Z_mult in Hq1, Hq2.
  change (inject_Z 6) with 6 in *. change (inject_Z 2) with 2 in *.
  change (inject_Z 1) with 1 in *. change (inject_Z 3) with 3 in *.
  change (inject_Z 5) with 5 in *.
  assert (E : inject_Z k / 3 == (1 # 3) * inject_Z k) by field.
  rewrite E in Hlo, Hhi.
  assert (Hfloor : forall z, inject_Z m <= z -> z < inject_Z m + 1 -> Qfloor z = m).
  { intros z Hz1 Hz2.
    assert (H1 : (m <= Qfloor z)%Z).
    { rewrite <- (Qfloor_Z m). apply Qfloor_resp_le. exact Hz1. }
    assert (H2 : (Qfloor z < m + 1)%Z).
    { rewrite Zlt_Qlt. apply Qle_lt_trans with (y := z); [apply Qfloor_le|].
      rewrite inject_Z_plus. change (inject_Z 1) with 1. exact Hz2. }
    lia. }
  rewrite (Hfloor (y + (1 # 2))) by lra.
  rewrite (Hfloor (inject_Z k / 3 + (1 # 2))) by (rewrite E; lra).
  reflexivity.
Qed.

(** The facts about an absolute value that linear arithmetic needs. *)
Ltac abs_facts t :=
  pose proof (Qle_Qabs t);
  pose proof (Qabs_nonneg t);
  assert (- t <= Qabs t) by (rewrite <- Qabs_opp; apply Qle_Qabs).

(** The running sum and the quotient of [avg], with the error of each
    rounding. *)
Lemma avg_steps fl (e s g : Q) :
  Double.roundsToNearest fl ->
  Qabs e <= ESGRadarChart64.scoreRange ->
  Qabs s <= ESGRadarChart64.scoreRange ->
  Qabs g <= ESGRadarChart64.scoreRange ->
  let f1 := fl (e + s) in
  let f2 := fl (f1 + g) in
  let f3 := fl (f2 / 3) in
  Qabs (e + s) < Double.limit /\
  Qabs (f1 + g) < Double.limit /\
  Qabs (f2 / 3) < Double.limit /\
  Qabs (f1 - (e + s)) <= Double.u * (Qabs e + Qabs s) + Double.tiny /\
  Qabs (f2 - (e + s + g))
  <= (5 # 2) * Double.u * (Qabs e + Qabs s + Qabs g) + 3 * Double.tiny /\
  Qabs (f3 - (1 # 3) * (e + s + g))
  <= 2 * Double.u * (Qabs e + Qabs s + Qabs g) + 2 * Double.tiny.
Proof.
  intros Hfl He Hs Hg f1 f2 f3.
  destruct tiny_small as [Ht0 Ht1].
  unfold ESGRadarChart64.scoreRange in *. unfold Double.limit, Double.u in *.
  abs_facts e. abs_facts s. abs_facts g. abs_facts (e + s).
  assert (L1 : Qabs (e + s) < 9007199254740992).
  { apply Qabs_Qlt_condition. split; lra. }
  destruct (Hfl (e + s) L1) as [C1 _]. fold f1 in C1. unfold Double.u in C1.
  abs_facts (f1 - (e + s)). abs_facts (f1 + g).
  assert (L2 : Qabs (f1 + g) < 9007199254740992).
  { apply Qabs_Qlt_condition. split; lra. }
  destruct (Hfl (f1 + g) L2) as [C2 _]. fold f2 in C2. unfold Double.u in C2.
  abs_facts (f2 - (f1 + g)).
  assert (E3 : f2 / 3 == (1 # 3) * f2) by field.
  abs_facts (f2 / 3).
  assert (B3 : Qabs (f2 / 3) <= (1 # 3) * (Qabs (f1 + g) + Qabs (f2 - (f1 + g)))).
  { apply Qabs_Qle_condition. rewrite E3. split; lra. }
  assert (L3 : Qabs (f2 / 3) < 9007199254740992) by lra.
  destruct (Hfl (f2 / 3) L3) as [C3 _]. fold f3 in C3. unfold Double.u in C3.
  abs_facts (f3 - f2 / 3).
  assert (B1 : Qabs (e + s) <= Qabs e + Qabs s).
  { apply Qabs_Qle_condition. split; lra. }
  assert (B2 : Qabs (f1 + g) <= Qabs e + Qabs s + Qabs g + Qabs (f1 - (e + s))).
  { apply Qabs_Qle_condition. split; lra. }
  split; [exact L1|]. split; [exact L2|]. split; [exact L3|].
  split; [lra|].
  split; apply Qabs_Qle_condition; rewrite ?E3 in *; split; lra.
Qed.

(** ** The rounding of binary64 *)

Lemma nearestEven_cases (x : Q) :
  inject_Z (Qfloor x) <= x /\ x < inject_Z (Qfloor x) + 1 /\
  (Double.nearestEven x = Qfloor x /\ x - inject_Z (Qfloor x) <= 1 # 2 \/
   Double.nearestEven x = (Qfloor x + 1)%Z /\ 1 # 2 <= x - inject_Z (Qfloor x)).
Proof.
  split; [apply Qfloor_le|]. split.
  { pose proof (Qlt_floor x) as H. rewrite inject_Z_plus in H. exact H. }
  unfold Double.nearestEven.
  destruct (Qcompare (x - inject_Z (Qfloor x)) (1 # 2)) eqn:E.
  - apply Qeq_alt in E. destruct (Z.even (Qfloor x)); [left | right];
      (split; [reflexivity | lra]).
  - apply Qlt_alt in E. left. split; [reflexivity | lra].
  - apply Qgt_alt in E. right. split; [reflexivity | lra].
Qed.

(** No integer is nearer to [x] than [nearestEven x]. *)
Lemma nearestEven_nearest (x : Q) (j : Z) :
  Qabs (inject_Z (Double.nearestEven x) - x) <= Qabs (inject_Z j - x).
Proof.
  destruct (nearestEven_cases x) as (Hlo & Hhi & Hcase).
  assert (Hj : inject_Z j <= inject_Z (Qfloor x)
               \/ inject_Z (Qfloor x) + 1 <= inject_Z j).
  { destruct (Z_le_gt_dec j (Qfloor x)) as [H | H].
    - left. rewrite <- Zle_Qle. exact H.
    - right. change 1 with (inject_Z 1). rewrite <- inject_Z_plus, <- Zle_Qle. lia. }
  destruct Hcase as [[E Hr] | [E Hr]]; rewrite E; clear E;
    rewrite ?inject_Z_plus; change (inject_Z 1) with 1;
    set (f := inject_Z (Qfloor x)) in *; set (J := inject_Z j) in *.
  - qabs (f - x); qabs (J - x); destruct Hj; lra.
  - qabs (f + 1 - x); qabs (J - x); destruct Hj; lra.
Qed.

Lemma nearestEven_half (x : Q) :
  Qabs (inject_Z (Double.nearestEven x) - x) <= 1 # 2.
Proof.
  destruct (nearestEven_cases x) as (Hlo & Hhi & [[E Hr] | [E Hr]]); rewrite E;
    rewrite ?inject_Z_plus; change (inject_Z 1) with 1;
    apply Qabs_Qle_condition; split; lra.
Qed.

Lemma two_pow (n : Z) : (0 <= n)%Z -> 2 ^ n == inject_Z (2 ^ n).
Proof. intros H. rewrite Zpower_Qpower by exact H. reflexivity. Qed.

(** The leading digit of [x] is not above [x]. *)
Lemma ilog2_below (x : Q) : ~ x == 0 -> 2 ^ Double.ilog2 x <= Qabs x.
Proof.
  intros Hx. unfold Double.ilog2.
  set (n := Z.abs (Qnum x)). set (d := Z.pos (Qden x)).
  destruct (Qle_bool (2 ^ (Z.log2 n - Z.log2 d)) (Qabs x)) eqn:E.
  { apply Qle_bool_iff. exact E. }
  clear E.
  assert (Hn : (0 < n)%Z).
  { subst n. destruct x as [num den]. unfold Qeq in Hx. simpl in *. lia. }
  assert (Hd : (0 < d)%Z) by (subst d; lia).
  destruct (Z.log2_spec n Hn) as [Ha _].
  destruct (Z.log2_spec d Hd) as [_ Hb].
  pose proof (Z.log2_nonneg n) as Ha0. pose proof (Z.log2_nonneg d) as Hb0.
  replace (Z.log2 n - Z.log2 d - 1)%Z with (Z.log2 n - Z.succ (Z.log2 d))%Z by lia.
  rewrite Qpower_minus by discriminate.
  rewrite (two_pow (Z.log2 n)) by lia.
  rewrite (two_pow (Z.succ (Z.log2 d))) by lia.
  assert (HA : inject_Z (2 ^ Z.log2 n) <= inject_Z n) by (rewrite <- Zle_Qle; exact Ha).
  assert (HB : inject_Z d <= inject_Z (2 ^ Z.succ (Z.log2 d)))
    by (rewrite <- Zle_Qle; lia).
  assert (HD : 0 < inject_Z d) by (change 0 with (inject_Z 0); rewrite <- Zlt_Qlt; lia).
  assert (HX : Qabs x * inject_Z d == inject_Z n).
  { destruct x as [num den]. subst n d. unfold Qeq. simpl. lia. }
  pose proof (Qabs_nonneg x) as HX0.
  apply Qle_shift_div_r; [lra|].
  set (X := Qabs x) in *. set (D := inject_Z d) in *.
  set (R := inject_Z (2 ^ Z.succ (Z.log2 d))) in *.
  assert (HXR : X * D <= X * R) by (apply Qmult_le_l' || nra).
  lra.
Qed.

(** The rounding error of [binary64] is the scaled error of
    [nearestEven]. *)
Lemma binary64_error (x : Q) :
  ~ x == 0 ->
  let P := 2 ^ Double.lastPlace x in
  0 < P /\
  Double.binary64 x - x
  == (inject_Z (Double.nearestEven (x / P)) - x / P) * P.
Proof.
  intros Hx P.
  assert (HP : 0 < P) by (apply Qpower_0_lt; reflexivity).
  split; [exact HP|].
  unfold Double.binary64.
  destruct (Qeq_bool x 0) eqn:E; [apply Qeq_bool_iff in E; contradiction|].
  fold P. field. lra.
Qed.

(** [binary64] rounds to nearest in the sense the proofs use. *)
Lemma binary64_rounds : Double.roundsToNearest Double.binary64.
Proof.
  intros x Hlimit.
  destruct (Qeq_dec x 0) as [Hzero | Hx].
  { assert (E : Double.binary64 x - x == 0).
    { unfold Double.binary64.
      destruct (Qeq_bool x 0) eqn:E; [lra|].
      apply Qeq_bool_neq in E. contradiction. }
    destruct tiny_small as [Ht _]. pose proof (Qabs_nonneg x). split.
    - rewrite E. change (Qabs 0) with 0. unfold Double.u. lra.
    - intros k _. rewrite E. change (Qabs 0) with 0. apply Qabs_nonneg. }
  destruct (binary64_error x Hx) as [HP Herr]. cbv zeta in Herr.
  set (p := Double.lastPlace x) in *. set (P := 2 ^ p) in *.
  set (m := inject_Z (Double.nearestEven (x / P))) in *.
  assert (Habs : Qabs (Double.binary64 x - x) == Qabs (m - x / P) * P).
  { rewrite Herr, Qabs_Qmult, (Qabs_pos P) by lra. reflexivity. }
  pose proof (ilog2_below x Hx) as Hlog.
  split.
  - rewrite Habs.
    pose proof (nearestEven_half (x / P)) as Hhalf. fold m in Hhalf.
    assert (Hstep : Qabs (m - x / P) * P <= (1 # 2) * P).
    { apply Qmult_le_compat_r; [exact Hhalf | lra]. }
    assert (HP2 : (1 # 2) * P <= Double.u * Qabs x + Double.tiny).
    { subst P p. unfold Double.lastPlace.
      pose proof (Qabs_nonneg x) as Hx0. destruct tiny_small as [Ht _].
      destruct (Z.max_spec (Double.ilog2 x - 52) (-1074)) as [[_ E] | [_ E]];
        rewrite E.
      - assert (Et : (1 # 2) * 2 ^ (-1074) == Double.tiny) by reflexivity.
        rewrite Et. unfold Double.u. lra.
      - rewrite Qpower_minus by discriminate.
        assert (Eu : (1 # 2) * (2 ^ Double.ilog2 x / 2 ^ 52)
                     == Double.u * 2 ^ Double.ilog2 x).
        { unfold Double.u. field. }
        rewrite Eu. unfold Double.u in *. lra. }
    lra.
  - intros k Hk. rewrite Habs.
    assert (Hp : (p <= 0)%Z).
    { subst p. unfold Double.lastPlace.
      assert (Hl : (Double.ilog2 x < 53)%Z).
      { apply (Qpower_lt_compat_l_inv 2); [|reflexivity].
        apply Qle_lt_trans with (y := Qabs x); [exact Hlog|].
        unfold Double.limit in Hlimit. exact Hlimit. }
      lia. }
    assert (EP : inject_Z (2 ^ (- p)) * P == 1).
    { rewrite <- two_pow by lia. subst P.
      rewrite <- Qpower_plus by discriminate.
      replace (- p + p)%Z with 0%Z by lia. reflexivity. }
    set (j := (k * 2 ^ (- p))%Z).
    assert (Ej : (inject_Z j - x / P) * P == inject_Z k - x).
    { subst j. rewrite inject_Z_mult.
      assert (E : (inject_Z k * inject_Z (2 ^ (- p)) - x / P) * P
                  == inject_Z k * (inject_Z (2 ^ (- p)) * P) - x)
        by (field; lra).
      rewrite E, EP. ring. }
    rewrite <- Ej, Qabs_Qmult, (Qabs_pos P) by lra.
    apply Qmult_le_compat_r; [|lra].
    apply nearestEven_nearest.
Qed.

(** ** The plain mean *)

(** C2 (as the code has it). In double arithmetic, for pillar scores up to
    2^40 in magnitude: the overall value the radar chart computes is the
    plain mean of the three scores, each with weight 1/3, up to the
    rounding of its three operations; and when the three scores are whole
    numbers, the number it prints is the plain mean rounded, and the
    computed value agrees with the 0.33/0.33/0.34 rollup exactly when
    environmental + social equals twice governance. *)
Theorem overall_is_plain_mean (fl : Q -> Q) (p : ESGRadarChart.Props) :
  Double.roundsToNearest fl ->
  Qabs (ESGRadarChart.envScore p) <= ESGRadarChart64.scoreRange ->
  Qabs (ESGRadarChart.socScore p) <= ESGRadarChart64.scoreRange ->
  Qabs (ESGRadarChart.govScore p) <= ESGRadarChart64.scoreRange ->
  let e := ESGRadarChart.envScore p in
  let s := ESGRadarChart.socScore p in
  let g := ESGRadarChart.govScore p in
  let mean := (1 # 3) * e + (1 # 3) * s + (1 # 3) * g in
  Qabs (ESGRadarChart64.avg fl p - mean)
  <= 2 * Double.u * (Qabs e + Qabs s + Qabs g) + 2 * Double.tiny /\
  (forall ze zs zg : Z,
     e == inject_Z ze -> s == inject_Z zs -> g == inject_Z zg ->
     ESGRadarChart64.overallShown fl p = JS.Math_round mean /\
     (ESGRadarChart64.avg fl p == Spec.weightedMean e s g <-> e + s == 2 * g)).
Proof.
  intros Hfl He Hs Hg e s g mean.
  unfold ESGRadarChart64.overallShown, ESGRadarChart64.avg. fold e s g.
  destruct (avg_steps fl e s g Hfl He Hs Hg) as (L1 & L2 & L3 & _ & _ & C).
  cbv zeta in L1, L2, L3, C.
  split.
  { assert (E : mean == (1 # 3) * (e + s + g)) by (subst mean; ring).
    rewrite E. exact C. }
  intros ze zs zg Hze Hzs Hzg.
  unfold ESGRadarChart64.scoreRange in He, Hs, Hg.
  change 1099511627776 with (inject_Z (2 ^ 40)) in He, Hs, Hg.
  pose proof (abs_bound ze e _ Hze He) as Be.
  pose proof (abs_bound zs s _ Hzs Hs) as Bs.
  pose proof (abs_bound zg g _ Hzg Hg) as Bg.
  assert (E1 : fl (e + s) == e + s).
  { apply (exact_on_integers fl _ (ze + zs)); [exact Hfl | lia |].
    rewrite inject_Z_plus, Hze, Hzs. reflexivity. }
  assert (E2 : fl (fl (e + s) + g) == e + s + g).
  { rewrite <- E1 at 2.
    apply (exact_on_integers fl _ (ze + zs + zg)); [exact Hfl | lia |].
    rewrite E1, !inject_Z_plus, Hze, Hzs, Hzg. reflexivity. }
  set (f2 := fl (fl (e + s) + g)) in *.
  set (k := (ze + zs + zg)%Z).
  assert (Ek : e + s + g == inject_Z k).
  { subst k. rewrite !inject_Z_plus, Hze, Hzs, Hzg. reflexivity. }
  assert (Em : mean == inject_Z k / 3).
  { subst mean. rewrite <- Ek. field. }
  assert (E3 : f2 / 3 == inject_Z k / 3) by (rewrite E2, Ek; reflexivity).
  destruct (Hfl (f2 / 3) L3) as [C3 N3].
  assert (Hk : (Z.abs k <= 3 * 2 ^ 40)%Z) by lia.
  assert (Hk' : Qabs (inject_Z k) <= 3298534883328).
  { apply Qabs_Qle_condition.
    change 3298534883328 with (inject_Z (3 * 2 ^ 40)).
    rewrite <- inject_Z_opp, <- !Zle_Qle. lia. }
  assert (Hnear : Qabs (fl (f2 / 3) - inject_Z k / 3) <= 1 # 4096).
  { destruct tiny_small as [Ht0 Ht1]. unfold Double.u in *.
    assert (E : inject_Z k / 3 == (1 # 3) * inject_Z k) by field.
    rewrite E in *. clear E.
    set (y := f2 / 3) in *. set (K := inject_Z k) in *.
    abs_facts (fl y - y). abs_facts y. abs_facts K.
    assert (B : Qabs y <= (1 # 3) * Qabs K).
    { apply Qabs_Qle_condition. rewrite E3. split; lra. }
    apply Qabs_Qle_condition. split; lra. }
  split.
  - rewrite (JS_Math_round_comp _ _ Em).
    apply round_near_third.
    apply Qle_trans with (y := 1 # 4096); [exact Hnear | discriminate].
  - unfold Spec.weightedMean.
    assert (Ew : 0.33 * e + 0.33 * s + 0.34 * g
                 == inject_Z k / 3 + (1 # 300) * inject_Z (2 * zg - ze - zs)).
    { unfold Zminus. rewrite <- Ek, !inject_Z_plus, inject_Z_mult, !inject_Z_opp.
      rewrite <- Hze, <- Hzs, <- Hzg. change (inject_Z 2) with 2. field. }
    split.
    + intros Heq.
      assert (Hj : (2 * zg - ze - zs = 0)%Z).
      { destruct (Z.eq_dec (2 * zg - ze - zs) 0) as [Hz|Hnz]; [exact Hz|exfalso].
        rewrite Ew in Heq. apply Qabs_Qle_condition in Hnear.
        assert (Hj : inject_Z (2 * zg - ze - zs) <= inject_Z (-1)
                     \/ inject_Z 1 <= inject_Z (2 * zg - ze - zs)).
        { rewrite <- !Zle_Qle. lia. }
        change (inject_Z (-1)) with (-1) in Hj. change (inject_Z 1) with 1 in Hj.
        destruct Hj; lra. }
      assert (Hq : inject_Z (2 * zg - ze - zs) == 0) by (rewrite Hj; reflexivity).
      unfold Zminus in Hq.
      rewrite !inject_Z_plus, inject_Z_mult, !inject_Z_opp in Hq.
      change (inject_Z 2) with 2 in Hq. rewrite Hze, Hzs, Hzg. lra.
    + intros Heq.
      assert (Hj : (ze + zs = 2 * zg)%Z).
      { apply Qeq_alt_Z. rewrite inject_Z_plus, inject_Z_mult.
        change (inject_Z 2) with 2. rewrite <- Hze, <- Hzs, <- Hzg. exact Heq. }
      assert (Eg : f2 / 3 == inject_Z zg).
      { rewrite E3. subst k. replace (ze + zs + zg)%Z with (3 * zg)%Z by lia.
        rewrite inject_Z_mult. change (inject_Z 3) with 3. field. }
      rewrite (exact_on_integers fl _ zg Hfl ltac:(lia) Eg), Eg, <- Hzg.
      lra.
Qed.

(** The theorem at pillar scores 0, 0 and 100 under [binary64]: the chart
    prints 33 and its value is not the rollup's. *)
Lemma overall_is_plain_mean_witness :
  let p := ESGRadarChart64.props 0 0 100 in
  Qabs (ESGRadarChart64.avg Double.binary64 p - (100 # 3))
  <= 200 * Double.u + 2 * Double.tiny /\
  ESGRadarChart64.overallShown Double.binary64 p = 33%Z /\
  ~ ESGRadarChart64.avg Double.binary64 p == Spec.weightedMean 0 0 100.
Proof.
  destruct (overall_is_plain_mean Double.binary64 (ESGRadarChart64.props 0 0 100)
              binary64_rounds)
    as [Hclose Hwhole]; [discriminate | discriminate | discriminate |].
  destruct (Hwhole 0%Z 0%Z 100%Z) as [Hshown Hiff];
    [reflexivity | reflexivity | reflexivity |].
  split; [|split].
  - exact Hclose.
  - rewrite Hshown. reflexivity.
  - intros Heq. apply Hiff in Heq. discriminate Heq.
Defined.

(** C2 fails as stated: for pillar scores 0, 0 and 100 the program computes
    the double nearest to 100/3 and prints 33, while the 0.33/0.33/0.34
    rollup is 34. *)
Lemma overall_not_weighted_mean :
  let p := ESGRadarChart64.props 0 0 100 in
  ESGRadarChart64.avg Double.binary64 p == 4691249611844267 # 140737488355328 /\
  ESGRadarChart64.overallShown Double.binary64 p = 33%Z /\
  Spec.weightedMean 0 0 100 == 34 /\
  ~ ESGRadarChart64.avg Double.binary64 p == Spec.weightedMean 0 0 100.
Proof.
  cbv zeta. repeat split; try reflexivity. vm_compute. discriminate.
Qed.

(** Rounding shows in the printed number: for the doubles 0.5, 0.5 and
    the one just below 0.5 the running sum rounds up to 1.5 and the chart
    prints 1, where the exact mean would be printed as 0. *)
Example rounding_reaches_the_printed_number :
  let p := ESGRadarChart64.props 0.5 0.5 (9007199254740991 # 18014398509481984) in
  ESGRadarChart64.avg Double.binary64 p == 1 # 2 /\
  ESGRadarChart64.overallShown Double.binary64 p = 1%Z /\
  JS.Math_round ((1 # 3) * (0.5 + 0.5 + (9007199254740991 # 18014398509481984)))
  = 0%Z.
Proof. cbv zeta. repeat split; reflexivity. Qed.

(** ** The API client's operations *)

Lemma request_verb (c : AnalysisAPI.Call) :
  AnalysisAPI.verb (AnalysisAPI.request c) = AnalysisAPI.POST \/
  AnalysisAPI.verb (AnalysisAPI.request c) = AnalysisAPI.GET \/
  AnalysisAPI.verb (AnalysisAPI.request c) = AnalysisAPI.OPEN_WS.
Proof. destruct c; simpl; auto. Qed.

Lemma request_never_cancels (c : AnalysisAPI.Call) :
  ~ AnalysisAPI.isCancellation (AnalysisAPI.request c).
Proof.
  intros [analysisId H].
  apply (f_equal AnalysisAPI.verb) in H.
  destruct (request_verb c) as [E | [E | E]]; rewrite E in H; discriminate H.
Qed.

(** C7 (as the code has it). The API client exposes seven operations:
    starting a run, reading its status, reading its results, opening the
    progress WebSocket, and three blockchain reads. Each call issues a POST
    to the analyze route, a GET, or a WebSocket open; none of them is the
    cancellation route [DELETE /api/v1/analyze/{id}]. *)
Theorem api_client_operations :
  AnalysisAPI.methods
  = [ "startAnalysis"; "getAnalysisStatus"; "getAnalysisResults";
      "connectWebSocket"; "getBlockchainStatus"; "getAuditTrail";
      "verifyBlockchain" ] /\
  (forall c, In (AnalysisAPI.methodName c) AnalysisAPI.methods) /\
  (forall m, In m AnalysisAPI.methods -> exists c, AnalysisAPI.methodName c = m) /\
  (forall c,
     (AnalysisAPI.verb (AnalysisAPI.request c) = AnalysisAPI.POST /\
      AnalysisAPI.url (AnalysisAPI.request c) = "/api/v1/analyze") \/
     AnalysisAPI.verb (AnalysisAPI.request c) = AnalysisAPI.GET \/
     AnalysisAPI.verb (AnalysisAPI.request c) = AnalysisAPI.OPEN_WS) /\
  (forall c, ~ AnalysisAPI.isCancellation (AnalysisAPI.request c)).
Proof.
  split; [reflexivity|]. split; [|split; [|split]].
  - intros c. destruct c; simpl; tauto.
  - intros m Hm. simpl in Hm.
    destruct Hm as [H | [H | [H | [H | [H | [H | [H | []]]]]]]]; subst m.
    + exists (AnalysisAPI.startAnalysis "" None). reflexivity.
    + exists (AnalysisAPI.getAnalysisStatus ""). reflexivity.
    + exists (AnalysisAPI.getAnalysisResults ""). reflexivity.
    + exists (AnalysisAPI.connectWebSocket ""). reflexivity.
    + exists AnalysisAPI.getBlockchainStatus. reflexivity.
    + exists (AnalysisAPI.getAuditTrail ""). reflexivity.
    + exists AnalysisAPI.verifyBlockchain. reflexivity.
  - intros c. destruct c; simpl; auto.
  - exact request_never_cancels.
Qed.

(** C7 fails as stated: the client has seven operations, not four, and no
    call of it issues a cancellation. *)
Lemma api_client_has_no_cancel :
  length AnalysisAPI.methods = 7%nat /\
  ~ (exists c, AnalysisAPI.isCancellation (AnalysisAPI.request c)).
Proof.
  split; [reflexivity|].
  intros [c H]. exact (request_never_cancels c H).
Qed.

(** ** The progress consumer's event types *)

(** A message whose type is not a [case] label only gets logged. *)
Lemma unlabelled_ignored cl be message w :
  ~ In (WsMessage.type message) Dashboard.caseLabels ->
  Dashboard.handleWebSocketMessage cl be message w
  = Dashboard.log "WebSocket message:" w.
Proof.
  intros Hnot. unfold Dashboard.handleWebSocketMessage, Dashboard.bind.
  destruct (Dashboard.log "WebSocket message:" w) as [[[]|] w'] eqn:Hlog;
    [|reflexivity].
  repeat match goal with
         | |- context [String.eqb ?a ?b] =>
             let E := fresh "E" in
             destruct (String.eqb a b) eqn:E;
             [apply String.eqb_eq in E; exfalso; apply Hnot; rewrite E;
              simpl; tauto|]
         end.
  reflexivity.
Qed.

Lemma dispatches_label type : In type Dashboard.caseLabels -> Observe.dispatches type.
Proof.
  intros H. simpl in H.
  destruct H as [H | [H | [H | [H | [H | [H | [H | [H | [H | []]]]]]]]]];
    subst type.
  - exists Sample.firstRender, (Sample.offline 0), (Sample.message "connected" None),
      Sample.world. split; [reflexivity|]. vm_compute. discriminate.
  - exists Sample.firstRender, (Sample.offline 0),
      (Sample.message "status" (Some "failed")), Sample.world.
    split; [reflexivity|]. vm_compute. discriminate.
  - exists Sample.firstRender, (Sample.offline 0), (Sample.message "progress" None),
      Sample.world. split; [reflexivity|]. vm_compute. discriminate.
  - exists Sample.firstRender, (Sample.offline 0), (Sample.message "agent_start" None),
      Sample.world. split; [reflexivity|]. vm_compute. discriminate.
  - exists Sample.firstRender, (Sample.offline 0),
      (Sample.message "agent_complete" None), Sample.world.
    split; [reflexivity|]. vm_compute. discriminate.
  - exists Sample.firstRender, (Sample.offline 0),
      (Sample.message "debate_update" None), Sample.world.
    split; [reflexivity|]. vm_compute. discriminate.
  - exists Sample.firstRender, (Sample.offline 0),
      (Sample.message "debate_complete" None), Sample.debatingWorld.
    split; [reflexivity|]. vm_compute. discriminate.
  - exists Sample.firstRender, (Sample.offline 0), (Sample.message "result" None),
      Sample.world. split; [reflexivity|]. vm_compute. discriminate.
  - exists Sample.firstRender, (Sample.offline 0), (Sample.message "error" None),
      Sample.world. split; [reflexivity|]. vm_compute. discriminate.
Qed.

(** C4 (as the code has it). The event types the progress consumer
    dispatches on are exactly the nine [case] labels connected, status,
    progress, agent_start, agent_complete, debate_update, debate_complete,
    result and error; a message of any other type is only logged; and none
    of the nine belongs to the specification's taxonomy. *)
Theorem recognized_event_types :
  (forall type, Observe.dispatches type <-> In type Dashboard.caseLabels) /\
  Dashboard.caseLabels
  = [ "connected"; "status"; "progress"; "agent_start"; "agent_complete";
      "debate_update"; "debate_complete"; "result"; "error" ] /\
  (forall type, In type Dashboard.caseLabels -> ~ In type Spec.taxonomy).
Proof.
  split; [|split; [reflexivity|]].
  - intros type. split; [|apply dispatches_label].
    intros (cl & be & message & w & Htype & Hdiff).
    destruct (in_dec string_dec type Dashboard.caseLabels) as [Hin | Hnot];
      [exact Hin|].
    exfalso. apply Hdiff. apply unlabelled_ignored. rewrite Htype. exact Hnot.
  - intros type Hin Htax. simpl in Hin, Htax.
    repeat match goal with
           | H : _ \/ _ |- _ => destruct H as [H | H]
           end; try contradiction; subst type;
      repeat match goal with
             | H : _ \/ _ |- _ => destruct H as [H | H]
             end; try contradiction; discriminate.
Qed.

(** C4 fails as stated: the consumer dispatches on [agent_start], which is
    not one of the seven events of the specification, and it ignores
    [run_started], which is. *)
Lemma agent_start_outside_taxonomy :
  Observe.dispatches "agent_start" /\
  ~ In "agent_start" Spec.taxonomy /\
  In "run_started" Spec.taxonomy /\
  (forall cl be status w,
     Dashboard.handleWebSocketMessage cl be (Sample.message "run_started" status) w
     = Dashboard.log "WebSocket message:" w).
Proof.
  split; [apply dispatches_label; simpl; tauto|].
  split; [simpl; intuition discriminate|].
  split; [simpl; tauto|].
  intros cl be status w. apply unlabelled_ignored. simpl. intuition discriminate.
Qed.

(** ** processResults *)

Ltac unfold_effects :=
  unfold Dashboard.bind, Dashboard.ret, Dashboard.throw, Dashboard.try_catch,
    Dashboard.when, Dashboard.log, Dashboard.Date_now,
    Dashboard.setAnalysisResult, Dashboard.setBlockchainStatus,
    Dashboard.setDebateSessions, Dashboard.setGreenwashingSignals,
    Dashboard.setIsAnalyzing, Dashboard.setError, Dashboard.setAgents,
    Dashboard.setIsDebating, Dashboard.setCurrentDebateRound,
    Dashboard.modify in *.

(** On a payload that is present [processResults] returns normally, stores
    the result built from the payload, the captured agents and the clock,
    and leaves the error, the busy flag and the request log alone. *)
Lemma processResults_some cl be data w :
  exists w',
    Dashboard.processResults cl be (Some data) w = (Dashboard.Returned tt, w') /\
    Dashboard.analysisResult (Dashboard.ui w')
    = Some (Dashboard.resultOf (Dashboard.seen_agents cl)
              (Dashboard.dateNow be (length (Dashboard.wire w))) data) /\
    Dashboard.error (Dashboard.ui w') = Dashboard.error (Dashboard.ui w) /\
    Dashboard.isAnalyzing (Dashboard.ui w') = Dashboard.isAnalyzing (Dashboard.ui w) /\
    Dashboard.wire w' = Dashboard.wire w.
Proof.
  unfold Dashboard.processResults. unfold_effects. simpl.
  destruct (JS.truthyObj (Payload.blockchain data));
    destruct (JS.truthyObj
                (JS.orObj
                   (JS.chain (Payload.orchestrator_summary data)
                      OrchestratorSummaryJson.debate_sessions)
                   (Payload.debate_sessions data)));
    destruct (JS.truthyObj
                (JS.orObj
                   (JS.chain (Payload.orchestrator_summary data)
                      OrchestratorSummaryJson.greenwashing_signals)
                   (Payload.greenwashing_signals data)));
    simpl; eexists; repeat split.
Qed.

(** The [||] chain over two skipped confidences ends at its literal. *)
Lemma orNum_skipped (a b : option Q) (d : Q) :
  Observe.absentOrZero a -> Observe.absentOrZero b ->
  JS.orNumD (JS.orNum a b) d = d.
Proof.
  unfold Observe.absentOrZero, JS.orNum, JS.orNumD, JS.truthyNum.
  intros Ha Hb.
  destruct a as [qa|]; destruct b as [qb|]; simpl;
    try (apply Qeq_eq_bool in Ha; rewrite Ha; simpl);
    try (apply Qeq_eq_bool in Hb; rewrite Hb; simpl); reflexivity.
Qed.

(** C8. When neither [debate_summary.resolution.final_confidence] nor
    [confidence] is usable (each absent, null or 0), the result
    [processResults] stores has confidence exactly 0.85; a reported 0 is
    replaced like a missing value. *)
Theorem confidence_defaults_to_085 cl be data w :
  Observe.absentOrZero (Dashboard.final_confidence data) ->
  Observe.absentOrZero (Payload.confidence data) ->
  option_map AnalysisResult.confidence
    (Observe.shown (snd (Dashboard.processResults cl be (Some data) w)))
  = Some 0.85.
Proof.
  intros Hfinal Hconf.
  destruct (processResults_some cl be data w) as (w' & Hrun & Hres & _).
  rewrite Hrun. unfold Observe.shown. simpl. rewrite Hres. simpl.
  f_equal. apply orNum_skipped; assumption.
Qed.

(** The theorem at a payload that reports confidence 0 and has no debate
    summary. *)
Lemma confidence_defaults_to_085_witness :
  Payload.confidence Sample.scored = Some 0 /\
  option_map AnalysisResult.confidence
    (Observe.shown
       (snd (Dashboard.processResults Sample.laterRender Sample.finished
               (Some Sample.scored) Sample.world)))
  = Some 0.85.
Proof.
  split; [reflexivity|].
  apply (confidence_defaults_to_085 Sample.laterRender Sample.finished
           Sample.scored Sample.world); [exact I | reflexivity].
Defined.

(** ** SDG entries *)

Lemma sdgImpactOf_entry (entry : string * Q) :
  SDGImpact.impact (Dashboard.sdgImpactOf (Dashboard.sdgOfEntry entry))
  = if JS.gt (snd entry) 50 then "positive" else "neutral".
Proof.
  destruct entry as [goal score]. simpl.
  destruct (JS.gt score 50); reflexivity.
Qed.

(** C9. When the SDG entries come from the [sdg_impact] score map (no
    [top_sdgs] in the payload), the result has one entry per score, in
    order, classified "positive" if the score exceeds 50 and "neutral"
    otherwise; no entry is classified "negative". *)
Theorem sdg_impact_classification agents now data entries :
  Payload.top_sdgs data = None ->
  Payload.sdg_impact data = Some entries ->
  Forall2
    (fun entry sdg =>
       (50 < snd entry -> SDGImpact.impact sdg = "positive") /\
       (snd entry <= 50 -> SDGImpact.impact sdg = "neutral") /\
       SDGImpact.impact sdg <> "negative")
    entries
    (AnalysisResult.sdgImpacts (Dashboard.resultOf agents now data)).
Proof.
  intros Htop Hmap. simpl.
  unfold Dashboard.sdgImpactsOf, Dashboard.sdgData.
  rewrite Htop, Hmap. simpl. clear Htop Hmap.
  induction entries as [|entry rest IH]; simpl; constructor; [|exact IH].
  rewrite sdgImpactOf_entry.
  destruct (JS.gt (snd entry) 50) eqn:E.
  - apply gt_true in E.
    split; [intros _; reflexivity|]. split; [intro Hle; lra | discriminate].
  - apply gt_false in E.
    split; [intro Hlt; lra|]. split; [intros _; reflexivity | discriminate].
Qed.

(** The theorem at a payload with scores 81, 12 and 50 for goals 7, 8 and
    13. *)
Lemma sdg_impact_classification_witness :
  map (fun sdg => (SDGImpact.goal sdg, SDGImpact.score sdg, SDGImpact.impact sdg))
    (AnalysisResult.sdgImpacts (Dashboard.resultOf [] 0 Sample.scored))
  = [ (Some 7%Z, 81%Z, "positive"); (Some 8%Z, 12%Z, "neutral");
      (Some 13%Z, 50%Z, "neutral") ] /\
  Forall2
    (fun entry sdg =>
       (50 < snd entry -> SDGImpact.impact sdg = "positive") /\
       (snd entry <= 50 -> SDGImpact.impact sdg = "neutral") /\
       SDGImpact.impact sdg <> "negative")
    [("7", 81); ("8", 12); ("13", 50)]
    (AnalysisResult.sdgImpacts (Dashboard.resultOf [] 0 Sample.scored)).
Proof.
  split; [reflexivity|].
  apply (sdg_impact_classification [] 0%Z Sample.scored
           [("7", 81); ("8", 12); ("13", 50)]); reflexivity.
Defined.

(** ** Replaying processResults *)

(** Everything in the result except [agents] and [analysisDate] is a
    function of the payload alone. *)
Lemma resultOf_payload_fields agents1 agents2 now1 now2 data :
  let r1 := Dashboard.resultOf agents1 now1 data in
  let r2 := Dashboard.resultOf agents2 now2 data in
  AnalysisResult.company r1 = AnalysisResult.company r2 /\
  AnalysisResult.esgScores r1 = AnalysisResult.esgScores r2 /\
  AnalysisResult.sdgImpacts r1 = AnalysisResult.sdgImpacts r2 /\
  AnalysisResult.greenwashingAlerts r1 = AnalysisResult.greenwashingAlerts r2 /\
  AnalysisResult.debate r1 = AnalysisResult.debate r2 /\
  AnalysisResult.confidence r1 = AnalysisResult.confidence r2 /\
  AnalysisResult.agents r1 = agents1.
Proof. simpl. repeat split. Qed.

Lemma analysisDateOf_stamped now1 now2 data :
  JS.truthyStr (JS.orStr (Payload.completed_at data) (Payload.created_at data)) = true ->
  Dashboard.analysisDateOf now1 data = Dashboard.analysisDateOf now2 data.
Proof.
  unfold Dashboard.analysisDateOf, JS.truthyStr.
  destruct (JS.orStr (Payload.completed_at data) (Payload.created_at data)) as [s|];
    [|discriminate].
  destruct (String.eqb s ""); [discriminate | reflexivity].
Qed.

(** C6 (as the code has it). The stored result is a function of the
    payload, of the agents array the callback captured and of the clock:
    two evaluations on the same payload with the same captured agents store
    identical results whenever the payload carries a [completed_at] or
    [created_at] timestamp, or else the clock reads the same; the prior
    state and the backend play no other part. *)
Theorem processResults_replay cl1 cl2 be1 be2 w1 w2 data :
  Dashboard.seen_agents cl1 = Dashboard.seen_agents cl2 ->
  JS.truthyStr (JS.orStr (Payload.completed_at data) (Payload.created_at data)) = true \/
  Dashboard.dateNow be1 (length (Dashboard.wire w1))
  = Dashboard.dateNow be2 (length (Dashboard.wire w2)) ->
  Observe.shown (snd (Dashboard.processResults cl1 be1 (Some data) w1))
  = Observe.shown (snd (Dashboard.processResults cl2 be2 (Some data) w2)).
Proof.
  intros Hagents Hdate.
  destruct (processResults_some cl1 be1 data w1) as (w1' & Hrun1 & Hres1 & _).
  destruct (processResults_some cl2 be2 data w2) as (w2' & Hrun2 & Hres2 & _).
  rewrite Hrun1, Hrun2. unfold Observe.shown. simpl.
  rewrite Hres1, Hres2, Hagents. f_equal.
  unfold Dashboard.resultOf. f_equal.
  destruct Hdate as [Hstamp | Hclock].
  - apply analysisDateOf_stamped. exact Hstamp.
  - rewrite Hclock. reflexivity.
Qed.

(** The theorem at a timestamped payload, replayed under another clock
    and from another state. *)
Lemma processResults_replay_witness :
  Observe.shown
    (snd (Dashboard.processResults Sample.laterRender (Sample.offline 1)
            (Some Sample.scored) Sample.world))
  = Observe.shown
      (snd (Dashboard.processResults Sample.laterRender (Sample.offline 2)
              (Some Sample.scored) Sample.debatingWorld)).
Proof.
  apply (processResults_replay Sample.laterRender Sample.laterRender
           (Sample.offline 1) (Sample.offline 2) Sample.world Sample.debatingWorld
           Sample.scored); [reflexivity | left; reflexivity].
Defined.

(** C6 fails as stated: on one and the same payload without timestamps the
    stored result changes with the clock, and on any payload it changes
    with the agents the callback captured. *)
Lemma processResults_reads_clock_and_agents :
  option_map AnalysisResult.analysisDate
    (Observe.shown
       (snd (Dashboard.processResults Sample.firstRender (Sample.offline 1)
               (Some Sample.payload) Sample.world)))
  = Some (DateOfMillis 1) /\
  option_map AnalysisResult.analysisDate
    (Observe.shown
       (snd (Dashboard.processResults Sample.firstRender (Sample.offline 2)
               (Some Sample.payload) Sample.world)))
  = Some (DateOfMillis 2) /\
  Observe.shown
    (snd (Dashboard.processResults Sample.firstRender (Sample.offline 1)
            (Some Sample.payload) Sample.world))
  <> Observe.shown
       (snd (Dashboard.processResults Sample.firstRender (Sample.offline 2)
               (Some Sample.payload) Sample.world)) /\
  Observe.shown
    (snd (Dashboard.processResults Sample.firstRender (Sample.offline 1)
            (Some Sample.scored) Sample.world))
  <> Observe.shown
       (snd (Dashboard.processResults Sample.laterRender (Sample.offline 1)
               (Some Sample.scored) Sample.world)).
Proof.
  split; [reflexivity|]. split; [reflexivity|].
  split; vm_compute; discriminate.
Qed.

(** ** fetchFinalResults *)

Lemma pollRequests_app log1 log2 :
  Dashboard.pollRequests (log1 ++ log2)
  = (Dashboard.pollRequests log1 + Dashboard.pollRequests log2)%nat.
Proof.
  unfold Dashboard.pollRequests. rewrite filter_app, length_app. reflexivity.
Qed.

Lemma statusRequests_app log1 log2 :
  Dashboard.statusRequests (log1 ++ log2)
  = (Dashboard.statusRequests log1 + Dashboard.statusRequests log2)%nat.
Proof.
  unfold Dashboard.statusRequests. rewrite filter_app, length_app. reflexivity.
Qed.

(** Closes a goal that counts requests over a log extended by known
    exchanges. *)
Ltac count_requests :=
  rewrite ?pollRequests_app, ?statusRequests_app;
  unfold Dashboard.pollRequests, Dashboard.statusRequests; simpl; lia.

Lemma silentFallback_app log1 log2 :
  Dashboard.silentFallback (log1 ++ log2)
  = Dashboard.silentFallback log1 || Dashboard.silentFallback log2.
Proof. unfold Dashboard.silentFallback. apply existsb_app. Qed.

(** [fetchFinalResults] always returns, clears the busy flag, adds no
    request of the polling loop and at most one to the status route; it
    leaves a result or an error behind unless its fallback status came back
    without results. *)
Lemma fetchFinalResults_outcome cl be id w :
  exists w',
    Dashboard.fetchFinalResults cl be id w = (Dashboard.Returned tt, w') /\
    Dashboard.isAnalyzing (Dashboard.ui w') = false /\
    Dashboard.pollRequests (Dashboard.wire w')
    = Dashboard.pollRequests (Dashboard.wire w) /\
    (Dashboard.statusRequests (Dashboard.wire w')
     <= S (Dashboard.statusRequests (Dashboard.wire w)))%nat /\
    (Observe.answered w' \/ Dashboard.silentFallback (Dashboard.wire w') = true).
Proof.
  unfold Dashboard.fetchFinalResults, Dashboard.try_catch at 1.
  unfold Dashboard.bind at 1, Dashboard.API_getAnalysisResults.
  destruct (Dashboard.resultsReply be (length (Dashboard.wire w)) id)
    as [results|] eqn:Hresults.
  - (* the results arrived *)
    unfold Dashboard.bind at 1.
    destruct (processResults_some cl be results
                (Dashboard.record (Dashboard.ResultsExchange id (Some results)) w))
      as (w1 & Hrun & Hres & _ & _ & Hwire).
    rewrite Hrun. unfold_effects. simpl.
    eexists. split; [reflexivity|]. simpl. split; [reflexivity|].
    split; [rewrite Hwire; simpl; count_requests|].
    split; [rewrite Hwire; simpl; count_requests|].
    left. left. simpl. rewrite Hres. discriminate.
  - (* the request failed: fall back on the status route *)
    unfold Dashboard.bind at 1, Dashboard.log at 1.
    unfold Dashboard.bind at 1, Dashboard.try_catch at 1.
    unfold Dashboard.bind at 1, Dashboard.API_getAnalysisStatus.
    match goal with
    | |- context [Dashboard.statusReply be ?n id] =>
        destruct (Dashboard.statusReply be n id) as [status|] eqn:Hstatus
    end.
    + unfold Dashboard.when.
      destruct (StatusJson.results status) as [results|] eqn:Hres0;
        cbn [JS.truthyObj].
      * match goal with
        | |- context [Dashboard.processResults cl be (Some results) ?w0] =>
            destruct (processResults_some cl be results w0)
              as (w1 & Hrun & Hres & _ & _ & Hwire)
        end.
        rewrite Hrun. unfold_effects. simpl.
        eexists. split; [reflexivity|]. simpl. split; [reflexivity|].
        split; [rewrite Hwire; simpl; count_requests|].
        split; [rewrite Hwire; simpl; count_requests|].
        left. left. simpl. rewrite Hres. discriminate.
      * unfold_effects. simpl.
        eexists. split; [reflexivity|]. simpl. split; [reflexivity|].
        split; [count_requests|]. split; [count_requests|].
        right. rewrite !silentFallback_app. simpl. rewrite Hres0. simpl.
        apply orb_true_r.
    + unfold_effects. simpl.
      eexists. split; [reflexivity|]. simpl. split; [reflexivity|].
      split; [count_requests|]. split; [count_requests|].
      left. right. simpl. discriminate.
Qed.

(** ** The polling loop *)

Lemma run_rest cl be id n l :
  Dashboard.timer l = None -> Dashboard.run cl be id n l = l.
Proof. intros H. destruct n; simpl; [|rewrite H]; reflexivity. Qed.

(** The guard of [poll]: once [attempts] has reached [maxAttempts] the run
    reports the timeout and schedules nothing. *)
Lemma poll_timeout cl be id l :
  (Dashboard.maxAttempts <= Dashboard.attempts l)%nat ->
  let l' := Dashboard.poll cl be id l in
  Dashboard.timer l' = None /\
  Dashboard.attempts l' = Dashboard.attempts l /\
  Dashboard.error (Dashboard.ui (Dashboard.world l')) = Some "Analysis timed out" /\
  Dashboard.isAnalyzing (Dashboard.ui (Dashboard.world l')) = false /\
  Dashboard.wire (Dashboard.world l') = Dashboard.wire (Dashboard.world l).
Proof.
  intros H. unfold Dashboard.poll.
  apply Nat.leb_le in H. rewrite H. simpl. repeat split.
Qed.

(** The [try] block of [poll] issues exactly one status request of its
    own, and the status route sees one more only when the block stops the
    loop; when it does, a result or an error is in place unless the
    fallback of [fetchFinalResults] was silent. *)
Lemma pollTry_outcome cl be id w :
  exists r w',
    Dashboard.pollTry cl be id w = (r, w') /\
    Dashboard.pollRequests (Dashboard.wire w')
    = S (Dashboard.pollRequests (Dashboard.wire w)) /\
    (Dashboard.statusRequests (Dashboard.wire w')
     <= S (S (Dashboard.statusRequests (Dashboard.wire w))))%nat /\
    (r <> Dashboard.Returned Dashboard.Done ->
     Dashboard.statusRequests (Dashboard.wire w')
     = S (Dashboard.statusRequests (Dashboard.wire w))) /\
    (r = Dashboard.Returned Dashboard.Done ->
     Observe.answered w' \/ Dashboard.silentFallback (Dashboard.wire w') = true).
Proof.
  unfold Dashboard.pollTry.
  unfold Dashboard.bind at 1, Dashboard.API_getAnalysisStatus.
  destruct (Dashboard.statusReply be (length (Dashboard.wire w)) id)
    as [status|] eqn:Hstatus.
  - unfold Dashboard.bind at 1, Dashboard.log at 1.
    unfold Dashboard.bind at 1.
    set (w1 := {| Dashboard.ui := _; Dashboard.console := _ ++ ["Poll status:"];
                  Dashboard.wire := _ |}).
    assert (Hagents : exists w2,
               match StatusJson.completed_agents status with
               | Some completed_agents =>
                   Dashboard.setAgents
                     (map (Dashboard.pollAgent status completed_agents))
               | None => Dashboard.ret tt
               end w1 = (Dashboard.Returned tt, w2) /\
               Dashboard.wire w2 = Dashboard.wire w1).
    { destruct (StatusJson.completed_agents status); unfold_effects;
        eexists; split; reflexivity. }
    destruct Hagents as (w2 & Hrun2 & Hwire2). rewrite Hrun2.
    assert (Hcount : Dashboard.pollRequests (Dashboard.wire w2)
                     = S (Dashboard.pollRequests (Dashboard.wire w))).
    { rewrite Hwire2. subst w1. simpl. count_requests. }
    assert (Hall : Dashboard.statusRequests (Dashboard.wire w2)
                   = S (Dashboard.statusRequests (Dashboard.wire w))).
    { rewrite Hwire2. subst w1. simpl. count_requests. }
    clearbody w1. clear Hrun2 Hwire2.
    destruct (JS.strictEq (StatusJson.status status) "completed").
    + unfold Dashboard.bind at 1.
      destruct (StatusJson.results status) as [results|].
      * destruct (processResults_some cl be results w2)
          as (w3 & Hrun & Hres & _ & _ & Hwire).
        rewrite Hrun. unfold_effects. simpl.
        eexists; eexists. split; [reflexivity|]. simpl.
        split; [rewrite Hwire; exact Hcount|].
        split; [rewrite Hwire; lia|].
        split; [congruence|].
        intros _. left. left. simpl. rewrite Hres. discriminate.
      * destruct (fetchFinalResults_outcome cl be id w2)
          as (w3 & Hrun & _ & Hpolls & Hstatuses & Hans).
        rewrite Hrun. unfold_effects. simpl.
        eexists; eexists. split; [reflexivity|]. simpl.
        split; [rewrite Hpolls; exact Hcount|].
        split; [lia|].
        split; [congruence|].
        intros _.
        destruct Hans as [[Hans | Hans] | Hans]; [left; left | left; right | right];
          exact Hans.
    + destruct (JS.strictEq (StatusJson.status status) "failed").
      * unfold_effects. simpl.
        eexists; eexists. split; [reflexivity|]. simpl.
        split; [exact Hcount|].
        split; [lia|].
        split; [congruence|].
        intros _. left. right. simpl. discriminate.
      * unfold_effects. simpl.
        eexists; eexists. split; [reflexivity|]. simpl.
        split; [exact Hcount|].
        split; [lia|].
        split; [intros _; exact Hall | discriminate].
  - eexists; eexists. split; [reflexivity|]. simpl.
    split; [count_requests|]. split; [count_requests|].
    split; [intros _; count_requests | discriminate].
Qed.

(** Below the bound one run of [poll] issues exactly one status request of
    its own; then either it stops, with an answer unless the fallback was
    silent, or it counts the attempt and schedules the next run. *)
Lemma poll_step cl be id l :
  (Dashboard.attempts l < Dashboard.maxAttempts)%nat ->
  Dashboard.pollRequests (Dashboard.wire (Dashboard.world (Dashboard.poll cl be id l)))
  = S (Dashboard.pollRequests (Dashboard.wire (Dashboard.world l))) /\
  ((Dashboard.timer (Dashboard.poll cl be id l) = None /\
    (Dashboard.statusRequests
       (Dashboard.wire (Dashboard.world (Dashboard.poll cl be id l)))
     <= S (S (Dashboard.statusRequests (Dashboard.wire (Dashboard.world l)))))%nat /\
    (Observe.answered (Dashboard.world (Dashboard.poll cl be id l)) \/
     Dashboard.silentFallback
       (Dashboard.wire (Dashboard.world (Dashboard.poll cl be id l))) = true)) \/
   (Dashboard.timer (Dashboard.poll cl be id l) <> None /\
    Dashboard.statusRequests
      (Dashboard.wire (Dashboard.world (Dashboard.poll cl be id l)))
    = S (Dashboard.statusRequests (Dashboard.wire (Dashboard.world l))) /\
    Dashboard.attempts (Dashboard.poll cl be id l) = S (Dashboard.attempts l))).
Proof.
  intros H. unfold Dashboard.poll.
  apply Nat.leb_gt in H. rewrite H.
  destruct (pollTry_outcome cl be id (Dashboard.world l))
    as (r & w' & Hrun & Hcount & Hall & Hone & Hans).
  rewrite Hrun. destruct r as [[|]|]; simpl; (split; [exact Hcount|]).
  - left. split; [reflexivity|]. split; [exact Hall|]. apply Hans. reflexivity.
  - right. split; [discriminate|]. split; [apply Hone; discriminate | reflexivity].
  - right. split; [discriminate|]. split; [apply Hone; discriminate | reflexivity].
Qed.

(** A reply that is neither [completed] nor [failed] makes the [try] block
    end without a [return]: one exchange is logged and the loop goes on. *)
Lemma pollTry_keeps cl be id w :
  Runs.keepsPolling (Dashboard.statusReply be (length (Dashboard.wire w)) id) ->
  exists r w',
    Dashboard.pollTry cl be id w = (r, w') /\
    r <> Dashboard.Returned Dashboard.Done /\
    Dashboard.wire w'
    = (Dashboard.wire w
       ++ [Dashboard.StatusExchange Dashboard.ByPoll id
             (Dashboard.statusReply be (length (Dashboard.wire w)) id)])%list.
Proof.
  unfold Dashboard.pollTry.
  unfold Dashboard.bind at 1, Dashboard.API_getAnalysisStatus.
  destruct (Dashboard.statusReply be (length (Dashboard.wire w)) id)
    as [status|] eqn:Hstatus; simpl.
  - intros [Hcompleted Hfailed]. rewrite Hcompleted, Hfailed.
    destruct (StatusJson.completed_agents status); unfold_effects; simpl;
      eexists; eexists; (split; [reflexivity|]); (split; [discriminate|]);
      reflexivity.
  - intros _. eexists; eexists. split; [reflexivity|].
    split; [discriminate | reflexivity].
Qed.

Lemma poll_keeps cl be id l :
  (Dashboard.attempts l < Dashboard.maxAttempts)%nat ->
  Runs.keepsPolling
    (Dashboard.statusReply be (length (Dashboard.wire (Dashboard.world l))) id) ->
  Dashboard.timer (Dashboard.poll cl be id l) <> None /\
  Dashboard.attempts (Dashboard.poll cl be id l) = S (Dashboard.attempts l) /\
  length (Dashboard.wire (Dashboard.world (Dashboard.poll cl be id l)))
  = S (length (Dashboard.wire (Dashboard.world l))).
Proof.
  intros H Hkeep. unfold Dashboard.poll.
  apply Nat.leb_gt in H. rewrite H.
  destruct (pollTry_keeps cl be id (Dashboard.world l) Hkeep)
    as (r & w' & Hrun & Hnot & Hwire).
  rewrite Hrun.
  destruct r as [[|]|]; [congruence | |]; simpl;
    (split; [discriminate|]); (split; [reflexivity|]);
    rewrite Hwire, length_app; simpl; lia.
Qed.

(** Started with a pending timer and [attempts] within the bound, the loop
    is at rest after at most [maxAttempts - attempts + 1] runs of [poll];
    its own status requests and the attempts already counted never exceed
    the bound together, and the status route sees at most one request
    more. *)
Lemma run_settles cl be id n :
  forall l,
    (Dashboard.attempts l <= Dashboard.maxAttempts)%nat ->
    (Dashboard.maxAttempts - Dashboard.attempts l < n)%nat ->
    Dashboard.timer l <> None ->
    Dashboard.timer (Dashboard.run cl be id n l) = None /\
    (Dashboard.pollRequests (Dashboard.wire (Dashboard.world (Dashboard.run cl be id n l)))
     + Dashboard.attempts l
     <= Dashboard.pollRequests (Dashboard.wire (Dashboard.world l))
        + Dashboard.maxAttempts)%nat /\
    (Dashboard.statusRequests
       (Dashboard.wire (Dashboard.world (Dashboard.run cl be id n l)))
     + Dashboard.attempts l
     <= Dashboard.statusRequests (Dashboard.wire (Dashboard.world l))
        + S Dashboard.maxAttempts)%nat /\
    (Observe.answered (Dashboard.world (Dashboard.run cl be id n l)) \/
     Dashboard.silentFallback
       (Dashboard.wire (Dashboard.world (Dashboard.run cl be id n l))) = true).
Proof.
  induction n as [|n IH]; intros l Hle Hfuel Htimer; [lia|].
  cbn [Dashboard.run].
  destruct (Dashboard.timer l) as [delay|] eqn:Et; [clear Htimer | congruence].
  destruct (Nat.eq_dec (Dashboard.attempts l) Dashboard.maxAttempts) as [Hmax | Hlow].
  - destruct (poll_timeout cl be id l) as (Hnone & _ & Herr & _ & Hwire); [lia|].
    rewrite (run_rest cl be id n _ Hnone).
    split; [exact Hnone|]. split; [rewrite Hwire; lia|].
    split; [rewrite Hwire; lia|].
    left. right. rewrite Herr. discriminate.
  - destruct (poll_step cl be id l)
      as (Hcount & [(Hnone & Hall & Hans) | (Hsome & Hall & Hatt)]); [lia | |].
    + rewrite (run_rest cl be id n _ Hnone).
      split; [exact Hnone|]. split; [lia|]. split; [lia | exact Hans].
    + destruct (IH (Dashboard.poll cl be id l)) as (Hnone & Hbound & Htotal & Hans);
        [lia | lia | exact Hsome |].
      split; [exact Hnone|]. split; [lia|]. split; [lia | exact Hans].
Qed.

(** While every reply keeps the loop polling, it runs into the guard: all
    [maxAttempts - attempts] remaining requests are issued and the run ends
    with the timeout error. *)
Lemma run_stuck cl be id n :
  forall l,
    (Dashboard.attempts l <= Dashboard.maxAttempts)%nat ->
    (Dashboard.maxAttempts - Dashboard.attempts l < n)%nat ->
    Dashboard.timer l <> None ->
    (forall k,
       (Dashboard.attempts l + k < Dashboard.maxAttempts)%nat ->
       Runs.keepsPolling
         (Dashboard.statusReply be
            (length (Dashboard.wire (Dashboard.world l)) + k) id)) ->
    Dashboard.error (Dashboard.ui (Dashboard.world (Dashboard.run cl be id n l)))
    = Some "Analysis timed out" /\
    Dashboard.isAnalyzing (Dashboard.ui (Dashboard.world (Dashboard.run cl be id n l)))
    = false /\
    Dashboard.pollRequests (Dashboard.wire (Dashboard.world (Dashboard.run cl be id n l)))
    = (Dashboard.pollRequests (Dashboard.wire (Dashboard.world l))
       + (Dashboard.maxAttempts - Dashboard.attempts l))%nat.
Proof.
  induction n as [|n IH]; intros l Hle Hfuel Htimer Hkeep; [lia|].
  cbn [Dashboard.run].
  destruct (Dashboard.timer l) as [delay|] eqn:Et; [clear Htimer | congruence].
  destruct (Nat.eq_dec (Dashboard.attempts l) Dashboard.maxAttempts) as [Hmax | Hlow].
  - destruct (poll_timeout cl be id l) as (Hnone & _ & Herr & Hbusy & Hwire); [lia|].
    rewrite (run_rest cl be id n _ Hnone).
    split; [exact Herr|]. split; [exact Hbusy|]. rewrite Hwire. lia.
  - assert (Hnow : Runs.keepsPolling
                     (Dashboard.statusReply be
                        (length (Dashboard.wire (Dashboard.world l))) id)).
    { pose proof (Hkeep 0%nat) as H0. rewrite !Nat.add_0_r in H0. apply H0. lia. }
    destruct (poll_keeps cl be id l) as (Hsome & Hatt & Hlen); [lia | exact Hnow |].
    destruct (poll_step cl be id l) as (Hcount & _); [lia|].
    destruct (IH (Dashboard.poll cl be id l)) as (Herr & Hbusy & Hpolls);
      [lia | lia | exact Hsome | |].
    + intros k Hk. rewrite Hlen.
      replace (S (length (Dashboard.wire (Dashboard.world l))) + k)%nat
        with (length (Dashboard.wire (Dashboard.world l)) + S k)%nat by lia.
      apply Hkeep. lia.
    + split; [exact Herr|]. split; [exact Hbusy|]. rewrite Hpolls. lia.
Qed.

(** C10 (as the code has it). Every execution of the polling loop comes to
    rest: after at most 121 runs of [poll] no timer is pending and nothing
    further happens; [poll] has issued at most 120 status requests from
    its own call site, and the execution has sent at most 121 status
    requests in all (the one more is the fallback of the
    [fetchFinalResults] that [poll] awaits); and when none of the 120
    replies says [completed] or [failed], the error is 'Analysis timed
    out', the busy flag is cleared and all 120 requests were made. *)
Theorem polling_terminates cl be id w0 :
  let l := Dashboard.run cl be id (S Dashboard.maxAttempts)
             (Dashboard.pollAnalysisStatus w0) in
  Dashboard.timer l = None /\
  (forall n, Dashboard.run cl be id n l = l) /\
  (Dashboard.pollRequests (Dashboard.wire (Dashboard.world l))
   <= Dashboard.pollRequests (Dashboard.wire w0) + 120)%nat /\
  (Dashboard.statusRequests (Dashboard.wire (Dashboard.world l))
   <= Dashboard.statusRequests (Dashboard.wire w0) + 121)%nat /\
  ((forall k, (k < 120)%nat ->
      Runs.keepsPolling
        (Dashboard.statusReply be (length (Dashboard.wire w0) + k) id)) ->
   Dashboard.error (Dashboard.ui (Dashboard.world l)) = Some "Analysis timed out" /\
   Dashboard.isAnalyzing (Dashboard.ui (Dashboard.world l)) = false /\
   Dashboard.pollRequests (Dashboard.wire (Dashboard.world l))
   = (Dashboard.pollRequests (Dashboard.wire w0) + 120)%nat).
Proof.
  intros l.
  destruct (run_settles cl be id (S Dashboard.maxAttempts)
              (Dashboard.pollAnalysisStatus w0)) as (Hnone & Hbound & Htotal & _);
    [unfold Dashboard.maxAttempts; simpl; lia
    | unfold Dashboard.maxAttempts; simpl; lia | discriminate |].
  fold l in Hnone, Hbound, Htotal. simpl in Hbound, Htotal.
  split; [exact Hnone|].
  split; [intros n; apply run_rest; exact Hnone|].
  split; [unfold Dashboard.maxAttempts in Hbound; lia|].
  split; [unfold Dashboard.maxAttempts in Htotal; lia|].
  intros Hkeep.
  destruct (run_stuck cl be id (S Dashboard.maxAttempts)
              (Dashboard.pollAnalysisStatus w0)) as (Herr & Hbusy & Hpolls);
    [unfold Dashboard.maxAttempts; simpl; lia
    | unfold Dashboard.maxAttempts; simpl; lia | discriminate | |].
  - intros k Hk. apply Hkeep. simpl in Hk. unfold Dashboard.maxAttempts in Hk. lia.
  - fold l in Herr, Hbusy, Hpolls. simpl in Hpolls.
    split; [exact Herr|]. split; [exact Hbusy|].
    rewrite Hpolls. unfold Dashboard.maxAttempts. lia.
Qed.

(** The theorem at a backend whose run never leaves "running". *)
Lemma polling_terminates_witness :
  let l := Dashboard.run Sample.firstRender Sample.stuck "run-1"
             (S Dashboard.maxAttempts) (Dashboard.pollAnalysisStatus Sample.world) in
  Dashboard.timer l = None /\
  Dashboard.error (Dashboard.ui (Dashboard.world l)) = Some "Analysis timed out" /\
  Dashboard.isAnalyzing (Dashboard.ui (Dashboard.world l)) = false /\
  Dashboard.pollRequests (Dashboard.wire (Dashboard.world l)) = 120%nat.
Proof.
  destruct (polling_terminates Sample.firstRender Sample.stuck "run-1" Sample.world)
    as (Hnone & _ & _ & _ & Hstuck).
  split; [exact Hnone|].
  apply Hstuck. intros k _. simpl. split; reflexivity.
Defined.

(** C10 fails as stated: one execution of the loop can send 121 status
    requests. When the 120th poll sees [completed] without results and the
    results request fails, the [fetchFinalResults] that [poll] awaits asks
    for the status once more. *)
Lemma loop_sends_121_status_requests :
  let l := Dashboard.run Sample.firstRender Sample.lateHollow "run-1"
             (S Dashboard.maxAttempts) (Dashboard.pollAnalysisStatus Sample.world) in
  Dashboard.timer l = None /\
  Dashboard.pollRequests (Dashboard.wire (Dashboard.world l)) = 120%nat /\
  Dashboard.statusRequests (Dashboard.wire (Dashboard.world l)) = 121%nat.
Proof. cbv zeta. repeat split; vm_compute; reflexivity. Qed.

(** ** Terminal outcomes *)

(** A [completed] status seen by a callback that has no analysis id changes
    nothing but the console. *)
Lemma completed_without_id_ignored cl be message w :
  WsMessage.type message = "status" ->
  WsMessage.status message = Some "completed" ->
  JS.truthyStr (Dashboard.seen_analysisId cl) = false ->
  Dashboard.onmessage cl be message w = Dashboard.log "WebSocket message:" w.
Proof.
  intros Htype Hstatus Hid.
  unfold Dashboard.onmessage, Dashboard.handleWebSocketMessage.
  rewrite Htype, Hstatus. simpl.
  destruct (Dashboard.seen_analysisId cl) as [analysisId|]; simpl in Hid.
  - apply negb_false_iff in Hid. rewrite Hid. reflexivity.
  - reflexivity.
Qed.

(** A terminal message is handled without an exception, and leaves a
    result or an error unless the status fallback was silent. *)
Lemma terminal_message_outcome cl be message w0 :
  Runs.terminalMessage cl message ->
  exists w,
    Dashboard.onmessage cl be message w0 = (Dashboard.Returned tt, w) /\
    (Observe.answered w \/ Dashboard.silentFallback (Dashboard.wire w) = true).
Proof.
  intros Hmsg.
  unfold Dashboard.onmessage, Dashboard.handleWebSocketMessage.
  destruct Hmsg as [Htype | [[Htype Hdata] | [[Htype Hstatus] | (Htype & Hstatus & Hid)]]];
    rewrite Htype; try rewrite Hstatus; simpl.
  - eexists. split; [reflexivity|]. left. right. simpl. discriminate.
  - destruct (WsMessage.data message) as [data|]; [|congruence].
    unfold Dashboard.try_catch, Dashboard.bind at 1, Dashboard.log at 1.
    unfold Dashboard.bind at 1.
    match goal with
    | |- context [Dashboard.processResults cl be (Some data) ?w1] =>
        destruct (processResults_some cl be data w1) as (w2 & Hrun & Hres & _)
    end.
    rewrite Hrun. simpl.
    eexists. split; [reflexivity|]. left. left. simpl. rewrite Hres. discriminate.
  - eexists. split; [reflexivity|]. left. right. simpl. discriminate.
  - destruct (Dashboard.seen_analysisId cl) as [analysisId|]; [|discriminate].
    simpl in Hid. apply negb_true_iff in Hid. rewrite Hid.
    unfold Dashboard.try_catch, Dashboard.bind at 1, Dashboard.log at 1.
    match goal with
    | |- context [Dashboard.fetchFinalResults cl be analysisId ?w1] =>
        destruct (fetchFinalResults_outcome cl be analysisId w1)
          as (w2 & Hrun & _ & _ & _ & Hans)
    end.
    rewrite Hrun. eexists. split; [reflexivity | exact Hans].
Qed.

(** C3 (as the code has it). At the end of a terminal path (an [error]
    message, a [result] message with its payload, a [failed] status, a
    [completed] status handled with a known analysis id, or the polling
    loop run to rest) a result is stored or an error message is set,
    provided the run did not go through the status fallback of
    [fetchFinalResults] coming back without results. *)
Theorem terminal_path_answered w0 w :
  Runs.Terminal w0 w ->
  Dashboard.silentFallback (Dashboard.wire w) = false ->
  Observe.answered w.
Proof.
  intros Hterminal Hquiet.
  assert (Hcases : Observe.answered w \/
                   Dashboard.silentFallback (Dashboard.wire w) = true);
    [|destruct Hcases as [H | H]; [exact H | congruence]].
  clear Hquiet. destruct Hterminal as [cl be message Hmsg | cl be id].
  - destruct (terminal_message_outcome cl be message w0 Hmsg) as (w & Hrun & Hans).
    rewrite Hrun. exact Hans.
  - destruct (run_settles cl be id (S Dashboard.maxAttempts)
                (Dashboard.pollAnalysisStatus w0)) as (_ & _ & _ & Hans);
      [unfold Dashboard.maxAttempts; simpl; lia
      | unfold Dashboard.maxAttempts; simpl; lia | discriminate |].
    exact Hans.
Qed.

(** The theorem at a [completed] message handled with a known id, and at
    a polling loop, both against a backend that serves the results. *)
Lemma terminal_path_answered_witness :
  Observe.answered
    (snd (Dashboard.onmessage Sample.laterRender Sample.finished
            Runs.completedMessage Sample.world)) /\
  Observe.answered
    (Dashboard.world
       (Dashboard.run Sample.firstRender Sample.finished "run-1"
          (S Dashboard.maxAttempts) (Dashboard.pollAnalysisStatus Sample.world))).
Proof.
  split.
  - apply (terminal_path_answered Sample.world _
             (Runs.ByMessage Sample.world Sample.laterRender Sample.finished
                Runs.completedMessage
                (or_intror (or_intror (or_intror
                   (conj eq_refl (conj eq_refl eq_refl))))))).
    reflexivity.
  - apply (terminal_path_answered Sample.world _
             (Runs.ByPolling Sample.world Sample.firstRender Sample.finished "run-1")).
    reflexivity.
Defined.

(** C3 fails as stated. A [completed] status message handled by the
    callback of the first render, which has no analysis id, leaves no
    result and no error (and the dashboard stays busy); and a polling loop
    against a backend that reports completion but serves no results ends
    with neither as well. *)
Lemma completed_leaves_nothing :
  let byMessage :=
    snd (Dashboard.onmessage Sample.firstRender Sample.finished
           Runs.completedMessage Sample.world) in
  let byPolling :=
    Dashboard.run Sample.firstRender Sample.hollow "run-1"
      (S Dashboard.maxAttempts) (Dashboard.pollAnalysisStatus Sample.world) in
  (Dashboard.analysisResult (Dashboard.ui byMessage) = None /\
   Dashboard.error (Dashboard.ui byMessage) = None /\
   Dashboard.isAnalyzing (Dashboard.ui byMessage) = true) /\
  (Dashboard.timer byPolling = None /\
   Dashboard.analysisResult (Dashboard.ui (Dashboard.world byPolling)) = None /\
   Dashboard.error (Dashboard.ui (Dashboard.world byPolling)) = None /\
   Dashboard.isAnalyzing (Dashboard.ui (Dashboard.world byPolling)) = false).
Proof.
  cbv zeta. split; repeat split; reflexivity.
Qed.

(** ** Belief revision *)

Lemma Category_eqb_eq (a b : Debate.Category) :
  Debate.Category_eqb a b = true <-> a = b.
Proof. destruct a, b; simpl; split; intro H; try reflexivity; discriminate. Qed.

(** The revised confidence stays within [0, old] when the counter-weight is
    a proportion. *)
Lemma revise_bounds (old_confidence counter_weight : Q) :
  0 <= old_confidence -> 0 <= counter_weight -> counter_weight <= 1 ->
  0 <= Debate.revise old_confidence counter_weight /\
  Debate.revise old_confidence counter_weight <= old_confidence.
Proof.
  unfold Debate.revise. intros Hold Hlow Hhigh. split; nra.
Qed.

(** C5. Applying a challenge that carries counter-evidence sets the
    finding's confidence to old confidence times (1 - counter weight),
    where the counter weight is the normalized reliability of the
    counter-evidence times the independence bonus; with the cross-domain
    bonus above the same-domain one, the same counter-evidence weighs more
    when it comes from another domain than the finding's. *)
Theorem challenge_revises_confidence
  (domainOf : string -> Debate.Category)
  (normalizedReliability : list Debate.Evidence -> Q)
  (bonusSame bonusCross : Q) (f : Debate.Finding) (c : Debate.Challenge) :
  bonusSame < bonusCross ->
  Debate.counterEvidence c <> [] ->
  Debate.confidence
    (Debate.applyChallenge domainOf normalizedReliability bonusSame bonusCross f c)
  == Debate.confidence f
     * (1 - Debate.counterWeight domainOf normalizedReliability bonusSame bonusCross f c) /\
  Debate.counterWeight domainOf normalizedReliability bonusSame bonusCross f c
  == normalizedReliability (Debate.counterEvidence c)
     * Debate.independenceBonus domainOf bonusSame bonusCross f c /\
  (forall c',
     Debate.counterEvidence c' = Debate.counterEvidence c ->
     domainOf (Debate.challenger c) <> Debate.category f ->
     domainOf (Debate.challenger c') = Debate.category f ->
     0 < normalizedReliability (Debate.counterEvidence c) ->
     Debate.counterWeight domainOf normalizedReliability bonusSame bonusCross f c'
     < Debate.counterWeight domainOf normalizedReliability bonusSame bonusCross f c).
Proof.
  intros Hbonus Hevidence. split; [|split].
  - unfold Debate.applyChallenge.
    destruct (Debate.counterEvidence c) as [|e rest] eqn:E; [congruence|].
    simpl. unfold Debate.revise. reflexivity.
  - unfold Debate.counterWeight. reflexivity.
  - intros c' Hsame Hcross Hown Hpos.
    unfold Debate.counterWeight, Debate.independenceBonus. rewrite Hsame.
    destruct (Debate.Category_eqb (domainOf (Debate.challenger c)) (Debate.category f))
      eqn:Ec; [apply Category_eqb_eq in Ec; contradiction|].
    apply Category_eqb_eq in Hown. rewrite Hown.
    apply Qmult_lt_l; assumption.
Qed.

(** The theorem in the sample debate: a cross-domain challenge of
    reliability 0.8 takes a confidence of 0.9 to 0.36, and weighs more than
    the same challenge from the finding's own domain. *)
Lemma challenge_revises_confidence_witness :
  Debate.confidence
    (Debate.applyChallenge Scenario.domainOf Scenario.meanReliability
       Scenario.bonusSame Scenario.bonusCross
       (Scenario.finding 0.9) (Scenario.challengeBy "B" 0.8))
  == 0.36 /\
  Debate.counterWeight Scenario.domainOf Scenario.meanReliability
    Scenario.bonusSame Scenario.bonusCross
    (Scenario.finding 0.9) (Scenario.challengeBy "A" 0.8)
  < Debate.counterWeight Scenario.domainOf Scenario.meanReliability
      Scenario.bonusSame Scenario.bonusCross
      (Scenario.finding 0.9) (Scenario.challengeBy "B" 0.8).
Proof.
  assert (Hbonus : Scenario.bonusSame < Scenario.bonusCross) by reflexivity.
  assert (Hevidence : Debate.counterEvidence (Scenario.challengeBy "B" 0.8) <> [])
    by discriminate.
  destruct (challenge_revises_confidence Scenario.domainOf Scenario.meanReliability
              Scenario.bonusSame Scenario.bonusCross
              (Scenario.finding 0.9) (Scenario.challengeBy "B" 0.8)
              Hbonus Hevidence) as (Hconf & _ & Hweight).
  split.
  - rewrite Hconf. reflexivity.
  - apply Hweight; [reflexivity | discriminate | reflexivity | reflexivity].
Defined.

(** The two debate scenarios of the specification, under the sample
    bonuses: one cross-domain challenge of reliability 0.8 leaves a 0.9
    finding between 0.35 and 0.9; two of reliability 0.7 take a 0.8 finding
    below 0.35. *)
Example debate_scenarios :
  let one :=
    Debate.applyChallenges Scenario.domainOf Scenario.meanReliability
      Scenario.bonusSame Scenario.bonusCross
      (Scenario.finding 0.9) [Scenario.challengeBy "B" 0.8] in
  let two :=
    Debate.applyChallenges Scenario.domainOf Scenario.meanReliability
      Scenario.bonusSame Scenario.bonusCross
      (Scenario.finding 0.8)
      [Scenario.challengeBy "B" 0.7; Scenario.challengeBy "C" 0.7] in
  (0.35 < Debate.confidence one /\ Debate.confidence one < 0.9) /\
  Debate.confidence two < 0.35 /\
  length (Debate.evidence two) = 3%nat.
Proof. cbv zeta. repeat split. Qed.

(** ** Text helpers *)

Lemma lowerAscii_upper c : JS.lowerAscii (JS.upperAscii c) = JS.lowerAscii c.
Proof. destruct c as [[] [] [] [] [] [] [] []]; reflexivity. Qed.

Lemma upperAscii_lower c : JS.upperAscii (JS.lowerAscii c) = JS.upperAscii c.
Proof. destruct c as [[] [] [] [] [] [] [] []]; reflexivity. Qed.

Lemma upperAscii_upper c : JS.upperAscii (JS.upperAscii c) = JS.upperAscii c.
Proof. destruct c as [[] [] [] [] [] [] [] []]; reflexivity. Qed.

Lemma lowerAscii_lower c : JS.lowerAscii (JS.lowerAscii c) = JS.lowerAscii c.
Proof. destruct c as [[] [] [] [] [] [] [] []]; reflexivity. Qed.

Lemma isSpace_upper c : JS.isSpace (JS.upperAscii c) = JS.isSpace c.
Proof. destruct c as [[] [] [] [] [] [] [] []]; reflexivity. Qed.

Lemma isSpace_lower c : JS.isSpace (JS.lowerAscii c) = JS.isSpace c.
Proof. destruct c as [[] [] [] [] [] [] [] []]; reflexivity. Qed.

Lemma toLowerCase_upper s : JS.toLowerCase (JS.toUpperCase s) = JS.toLowerCase s.
Proof. induction s as [|c r IH]; simpl; [|rewrite lowerAscii_upper, IH]; reflexivity. Qed.

Lemma toUpperCase_lower s : JS.toUpperCase (JS.toLowerCase s) = JS.toUpperCase s.
Proof. induction s as [|c r IH]; simpl; [|rewrite upperAscii_lower, IH]; reflexivity. Qed.

Lemma toUpperCase_upper s : JS.toUpperCase (JS.toUpperCase s) = JS.toUpperCase s.
Proof. induction s as [|c r IH]; simpl; [|rewrite upperAscii_upper, IH]; reflexivity. Qed.

Lemma toLowerCase_lower s : JS.toLowerCase (JS.toLowerCase s) = JS.toLowerCase s.
Proof. induction s as [|c r IH]; simpl; [|rewrite lowerAscii_lower, IH]; reflexivity. Qed.

(** Changing case moves no blank: it commutes with both halves of [trim]. *)
Section CaseAndBlanks.

Variable f : ascii -> ascii.
Hypothesis f_space : forall c, JS.isSpace (f c) = JS.isSpace c.

Let mapped : string -> string :=
  fix go (s : string) : string :=
    match s with
    | EmptyString => EmptyString
    | String c r => String (f c) (go r)
    end.

Lemma skipSpaces_mapped s : JS.skipSpaces (mapped s) = mapped (JS.skipSpaces s).
Proof.
  induction s as [|c r IH]; simpl; [reflexivity|].
  rewrite f_space. destruct (JS.isSpace c); [exact IH | reflexivity].
Qed.

Lemma trimEnd_mapped s : Ticker.trimEnd (mapped s) = mapped (Ticker.trimEnd s).
Proof.
  induction s as [|c r IH]; simpl; [reflexivity|].
  rewrite IH, f_space.
  destruct (Ticker.trimEnd r) as [|c' r']; simpl;
    [destruct (JS.isSpace c)|]; reflexivity.
Qed.

Lemma trim_mapped s : Ticker.trim (mapped s) = mapped (Ticker.trim s).
Proof. unfold Ticker.trim. rewrite skipSpaces_mapped. apply trimEnd_mapped. Qed.

End CaseAndBlanks.

Lemma trim_upper s : Ticker.trim (JS.toUpperCase s) = JS.toUpperCase (Ticker.trim s).
Proof. exact (trim_mapped JS.upperAscii isSpace_upper s). Qed.

Lemma trim_lower s : Ticker.trim (JS.toLowerCase s) = JS.toLowerCase (Ticker.trim s).
Proof. exact (trim_mapped JS.lowerAscii isSpace_lower s). Qed.

Lemma trimEnd_idem s : Ticker.trimEnd (Ticker.trimEnd s) = Ticker.trimEnd s.
Proof.
  induction s as [|c r IH]; simpl; [reflexivity|].
  destruct (Ticker.trimEnd r) as [|c' r'] eqn:E.
  - destruct (JS.isSpace c) eqn:Ec; simpl; [reflexivity|]. rewrite Ec. reflexivity.
  - simpl in *. rewrite IH. reflexivity.
Qed.

(** A string that starts with a non-blank still does after [trimEnd]. *)
Lemma skipSpaces_trimEnd s :
  JS.skipSpaces s = s -> JS.skipSpaces (Ticker.trimEnd s) = Ticker.trimEnd s.
Proof.
  destruct s as [|c r]; simpl; [reflexivity|].
  destruct (JS.isSpace c) eqn:Ec.
  - intros H. exfalso.
    assert (Hlen : forall t, (String.length (JS.skipSpaces t) <= String.length t)%nat).
    { induction t as [|d t IH]; simpl; [lia|].
      destruct (JS.isSpace d); simpl; lia. }
    specialize (Hlen r). rewrite H in Hlen. simpl in Hlen. lia.
  - intros _. destruct (Ticker.trimEnd r); simpl; rewrite Ec; reflexivity.
Qed.

Lemma skipSpaces_idem s : JS.skipSpaces (JS.skipSpaces s) = JS.skipSpaces s.
Proof.
  induction s as [|c r IH]; simpl; [reflexivity|].
  destruct (JS.isSpace c) eqn:Ec; [exact IH|]. simpl. rewrite Ec. reflexivity.
Qed.

Lemma trim_idem s : Ticker.trim (Ticker.trim s) = Ticker.trim s.
Proof.
  unfold Ticker.trim.
  rewrite (skipSpaces_trimEnd (JS.skipSpaces s) (skipSpaces_idem s)).
  apply trimEnd_idem.
Qed.

(** ** getTickerFromInput *)

Lemma own_In key table value :
  Ticker.own key table = Some value -> In (key, value) table.
Proof.
  induction table as [|[k v] rest IH]; simpl; [discriminate|].
  destruct (String.eqb key k) eqn:E.
  - apply String.eqb_eq in E. intros H. inversion H. subst. left. reflexivity.
  - intros H. right. apply IH. exact H.
Qed.

(** X1. On ASCII input [getTickerFromInput] ignores letter case and the
    blanks around the input: the upper-cased, the lower-cased and the
    trimmed input all give the result of the input itself. *)
Theorem ticker_ignores_case_and_blanks input :
  Ticker.isAscii input ->
  Ticker.getTickerFromInput (JS.toUpperCase input) = Ticker.getTickerFromInput input /\
  Ticker.getTickerFromInput (JS.toLowerCase input) = Ticker.getTickerFromInput input /\
  Ticker.getTickerFromInput (Ticker.trim input) = Ticker.getTickerFromInput input.
Proof.
  intros _. unfold Ticker.getTickerFromInput. repeat split.
  - rewrite toLowerCase_upper, toUpperCase_upper. reflexivity.
  - rewrite toLowerCase_lower, toUpperCase_lower. reflexivity.
  - rewrite <- !trim_lower, <- !trim_upper, !trim_idem. reflexivity.
Qed.

(** The theorem at a mixed-case name padded with blanks. *)
Lemma ticker_ignores_case_and_blanks_witness :
  Ticker.getTickerFromInput "  Exxon Mobil " = Ticker.Symbol "XOM" /\
  Ticker.getTickerFromInput (JS.toUpperCase "  Exxon Mobil ")
  = Ticker.getTickerFromInput "  Exxon Mobil ".
Proof.
  split; [reflexivity|].
  apply (ticker_ignores_case_and_blanks "  Exxon Mobil ").
  unfold Ticker.isAscii. simpl. repeat constructor.
Defined.

(** X2. A ticker symbol that [getTickerFromInput] returns for ASCII input
    is in canonical form: it has no lower-case letter and no blank at
    either end, and the function maps it to itself. *)
Theorem ticker_is_canonical input ticker :
  Ticker.isAscii input ->
  Ticker.getTickerFromInput input = Ticker.Symbol ticker ->
  JS.toUpperCase ticker = ticker /\
  Ticker.trim ticker = ticker /\
  Ticker.getTickerFromInput ticker = Ticker.Symbol ticker.
Proof.
  intros _. unfold Ticker.getTickerFromInput at 1.
  destruct (Ticker.own (Ticker.trim (JS.toLowerCase input)) Ticker.TICKER_MAP)
    as [known|] eqn:Eown.
  - intros H. inversion H. subst known. apply own_In in Eown. simpl in Eown.
    repeat match goal with
           | H : _ \/ _ |- _ => destruct H as [H | H]
           end; try contradiction; inversion Eown; repeat split; reflexivity.
  - destruct (Ticker.inherited (Ticker.trim (JS.toLowerCase input))) eqn:Einh;
      [discriminate|].
    intros H. inversion H as [Ht]. clear H.
    assert (Hup : JS.toUpperCase (Ticker.trim (JS.toUpperCase input))
                  = Ticker.trim (JS.toUpperCase input)).
    { rewrite <- trim_upper, toUpperCase_upper. reflexivity. }
    assert (Hlow : Ticker.trim (JS.toLowerCase (Ticker.trim (JS.toUpperCase input)))
                   = Ticker.trim (JS.toLowerCase input)).
    { rewrite <- trim_lower, toLowerCase_upper, trim_idem. reflexivity. }
    split; [exact Hup|]. split; [apply trim_idem|].
    unfold Ticker.getTickerFromInput. rewrite Hlow, Eown, Einh, Hup, trim_idem.
    reflexivity.
Qed.

(** The theorem at a lower-case ticker with a trailing blank. *)
Lemma ticker_is_canonical_witness :
  JS.toUpperCase "NVDA" = "NVDA" /\
  Ticker.trim "NVDA" = "NVDA" /\
  Ticker.getTickerFromInput "NVDA" = Ticker.Symbol "NVDA".
Proof.
  apply (ticker_is_canonical "nvda " "NVDA"); [|reflexivity].
  unfold Ticker.isAscii. simpl. repeat constructor.
Defined.

(** X3. A company name of the ticker table, typed in any letter case and
    with blanks around it, is replaced by the ticker the table gives it. *)
Theorem known_company_gets_its_ticker input name ticker :
  In (name, ticker) Ticker.TICKER_MAP ->
  Ticker.trim (JS.toLowerCase input) = name ->
  Ticker.getTickerFromInput input = Ticker.Symbol ticker.
Proof.
  intros Hin Hname. unfold Ticker.getTickerFromInput. rewrite Hname.
  simpl in Hin.
  repeat match goal with
         | H : _ \/ _ |- _ => destruct H as [H | H]
         end; try contradiction; inversion Hin; reflexivity.
Qed.

(** The theorem at "Coca-Cola". *)
Lemma known_company_gets_its_ticker_witness :
  Ticker.getTickerFromInput " Coca-Cola" = Ticker.Symbol "KO".
Proof.
  apply (known_company_gets_its_ticker " Coca-Cola" "coca-cola" "KO");
    [simpl; tauto | reflexivity].
Defined.

(** ** Scores, labels and colours *)

(** X4. A higher score never gets a lower label: the labels of
    [getScoreLabel] are ordered Poor, Fair, Good, Excellent along the
    score. *)
Theorem score_label_monotone (lower higher : Q) :
  lower <= higher ->
  (ESGScoreCard.getScoreLabel lower = "Excellent" ->
   ESGScoreCard.getScoreLabel higher = "Excellent") /\
  (ESGScoreCard.getScoreLabel lower = "Good" ->
   ESGScoreCard.getScoreLabel higher = "Good" \/
   ESGScoreCard.getScoreLabel higher = "Excellent") /\
  (ESGScoreCard.getScoreLabel lower = "Fair" ->
   ESGScoreCard.getScoreLabel higher <> "Poor") /\
  (ESGScoreCard.getScoreLabel higher = "Poor" ->
   ESGScoreCard.getScoreLabel lower = "Poor").
Proof.
  intros Hle. unfold ESGScoreCard.getScoreLabel.
  split_ge; simpl; intuition (try discriminate; try lra).
Qed.

(** The theorem at scores 59.9 and 60. *)
Lemma score_label_monotone_witness :
  ESGScoreCard.getScoreLabel 59.9 = "Fair" /\
  ESGScoreCard.getScoreLabel 60 <> "Poor".
Proof.
  split; [reflexivity|].
  apply (score_label_monotone 59.9 60); [|reflexivity].
  unfold Qle. simpl. lia.
Defined.


(** An integer bound passes through [Math.floor]. *)
Lemma ge_floor (x : Q) (k : Z) :
  JS.ge (inject_Z (Qfloor x)) (inject_Z k) = JS.ge x (inject_Z k).
Proof.
  destruct (JS.ge x (inject_Z k)) eqn:E.
  - apply ge_true in E. apply ge_true. rewrite <- Zle_Qle.
    rewrite <- (Qfloor_Z k). apply Qfloor_resp_le. exact E.
  - apply ge_false in E. apply ge_false.
    apply Qle_lt_trans with (y := x); [apply Qfloor_le | exact E].
Qed.

(** The label of the printed number is the label of the score plus one
    half. *)
Lemma label_of_rounded (score : Q) :
  ESGScoreCard.getScoreLabel (inject_Z (JS.Math_round score))
  = ESGScoreCard.getScoreLabel (score + (1 # 2)).
Proof.
  unfold ESGScoreCard.getScoreLabel, JS.Math_round.
  change 80 with (inject_Z 80). change 60 with (inject_Z 60).
  change 40 with (inject_Z 40). rewrite !ge_floor. reflexivity.
Qed.

(** X6. The score card prints the rounded score but labels the unrounded
    one: the label differs from the label the printed number would get
    exactly for scores in [39.5, 40), [59.5, 60) and [79.5, 80), where the
    card shows 40, 60 or 80 under the label of the band below. *)
Theorem rounded_score_label_mismatch (score : Q) :
  ESGScoreCard.getScoreLabel score
  <> ESGScoreCard.getScoreLabel (inject_Z (ScoreView.cardNumber score))
  <-> (39.5 <= score /\ score < 40) \/
      (59.5 <= score /\ score < 60) \/
      (79.5 <= score /\ score < 80).
Proof.
  unfold ScoreView.cardNumber. rewrite label_of_rounded.
  unfold ESGScoreCard.getScoreLabel.
  split_ge; simpl; split; intros H;
    try (exfalso; apply H; reflexivity); try discriminate;
    try (exfalso; lra); try lra.
Qed.

(** X7. The radar chart always shows exactly one "Strongest in" insight:
    Environmental when it is not beaten, else Social when governance does
    not beat it, else Governance. *)
Theorem exactly_one_insight (p : ESGRadarChart.Props) :
  ScoreView.insights p = ["Environmental"] \/
  ScoreView.insights p = ["Social"] \/
  ScoreView.insights p = ["Governance"].
Proof.
  unfold ScoreView.insights, ScoreView.strongestEnvironmental,
    ScoreView.strongestSocial, ScoreView.strongestGovernance, JS.gt.
  generalize (ESGRadarChart.envScore p) (ESGRadarChart.socScore p)
             (ESGRadarChart.govScore p).
  intros e s g.
  destruct (JS.ge e s) eqn:Ees; destruct (JS.ge e g) eqn:Eeg;
    destruct (JS.ge s g) eqn:Esg;
    repeat match goal with
           | H : JS.ge _ _ = true |- _ => apply ge_true in H
           | H : JS.ge _ _ = false |- _ => apply ge_false in H
           end;
    repeat match goal with
           | |- context [Qle_bool ?x ?y] =>
               let E := fresh "E" in
               destruct (Qle_bool x y) eqn:E;
               [apply Qle_bool_iff in E
               | apply (ge_false y x) in E]
           end; simpl; auto; exfalso; lra.
Qed.

Lemma round_bounds (x : Q) (lo hi : Z) :
  inject_Z lo <= x -> x <= inject_Z hi ->
  (lo <= JS.Math_round x <= hi)%Z.
Proof.
  intros Hlo Hhi. unfold JS.Math_round. split.
  - rewrite <- (Qfloor_Z lo). apply Qfloor_resp_le. lra.
  - assert (H : (Qfloor (x + (1 # 2)) < hi + 1)%Z); [|lia].
    rewrite Zlt_Qlt.
    apply Qle_lt_trans with (y := x + (1 # 2)); [apply Qfloor_le|].
    rewrite inject_Z_plus. change (inject_Z 1) with 1. lra.
Qed.

(** X8. In double arithmetic the overall number the radar chart prints
    lies between any integer bounds, up to 2^51 in magnitude, that the
    three pillar scores keep: scores in [0, 100] give a printed overall in
    [0, 100]. *)
Theorem overall_shown_within_bounds (fl : Q -> Q) (p : ESGRadarChart.Props)
    (lo hi : Z) :
  Double.roundsToNearest fl ->
  (- 2 ^ 51 <= lo)%Z -> (hi <= 2 ^ 51)%Z ->
  inject_Z lo <= ESGRadarChart.envScore p <= inject_Z hi ->
  inject_Z lo <= ESGRadarChart.socScore p <= inject_Z hi ->
  inject_Z lo <= ESGRadarChart.govScore p <= inject_Z hi ->
  (lo <= ESGRadarChart64.overallShown fl p <= hi)%Z.
Proof.
  intros Hfl Hlo Hhi [He1 He2] [Hs1 Hs2] [Hg1 Hg2].
  unfold ESGRadarChart64.overallShown, ESGRadarChart64.avg.
  generalize dependent (ESGRadarChart.envScore p).
  generalize dependent (ESGRadarChart.socScore p).
  generalize dependent (ESGRadarChart.govScore p).
  intros g Hg1 Hg2 s Hs1 Hs2 e He1 He2.
  assert (Hle : (lo <= hi)%Z) by (rewrite Zle_Qle; lra).
  destruct (between_integers fl (e + s) (2 * lo) (2 * hi) Hfl) as [A1 A2];
    [lia | lia | | |].
  { rewrite inject_Z_mult. change (inject_Z 2) with 2. lra. }
  { rewrite inject_Z_mult. change (inject_Z 2) with 2. lra. }
  rewrite inject_Z_mult in A1, A2. change (inject_Z 2) with 2 in A1, A2.
  destruct (between_integers fl (fl (e + s) + g) (3 * lo) (3 * hi) Hfl) as [B1 B2];
    [lia | lia | | |].
  { rewrite inject_Z_mult. change (inject_Z 3) with 3. lra. }
  { rewrite inject_Z_mult. change (inject_Z 3) with 3. lra. }
  rewrite inject_Z_mult in B1, B2. change (inject_Z 3) with 3 in B1, B2.
  set (f2 := fl (fl (e + s) + g)) in *.
  assert (E : f2 / 3 == (1 # 3) * f2) by field.
  destruct (between_integers fl (f2 / 3) lo hi Hfl) as [C1 C2];
    [lia | lia | rewrite E; lra | rewrite E; lra |].
  apply round_bounds; assumption.
Qed.

(** The theorem at pillar scores 100, 99.5 and 0 with bounds 0 and 100,
    under [binary64]. *)
Lemma overall_shown_within_bounds_witness :
  (0 <= ESGRadarChart64.overallShown Double.binary64
          {| ESGRadarChart.environmental := Some 100%Q;
             ESGRadarChart.social := Some 99.5%Q;
             ESGRadarChart.governance := None |} <= 100)%Z.
Proof.
  apply (overall_shown_within_bounds Double.binary64
           {| ESGRadarChart.environmental := Some 100%Q;
              ESGRadarChart.social := Some 99.5%Q;
              ESGRadarChart.governance := None |} 0 100 binary64_rounds);
    try lia; split; unfold Qle; simpl; lia.
Defined.

(** ** What processResults leaves alone *)

(** X9. [processResults] writes the result, the blockchain status, the
    debate sessions and the greenwashing signals and nothing else: the
    error message, the busy flag, the agents, the analysis id and the
    debate indicator are as before and no request is made. In particular
    results that arrive do not clear an error already shown. *)
Theorem processResults_frame cl be data w :
  let w' := snd (Dashboard.processResults cl be data w) in
  Dashboard.error (Dashboard.ui w') = Dashboard.error (Dashboard.ui w) /\
  Dashboard.isAnalyzing (Dashboard.ui w') = Dashboard.isAnalyzing (Dashboard.ui w) /\
  Dashboard.agents (Dashboard.ui w') = Dashboard.agents (Dashboard.ui w) /\
  Dashboard.analysisId (Dashboard.ui w') = Dashboard.analysisId (Dashboard.ui w) /\
  Dashboard.isDebating (Dashboard.ui w') = Dashboard.isDebating (Dashboard.ui w) /\
  Dashboard.currentDebateRound (Dashboard.ui w')
  = Dashboard.currentDebateRound (Dashboard.ui w) /\
  Dashboard.wire w' = Dashboard.wire w.
Proof.
  unfold Dashboard.processResults. unfold_effects. simpl.
  destruct data as [data|]; [|simpl; repeat split].
  destruct (JS.truthyObj (Payload.blockchain data));
    destruct (JS.truthyObj
                (JS.orObj
                   (JS.chain (Payload.orchestrator_summary data)
                      OrchestratorSummaryJson.debate_sessions)
                   (Payload.debate_sessions data)));
    destruct (JS.truthyObj
                (JS.orObj
                   (JS.chain (Payload.orchestrator_summary data)
                      OrchestratorSummaryJson.greenwashing_signals)
                   (Payload.greenwashing_signals data)));
    simpl; repeat split.
Qed.

(** ** Confidence values *)

Lemma orNumD_nonzero (a b : option Q) (d : Q) :
  ~ d == 0 -> ~ JS.orNumD (JS.orNum a b) d == 0.
Proof.
  intros Hd. unfold JS.orNumD, JS.orNum, JS.truthyNum.
  destruct a as [qa|]; [destruct (Qeq_bool qa 0) eqn:Ea; simpl|].
  - destruct b as [qb|]; [|exact Hd].
    destruct (Qeq_bool qb 0) eqn:Eb; [exact Hd|].
    apply Qeq_bool_neq in Eb. exact Eb.
  - rewrite Ea. apply Qeq_bool_neq in Ea. exact Ea.
  - destruct b as [qb|]; [|exact Hd].
    destruct (Qeq_bool qb 0) eqn:Eb; [exact Hd|].
    apply Qeq_bool_neq in Eb. exact Eb.
Qed.

(** X10. No confidence that [processResults] puts in the result is zero:
    the overall confidence and the confidence of every greenwashing alert
    are a non-zero value of the payload or the default (0.85, 0.5). *)
Theorem result_confidences_nonzero agents now data :
  ~ AnalysisResult.confidence (Dashboard.resultOf agents now data) == 0 /\
  Forall (fun alert => ~ GreenwashingAlert.confidence alert == 0)
    (AnalysisResult.greenwashingAlerts (Dashboard.resultOf agents now data)).
Proof.
  split.
  - simpl. apply orNumD_nonzero. intros H. discriminate H.
  - simpl. unfold Dashboard.greenwashingAlertsOf.
    destruct (JS.truthyObj _); [|constructor].
    apply Forall_forall. intros alert Hin. apply in_map_iff in Hin.
    destruct Hin as (signal & Halert & _). subst alert. simpl.
    apply orNumD_nonzero. intros H. discriminate H.
Qed.

(** ** SDG entries: sources, goals and titles *)

(** X11. When the payload has a [top_sdgs] array the SDG entries are built
    from it alone, one per element, and [sdg_impact] is not looked at: an
    empty [top_sdgs] array leaves no SDG entry whatever [sdg_impact]
    holds. Without [top_sdgs] there is one entry per [sdg_impact] score. *)
Theorem sdg_source_precedence agents now data :
  match Payload.top_sdgs data with
  | Some top =>
      AnalysisResult.sdgImpacts (Dashboard.resultOf agents now data)
      = map Dashboard.sdgImpactOf top
  | None =>
      length (AnalysisResult.sdgImpacts (Dashboard.resultOf agents now data))
      = length (JS.orObjD (Payload.sdg_impact data) [])
  end.
Proof.
  simpl. unfold Dashboard.sdgImpactsOf, Dashboard.sdgData.
  destruct (Payload.top_sdgs data) as [top|].
  - rewrite orb_true_r. reflexivity.
  - destruct (Payload.sdg_impact data) as [entries|]; simpl;
      [rewrite !length_map|]; reflexivity.
Qed.

Lemma digitsPrefix_numeral (d : Decimal.uint) :
  forall acc,
    JS.digitsPrefix (Some acc) (NilEmpty.string_of_uint d) = Some (numeral d acc).
Proof.
  induction d; intros acc; cbn -[Z.mul Z.add]; try reflexivity;
    try rewrite Z.add_0_r; apply IHd.
Qed.

Lemma parseInt_numeral (d : Decimal.uint) :
  d <> Decimal.Nil ->
  JS.parseInt (NilEmpty.string_of_uint d) = Some (numeral d 0).
Proof.
  destruct d; intros H; [congruence| | | | | | | | | |];
    match goal with
    | |- JS.parseInt (NilEmpty.string_of_uint (?C d)) = _ =>
        let k := eval vm_compute in (numeral (C Decimal.Nil) 0%Z) in
        change (JS.parseInt (NilEmpty.string_of_uint (C d)))
          with (JS.digitsPrefix (Some k) (NilEmpty.string_of_uint d))
    end;
    rewrite digitsPrefix_numeral; reflexivity.
Qed.

Lemma numeral_pos (d : Decimal.uint) :
  forall p, numeral d (Zpos p) = Zpos (Pos.of_uint_acc d p).
Proof.
  induction d; intros p; cbn -[Z.mul Z.add Pos.mul Pos.add]; try reflexivity;
    rewrite <- IHd; f_equal; lia.
Qed.

Lemma numeral_zero (d : Decimal.uint) : numeral d 0 = Z.of_N (Pos.of_uint d).
Proof.
  induction d; simpl; try reflexivity; try exact IHd;
    apply (numeral_pos d).
Qed.

Lemma parseInt_digits (p : positive) :
  JS.parseInt (NilEmpty.string_of_uint (Pos.to_uint p)) = Some (Zpos p).
Proof.
  rewrite parseInt_numeral by apply DecimalPos.Unsigned.to_uint_nonnil.
  rewrite numeral_zero, DecimalPos.Unsigned.of_to. reflexivity.
Qed.

Lemma string_of_uint_digits (p : positive) :
  NilZero.string_of_uint (Pos.to_uint p) = NilEmpty.string_of_uint (Pos.to_uint p).
Proof.
  unfold NilZero.string_of_uint.
  destruct (Pos.to_uint p) eqn:E; try reflexivity.
  exfalso. exact (DecimalPos.Unsigned.to_uint_nonnil p E).
Qed.

(** The digits of a positive numeral start with a digit. *)
Lemma digits_head (p : positive) :
  exists c r,
    NilEmpty.string_of_uint (Pos.to_uint p) = String c r /\ JS.isDigit c = true.
Proof.
  pose proof (DecimalPos.Unsigned.to_uint_nonnil p) as H.
  destruct (Pos.to_uint p); [congruence| | | | | | | | | |];
    eexists; eexists; (split; [reflexivity|]); reflexivity.
Qed.

(** Reading back a number printed in decimal gives the number. *)
Lemma parseInt_showZ (n : Z) : JS.parseInt (JS.showZ n) = Some n.
Proof.
  destruct n as [|p|p]; [reflexivity| |].
  - unfold JS.showZ. simpl. rewrite string_of_uint_digits. apply parseInt_digits.
  - unfold JS.showZ. simpl. rewrite string_of_uint_digits.
    pose proof (parseInt_digits p) as H.
    destruct (digits_head p) as (c & r & Hs & Hc). rewrite Hs in *.
    unfold JS.parseInt. simpl JS.skipSpaces.
    change (JS.isSpace "-") with false. cbv iota.
    cbn [option_map].
    unfold JS.parseInt in H.
    assert (Hsp : JS.skipSpaces (String c r) = String c r).
    { simpl. destruct c as [[] [] [] [] [] [] [] []]; try discriminate Hc; reflexivity. }
    rewrite Hsp in H.
    assert (Hd : JS.digitsPrefix None (String c r) = Some (Zpos p)).
    { destruct c as [[] [] [] [] [] [] [] []]; try discriminate Hc; exact H. }
    change (option_map Z.opp (JS.digitsPrefix None (String c r)) = Some (Zneg p)).
    rewrite Hd. reflexivity.
Qed.

Lemma titles_nonempty (n : Z) (title : string) :
  Dashboard.titles n = Some title -> title <> "".
Proof.
  unfold Dashboard.titles. intros H.
  destruct n as [|p|p]; try discriminate H;
    do 5 (try (destruct p as [p|p|]; try discriminate H));
    inversion H; discriminate.
Qed.

Lemma round_zero (q : Q) : q == 0 -> JS.Math_round q = 0%Z.
Proof.
  intros H. unfold JS.Math_round. rewrite H. reflexivity.
Qed.

(** X12. An entry of the [sdg_impact] map whose key is the decimal numeral
    of a non-zero [n] below 2^53 in magnitude (where [parseInt] and the
    template literal are exact) becomes the SDG with goal [n], titled from
    the table for 1-17 and "SDG n" otherwise, with the score rounded. A
    key "0", or an ASCII key that [parseInt] cannot read, gives an entry
    with no goal, titled "SDG undefined". *)
Theorem sdg_entry_goal_and_title (n : Z) (score : Q) :
  (Z.abs n < 2 ^ 53)%Z ->
  let sdg := Dashboard.sdgImpactOf (Dashboard.sdgOfEntry (JS.showZ n, score)) in
  SDGImpact.goal sdg = (if (n =? 0)%Z then None else Some n) /\
  SDGImpact.title sdg
  = (if (n =? 0)%Z then "SDG undefined"
     else match Dashboard.titles n with
          | Some title => title
          | None => "SDG " ++ JS.showZ n
          end) /\
  SDGImpact.score sdg = JS.Math_round score /\
  (forall key,
     Ticker.isAscii key ->
     JS.parseInt key = None ->
     SDGImpact.goal (Dashboard.sdgImpactOf (Dashboard.sdgOfEntry (key, score))) = None /\
     SDGImpact.title (Dashboard.sdgImpactOf (Dashboard.sdgOfEntry (key, score)))
     = "SDG undefined").
Proof.
  intros _. cbv zeta. unfold Dashboard.sdgImpactOf, Dashboard.sdgOfEntry. cbn [SdgJson.goal
    SdgJson.sdg_number SdgJson.score SdgJson.impact_score SDGImpact.goal
    SDGImpact.title SDGImpact.score].
  rewrite parseInt_showZ.
  assert (Hgoal : Dashboard.orInt (Some n) None
                  = if (n =? 0)%Z then None else Some n).
  { destruct n; reflexivity. }
  rewrite Hgoal. split; [reflexivity|]. split; [|split].
  - destruct (n =? 0)%Z eqn:E; [reflexivity|].
    unfold Dashboard.getSDGTitle. cbn [JS.chain JS.showOptZ].
    destruct (Dashboard.titles n) as [title|] eqn:Et; [|reflexivity].
    apply titles_nonempty in Et. unfold JS.orStrD.
    destruct (String.eqb title "") eqn:Ee; [|reflexivity].
    apply String.eqb_eq in Ee. contradiction.
  - unfold JS.orNum, JS.orNumD, JS.truthyNum.
    destruct (Qeq_bool score 0) eqn:E; simpl.
    + apply Qeq_bool_eq in E. rewrite (round_zero score E). reflexivity.
    + rewrite E. reflexivity.
  - intros key _ Hkey. rewrite Hkey. split; reflexivity.
Qed.

(** The theorem at the entry ["13", 50.4], with the key ["climate"] for
    its last part. *)
Lemma sdg_entry_goal_and_title_witness :
  let sdg := Dashboard.sdgImpactOf (Dashboard.sdgOfEntry ("13", 50.4)) in
  SDGImpact.goal sdg = Some 13%Z /\
  SDGImpact.title sdg = "Climate Action" /\
  SDGImpact.score sdg = 50%Z /\
  SDGImpact.goal (Dashboard.sdgImpactOf (Dashboard.sdgOfEntry ("climate", 50.4))) = None /\
  SDGImpact.title (Dashboard.sdgImpactOf (Dashboard.sdgOfEntry ("climate", 50.4)))
  = "SDG undefined".
Proof.
  destruct (sdg_entry_goal_and_title 13 50.4 ltac:(simpl; lia))
    as (Hgoal & Htitle & Hscore & Hkey).
  split; [exact Hgoal|]. split; [exact Htitle|]. split; [exact Hscore|].
  apply Hkey; [|reflexivity].
  unfold Ticker.isAscii. simpl. repeat constructor.
Defined.

(** ** Greenwashing alerts *)

Lemma orStrD_nonempty (a b : option string) (d : string) :
  d <> "" -> JS.orStrD (JS.orStr a b) d <> "".
Proof.
  intros Hd. unfold JS.orStrD, JS.orStr, JS.truthyStr.
  destruct a as [sa|]; [destruct (String.eqb sa "") eqn:Ea; simpl|].
  - destruct b as [sb|]; [|exact Hd].
    destruct (String.eqb sb "") eqn:Eb; [exact Hd|].
    apply String.eqb_neq in Eb. exact Eb.
  - rewrite Ea. apply String.eqb_neq in Ea. exact Ea.
  - destruct b as [sb|]; [|exact Hd].
    destruct (String.eqb sb "") eqn:Eb; [exact Hd|].
    apply String.eqb_neq in Eb. exact Eb.
Qed.

(** X13. The greenwashing alerts are built from the signals of the debate
    summary when it has any list, else from [greenwashing_alerts], one
    alert per signal and in order; every alert has a non-empty category,
    and a signal that names neither severity nor risk level is rated
    medium. *)
Theorem alerts_from_signals agents now data :
  let alerts := AnalysisResult.greenwashingAlerts (Dashboard.resultOf agents now data) in
  alerts
  = map Dashboard.alertOf
      (JS.orObjD
         (JS.orObj
            (JS.chain (Payload.debate_summary data)
               DebateSummaryJson.greenwashing_signals)
            (Payload.greenwashing_alerts data)) []) /\
  Forall (fun alert => GreenwashingAlert.category alert <> "") alerts /\
  (forall signal,
     SignalJson.severity signal = None ->
     SignalJson.risk_level signal = None ->
     GreenwashingAlert.severity (Dashboard.alertOf signal) = medium).
Proof.
  cbv zeta. simpl. unfold Dashboard.greenwashingAlertsOf.
  set (signals := JS.orObj _ _).
  assert (Heq : (if JS.truthyObj signals
                 then map Dashboard.alertOf (JS.orObjD signals []) else [])
                = map Dashboard.alertOf (JS.orObjD signals [])).
  { destruct signals; reflexivity. }
  rewrite Heq. split; [reflexivity|]. split.
  - apply Forall_forall. intros alert Hin. apply in_map_iff in Hin.
    destruct Hin as (signal & Halert & _). subst alert. simpl.
    apply orStrD_nonempty. discriminate.
  - intros signal Hsev Hrisk. unfold Dashboard.alertOf. simpl.
    rewrite Hsev, Hrisk. reflexivity.
Qed.

(** X14. The four counters under the alert list (critical, high, medium,
    low) add up to the number of alerts in the header: every alert is
    counted exactly once. *)
Theorem summary_counts_add_up (alerts : list GreenwashingAlert.t) :
  AlertPanel.summary alerts
  = [ AlertPanel.count critical alerts; AlertPanel.count high alerts;
      AlertPanel.count medium alerts; AlertPanel.count low alerts ] /\
  (AlertPanel.count critical alerts + AlertPanel.count high alerts
   + AlertPanel.count medium alerts + AlertPanel.count low alerts
   = length alerts)%nat.
Proof.
  split; [reflexivity|].
  unfold AlertPanel.count.
  induction alerts as [|alert rest IH]; [reflexivity|].
  simpl. destruct (GreenwashingAlert.severity alert); simpl; lia.
Qed.

(** ** mapSeverity *)

(** X15. [mapSeverity] does not look at letter case (on ASCII text), and it
    maps each of the four severity names, in lower or upper case, to the
    severity it names. *)
Theorem mapSeverity_ignores_case (text : string) (severity : Severity) :
  Ticker.isAscii text ->
  Dashboard.mapSeverity (JS.toUpperCase text) = Dashboard.mapSeverity text /\
  Dashboard.mapSeverity (JS.toLowerCase text) = Dashboard.mapSeverity text /\
  Dashboard.mapSeverity (AlertPanel.severityName severity) = severity /\
  Dashboard.mapSeverity (JS.toUpperCase (AlertPanel.severityName severity)) = severity.
Proof.
  intros _. unfold Dashboard.mapSeverity.
  rewrite toLowerCase_upper, toLowerCase_lower.
  repeat split; destruct severity; reflexivity.
Qed.

(** The theorem at "Very HIGH risk" and the severity high. *)
Lemma mapSeverity_ignores_case_witness :
  Dashboard.mapSeverity "Very HIGH risk" = high /\
  Dashboard.mapSeverity (JS.toUpperCase "Very HIGH risk")
  = Dashboard.mapSeverity "Very HIGH risk".
Proof.
  split; [reflexivity|].
  apply (mapSeverity_ignores_case "Very HIGH risk" high).
  unfold Ticker.isAscii. simpl. repeat constructor.
Defined.

(** ** What the callbacks leave alone *)

(** [processResults] on a payload keeps the agents and the error. *)
Lemma processResults_keeps cl be data w :
  exists w',
    Dashboard.processResults cl be (Some data) w = (Dashboard.Returned tt, w') /\
    Dashboard.agents (Dashboard.ui w') = Dashboard.agents (Dashboard.ui w) /\
    Dashboard.error (Dashboard.ui w') = Dashboard.error (Dashboard.ui w).
Proof.
  unfold Dashboard.processResults. unfold_effects. simpl.
  destruct (JS.truthyObj (Payload.blockchain data));
    destruct (JS.truthyObj
                (JS.orObj
                   (JS.chain (Payload.orchestrator_summary data)
                      OrchestratorSummaryJson.debate_sessions)
                   (Payload.debate_sessions data)));
    destruct (JS.truthyObj
                (JS.orObj
                   (JS.chain (Payload.orchestrator_summary data)
                      OrchestratorSummaryJson.greenwashing_signals)
                   (Payload.greenwashing_signals data)));
    simpl; eexists; repeat split.
Qed.

Lemma errorText_literal (text : string) :
  text <> "" -> Invariant.errorText (Some text).
Proof.
  intros H. exists None, text. split; [exact H | reflexivity].
Qed.

Lemma errorText_nonempty (e : option string) :
  Invariant.errorText e -> e <> Some "".
Proof.
  intros (reported & fallback & Hf & He) Hempty. subst e.
  inversion Hempty as [H]. unfold JS.orStrD in H.
  destruct reported as [s|]; [|contradiction].
  destruct (String.eqb s "") eqn:E; [contradiction|].
  apply String.eqb_neq in E. contradiction.
Qed.

(** [fetchFinalResults] keeps the agents and sets no error other than its
    own literal. *)
Lemma fetchFinalResults_untouched cl be id w :
  exists w',
    Dashboard.fetchFinalResults cl be id w = (Dashboard.Returned tt, w') /\
    Dashboard.agents (Dashboard.ui w') = Dashboard.agents (Dashboard.ui w) /\
    (Dashboard.error (Dashboard.ui w') = Dashboard.error (Dashboard.ui w) \/
     Dashboard.error (Dashboard.ui w') = Some "Failed to fetch analysis results").
Proof.
  unfold Dashboard.fetchFinalResults, Dashboard.try_catch at 1.
  unfold Dashboard.bind at 1, Dashboard.API_getAnalysisResults.
  destruct (Dashboard.resultsReply be (length (Dashboard.wire w)) id)
    as [results|] eqn:Hresults.
  - unfold Dashboard.bind at 1.
    destruct (processResults_keeps cl be results
                (Dashboard.record (Dashboard.ResultsExchange id (Some results)) w))
      as (w1 & Hrun & Ha & He).
    rewrite Hrun.
    unfold_effects. simpl.
    eexists. split; [reflexivity|]. simpl. rewrite He, Ha.
    split; [reflexivity | left; reflexivity].
  - unfold Dashboard.bind at 1, Dashboard.log at 1.
    unfold Dashboard.bind at 1, Dashboard.try_catch at 1.
    unfold Dashboard.bind at 1, Dashboard.API_getAnalysisStatus.
    match goal with
    | |- context [Dashboard.statusReply be ?n id] =>
        destruct (Dashboard.statusReply be n id) as [status|] eqn:Hstatus
    end.
    + unfold Dashboard.when.
      destruct (StatusJson.results status) as [results|] eqn:Hres0;
        cbn [JS.truthyObj].
      * match goal with
        | |- context [Dashboard.processResults cl be (Some results) ?w0] =>
            destruct (processResults_keeps cl be results w0) as (w1 & Hrun & Ha & He)
        end.
        rewrite Hrun.
        unfold_effects. simpl.
        eexists. split; [reflexivity|]. simpl. rewrite He, Ha.
        split; [reflexivity | left; reflexivity].
      * unfold_effects. simpl.
        eexists. split; [reflexivity|]. simpl.
        split; [reflexivity | left; reflexivity].
    + unfold_effects. simpl.
      eexists. split; [reflexivity|]. simpl.
      split; [reflexivity | right; reflexivity].
Qed.

Lemma roster_map (f : AgentStatus.t -> AgentStatus.t) (agents : list AgentStatus.t) :
  (forall agent, Invariant.card (f agent) = Invariant.card agent) ->
  map Invariant.card (map f agents) = map Invariant.card agents.
Proof.
  intros H. rewrite map_map. apply map_ext. exact H.
Qed.

Lemma card_startAgent message agent :
  Invariant.card (Dashboard.startAgent message agent) = Invariant.card agent.
Proof.
  unfold Dashboard.startAgent.
  destruct (Dashboard.isAgent (WsMessage.agent_id message) agent); reflexivity.
Qed.

Lemma card_completeAgent message agent :
  Invariant.card (Dashboard.completeAgent message agent) = Invariant.card agent.
Proof.
  unfold Dashboard.completeAgent.
  destruct (Dashboard.isAgent (WsMessage.agent_id message) agent); reflexivity.
Qed.

Lemma card_debateAgent message agent :
  Invariant.card (Dashboard.debateAgent message agent) = Invariant.card agent.
Proof.
  unfold Dashboard.debateAgent.
  destruct (String.eqb (AgentStatus.id agent) "orchestrator"); reflexivity.
Qed.

Lemma card_pollAgent status completed_agents agent :
  Invariant.card (Dashboard.pollAgent status completed_agents agent)
  = Invariant.card agent.
Proof. reflexivity. Qed.

(** Picks the next test of the message type and splits on it. *)
Ltac case_type :=
  match goal with
  | |- context [String.eqb (WsMessage.type ?m) ?label] =>
      destruct (String.eqb (WsMessage.type m) label); cbv iota
  end.

(** Whatever the message, the handler returns, keeps the roster and sets
    no error other than a text with a non-empty fallback. *)
Lemma onmessage_untouched cl be message w :
  exists w',
    Dashboard.onmessage cl be message w = (Dashboard.Returned tt, w') /\
    Invariant.roster w' = Invariant.roster w /\
    (Dashboard.error (Dashboard.ui w') = Dashboard.error (Dashboard.ui w) \/
     Invariant.errorText (Dashboard.error (Dashboard.ui w'))).
Proof.
  unfold Dashboard.onmessage, Dashboard.handleWebSocketMessage.
  unfold Dashboard.try_catch, Dashboard.bind at 1, Dashboard.log at 1.
  cbv zeta.
  set (w0 := {| Dashboard.ui := Dashboard.ui w;
                Dashboard.console := (Dashboard.console w ++ ["WebSocket message:"])%list;
                Dashboard.wire := Dashboard.wire w |}).
  assert (Hroster : Invariant.roster w0 = Invariant.roster w) by reflexivity.
  assert (Herror : Dashboard.error (Dashboard.ui w0) = Dashboard.error (Dashboard.ui w))
    by reflexivity.
  rewrite <- Hroster, <- Herror. clearbody w0. clear Hroster Herror.
  repeat case_type.
  - unfold_effects. simpl. eexists. split; [reflexivity|]. split; [reflexivity|].
    left. reflexivity.
  - destruct (JS.strictEq (WsMessage.status message) "completed").
    + destruct (Dashboard.seen_analysisId cl) as [analysisId|].
      * destruct (String.eqb analysisId "").
        -- eexists. split; [reflexivity|]. split; [reflexivity | left; reflexivity].
        -- destruct (fetchFinalResults_untouched cl be analysisId w0)
             as (w1 & Hrun & Ha & He).
           rewrite Hrun. eexists. split; [reflexivity|].
           split; [unfold Invariant.roster; rewrite Ha; reflexivity|].
           destruct He as [He | He]; [left; exact He|].
           right. rewrite He. apply errorText_literal. discriminate.
      * eexists. split; [reflexivity|]. split; [reflexivity | left; reflexivity].
    + destruct (JS.strictEq (WsMessage.status message) "failed").
      * unfold_effects. simpl. eexists. split; [reflexivity|].
        split; [reflexivity|]. right. simpl.
        exists (WsMessage.message message), "Analysis failed".
        split; [discriminate | reflexivity].
      * eexists. split; [reflexivity|]. split; [reflexivity | left; reflexivity].
  - unfold_effects. simpl. eexists. split; [reflexivity|]. split; [reflexivity|].
    left. reflexivity.
  - unfold_effects. simpl. eexists. split; [reflexivity|].
    split; [|left; reflexivity].
    unfold Invariant.roster. simpl. apply roster_map. apply card_startAgent.
  - unfold_effects. simpl. eexists. split; [reflexivity|].
    split; [|left; reflexivity].
    unfold Invariant.roster. simpl. apply roster_map. apply card_completeAgent.
  - unfold_effects. simpl. eexists. split; [reflexivity|].
    split; [|left; reflexivity].
    unfold Invariant.roster. simpl. apply roster_map. apply card_debateAgent.
  - unfold_effects. simpl. eexists. split; [reflexivity|]. split; [reflexivity|].
    left. reflexivity.
  - destruct (WsMessage.data message) as [data|].
    + unfold Dashboard.bind at 1.
      destruct (processResults_keeps cl be data w0) as (w1 & Hrun & Ha & He).
      rewrite Hrun. unfold_effects. simpl. eexists. split; [reflexivity|]. simpl.
      split; [unfold Invariant.roster; rewrite Ha; reflexivity | left; exact He].
    + unfold Dashboard.processResults. unfold_effects. simpl.
      eexists. split; [reflexivity|]. split; [reflexivity | left; reflexivity].
  - unfold_effects. simpl. eexists. split; [reflexivity|].
    split; [reflexivity|]. right. simpl.
    exists (WsMessage.message message), "An error occurred".
    split; [discriminate | reflexivity].
  - eexists. split; [reflexivity|]. split; [reflexivity | left; reflexivity].
Qed.

(** The [try] block of [poll] keeps the roster; it sets no error other
    than a text with a non-empty fallback; when it stops the loop the busy
    flag is cleared. *)
Lemma pollTry_untouched cl be id w :
  exists r w',
    Dashboard.pollTry cl be id w = (r, w') /\
    Invariant.roster w' = Invariant.roster w /\
    (Dashboard.error (Dashboard.ui w') = Dashboard.error (Dashboard.ui w) \/
     Invariant.errorText (Dashboard.error (Dashboard.ui w'))) /\
    (r = Dashboard.Returned Dashboard.Done ->
     Dashboard.isAnalyzing (Dashboard.ui w') = false).
Proof.
  unfold Dashboard.pollTry.
  unfold Dashboard.bind at 1, Dashboard.API_getAnalysisStatus.
  destruct (Dashboard.statusReply be (length (Dashboard.wire w)) id)
    as [status|] eqn:Hstatus.
  - unfold Dashboard.bind at 1, Dashboard.log at 1.
    unfold Dashboard.bind at 1.
    set (w1 := {| Dashboard.ui := _; Dashboard.console := _ ++ ["Poll status:"];
                  Dashboard.wire := _ |}).
    assert (Hagents : exists w2,
               match StatusJson.completed_agents status with
               | Some completed_agents =>
                   Dashboard.setAgents
                     (map (Dashboard.pollAgent status completed_agents))
               | None => Dashboard.ret tt
               end w1 = (Dashboard.Returned tt, w2) /\
               Invariant.roster w2 = Invariant.roster w /\
               Dashboard.error (Dashboard.ui w2) = Dashboard.error (Dashboard.ui w)).
    { destruct (StatusJson.completed_agents status); unfold_effects;
        eexists; (split; [reflexivity|]); (split; [|reflexivity]);
        [|reflexivity].
      unfold Invariant.roster. simpl. apply roster_map.
      intros agent. apply card_pollAgent. }
    destruct Hagents as (w2 & Hrun2 & Hroster & Herror). rewrite Hrun2.
    clearbody w1. clear Hrun2.
    destruct (JS.strictEq (StatusJson.status status) "completed").
    + unfold Dashboard.bind at 1.
      destruct (StatusJson.results status) as [results|].
      * destruct (processResults_keeps cl be results w2) as (w3 & Hrun & Ha & He).
        rewrite Hrun. unfold_effects. simpl.
        eexists; eexists. split; [reflexivity|]. simpl.
        split; [unfold Invariant.roster in *; rewrite Ha; exact Hroster|].
        split; [left; rewrite He; exact Herror | reflexivity].
      * destruct (fetchFinalResults_untouched cl be id w2) as (w3 & Hrun & Ha & He).
        rewrite Hrun. unfold_effects. simpl.
        eexists; eexists. split; [reflexivity|]. simpl.
        split; [unfold Invariant.roster in *; rewrite Ha; exact Hroster|].
        split; [|reflexivity].
        destruct He as [He | He]; [left; rewrite He; exact Herror|].
        right. rewrite He. apply errorText_literal. discriminate.
    + destruct (JS.strictEq (StatusJson.status status) "failed").
      * unfold_effects. simpl.
        eexists; eexists. split; [reflexivity|]. simpl.
        split; [exact Hroster|]. split; [|reflexivity].
        right. exists (StatusJson.error status), "Analysis failed".
        split; [discriminate | reflexivity].
      * unfold_effects. simpl.
        eexists; eexists. split; [reflexivity|]. simpl.
        split; [exact Hroster|]. split; [left; exact Herror | discriminate].
  - eexists; eexists. split; [reflexivity|]. simpl.
    split; [reflexivity|]. split; [left; reflexivity | discriminate].
Qed.

Lemma poll_untouched cl be id l :
  Invariant.roster (Dashboard.world (Dashboard.poll cl be id l))
  = Invariant.roster (Dashboard.world l) /\
  (Dashboard.error (Dashboard.ui (Dashboard.world (Dashboard.poll cl be id l)))
   = Dashboard.error (Dashboard.ui (Dashboard.world l)) \/
   Invariant.errorText
     (Dashboard.error (Dashboard.ui (Dashboard.world (Dashboard.poll cl be id l))))) /\
  (Dashboard.timer (Dashboard.poll cl be id l) = None ->
   Dashboard.isAnalyzing (Dashboard.ui (Dashboard.world (Dashboard.poll cl be id l)))
   = false).
Proof.
  unfold Dashboard.poll.
  destruct (Dashboard.maxAttempts <=? Dashboard.attempts l)%nat.
  - simpl. split; [reflexivity|]. split; [|reflexivity].
    right. apply errorText_literal. discriminate.
  - destruct (pollTry_untouched cl be id (Dashboard.world l))
      as (r & w' & Hrun & Hroster & Herror & Hidle).
    rewrite Hrun. destruct r as [[|]|]; simpl;
      (split; [exact Hroster|]); (split; [exact Herror|]);
      [intros _; apply Hidle; reflexivity | discriminate | discriminate].
Qed.

Lemma run_untouched cl be id n :
  forall l,
    Invariant.roster (Dashboard.world (Dashboard.run cl be id n l))
    = Invariant.roster (Dashboard.world l) /\
    (Dashboard.error (Dashboard.ui (Dashboard.world (Dashboard.run cl be id n l)))
     = Dashboard.error (Dashboard.ui (Dashboard.world l)) \/
     Invariant.errorText
       (Dashboard.error (Dashboard.ui (Dashboard.world (Dashboard.run cl be id n l))))) /\
    (Dashboard.timer l <> None ->
     Dashboard.timer (Dashboard.run cl be id n l) = None ->
     Dashboard.isAnalyzing (Dashboard.ui (Dashboard.world (Dashboard.run cl be id n l)))
     = false).
Proof.
  induction n as [|n IH]; intros l.
  - simpl. split; [reflexivity|]. split; [left; reflexivity|].
    intros H1 H2. congruence.
  - cbn [Dashboard.run].
    destruct (Dashboard.timer l) as [delay|] eqn:Et.
    + destruct (poll_untouched cl be id l) as (Hroster & Herror & Hidle).
      destruct (IH (Dashboard.poll cl be id l)) as (Hroster' & Herror' & Hidle').
      split; [rewrite Hroster'; exact Hroster|].
      split.
      * destruct Herror' as [He | He]; [|right; exact He].
        rewrite He. exact Herror.
      * intros _ Hnone.
        destruct (Dashboard.timer (Dashboard.poll cl be id l)) as [next|] eqn:En.
        -- apply Hidle'; [discriminate | exact Hnone].
        -- rewrite (run_rest cl be id n _ En). apply Hidle. reflexivity.
    + split; [reflexivity|]. split; [left; reflexivity|].
      intros H. congruence.
Qed.

(** ** Invariants of a run *)

(** X16. No message from the WebSocket and no run of the polling loop adds,
    removes, reorders or renames an agent: the roster (id, name, role and
    avatar of each agent, in order) after the callback is the roster
    before it. *)
Theorem roster_is_kept cl be id message w n l :
  Invariant.roster (snd (Dashboard.onmessage cl be message w)) = Invariant.roster w /\
  Invariant.roster (Dashboard.world (Dashboard.run cl be id n l))
  = Invariant.roster (Dashboard.world l).
Proof.
  split.
  - destruct (onmessage_untouched cl be message w) as (w' & Hrun & Hroster & _).
    rewrite Hrun. exact Hroster.
  - apply run_untouched.
Qed.

(** X17. An error message, once shown, is never replaced by an empty one:
    every message a callback sets is a text of the backend or, when that is
    missing or empty, a non-empty literal, so the banner that renders on
    [error && ...] stays visible. *)
Theorem error_banner_shows cl be id message n l :
  Invariant.errorShows (Dashboard.world l) ->
  Invariant.errorShows (snd (Dashboard.onmessage cl be message (Dashboard.world l))) /\
  Invariant.errorShows (Dashboard.world (Dashboard.run cl be id n l)).
Proof.
  unfold Invariant.errorShows. intros Hshows. split.
  - destruct (onmessage_untouched cl be message (Dashboard.world l))
      as (w' & Hrun & _ & [He | He]).
    + rewrite Hrun. simpl. rewrite He. exact Hshows.
    + rewrite Hrun. simpl. apply errorText_nonempty. exact He.
  - destruct (run_untouched cl be id n l) as (_ & [He | He] & _).
    + rewrite He. exact Hshows.
    + apply errorText_nonempty. exact He.
Qed.

(** The theorem at a [failed] status whose message is the empty string. *)
Lemma error_banner_shows_witness :
  Dashboard.error
    (Dashboard.ui
       (snd (Dashboard.onmessage Sample.firstRender (Sample.offline 0)
               {| WsMessage.type := "status";
                  WsMessage.status := Some "failed";
                  WsMessage.message := Some "";
                  WsMessage.agent_id := None;
                  WsMessage.task := None;
                  WsMessage.findings := None;
                  WsMessage.round := None;
                  WsMessage.data := None |}
               Sample.world)))
  = Some "Analysis failed" /\
  Invariant.errorShows
    (Dashboard.world
       (Dashboard.run Sample.firstRender (Sample.offline 0) "run-1" 3
          (Dashboard.pollAnalysisStatus Sample.world))).
Proof.
  split; [reflexivity|].
  apply (error_banner_shows Sample.firstRender (Sample.offline 0) "run-1"
           (Sample.message "error" None) 3
           (Dashboard.pollAnalysisStatus Sample.world)).
  unfold Invariant.errorShows. simpl. discriminate.
Defined.

Lemma terminal_message_idle cl be message w0 :
  Runs.terminalMessage cl message ->
  Dashboard.isAnalyzing (Dashboard.ui (snd (Dashboard.onmessage cl be message w0)))
  = false.
Proof.
  intros Hmsg.
  assert (H : exists w,
             Dashboard.onmessage cl be message w0 = (Dashboard.Returned tt, w) /\
             Dashboard.isAnalyzing (Dashboard.ui w) = false);
    [|destruct H as (w & Hrun & Hidle); rewrite Hrun; exact Hidle].
  unfold Dashboard.onmessage, Dashboard.handleWebSocketMessage.
  destruct Hmsg as [Htype | [[Htype Hdata] | [[Htype Hstatus] | (Htype & Hstatus & Hid)]]];
    rewrite Htype; try rewrite Hstatus; simpl.
  - eexists. split; reflexivity.
  - destruct (WsMessage.data message) as [data|]; [|congruence].
    unfold Dashboard.try_catch, Dashboard.bind at 1, Dashboard.log at 1.
    unfold Dashboard.bind at 1.
    match goal with
    | |- context [Dashboard.processResults cl be (Some data) ?w1] =>
        destruct (processResults_some cl be data w1) as (w2 & Hrun & _)
    end.
    rewrite Hrun. simpl. eexists. split; reflexivity.
  - eexists. split; reflexivity.
  - destruct (Dashboard.seen_analysisId cl) as [analysisId|]; [|discriminate].
    simpl in Hid. apply negb_true_iff in Hid. rewrite Hid.
    unfold Dashboard.try_catch, Dashboard.bind at 1, Dashboard.log at 1.
    match goal with
    | |- context [Dashboard.fetchFinalResults cl be analysisId ?w1] =>
        destruct (fetchFinalResults_outcome cl be analysisId w1)
          as (w2 & Hrun & Hidle & _)
    end.
    rewrite Hrun. eexists. split; [reflexivity | exact Hidle].
Qed.

(** X18. Every terminal path clears the busy flag: after a terminal message
    or once the polling loop is at rest, the dashboard is no longer
    analyzing, whatever the backend answered. *)
Theorem terminal_path_clears_busy w0 w :
  Runs.Terminal w0 w ->
  Dashboard.isAnalyzing (Dashboard.ui w) = false.
Proof.
  intros [cl be message Hmsg | cl be id].
  - apply terminal_message_idle. exact Hmsg.
  - destruct (run_settles cl be id (S Dashboard.maxAttempts)
                (Dashboard.pollAnalysisStatus w0)) as (Hnone & _);
      [unfold Dashboard.maxAttempts; simpl; lia
      | unfold Dashboard.maxAttempts; simpl; lia | discriminate |].
    apply run_untouched; [discriminate | exact Hnone].
Qed.

(** The theorem at the polling loop against a backend that reports
    completion and serves nothing. *)
Lemma terminal_path_clears_busy_witness :
  Dashboard.isAnalyzing
    (Dashboard.ui
       (Dashboard.world
          (Dashboard.run Sample.firstRender Sample.hollow "run-1"
             (S Dashboard.maxAttempts) (Dashboard.pollAnalysisStatus Sample.world))))
  = false.
Proof.
  apply (terminal_path_clears_busy Sample.world _
           (Runs.ByPolling Sample.world Sample.firstRender Sample.hollow "run-1")).
Defined.

(** ** Edge cases of the handler *)

(** X19. A [result] message without [data] makes [processResults] throw;
    [ws.onmessage] swallows the exception: the state is untouched (the
    dashboard stays busy if it was), no request is made, and the console
    reports a parse failure. *)
Theorem result_without_data_is_swallowed cl be message w :
  WsMessage.type message = "result" ->
  WsMessage.data message = None ->
  Dashboard.onmessage cl be message w
  = (Dashboard.Returned tt,
     {| Dashboard.ui := Dashboard.ui w;
        Dashboard.console :=
          (Dashboard.console w
           ++ [ "WebSocket message:"; "Processing results:";
                "Failed to parse WebSocket message:" ])%list;
        Dashboard.wire := Dashboard.wire w |}).
Proof.
  intros Htype Hdata.
  unfold Dashboard.onmessage, Dashboard.handleWebSocketMessage.
  rewrite Htype, Hdata. unfold Dashboard.processResults. unfold_effects. simpl.
  rewrite <- !app_assoc. reflexivity.
Qed.

(** The theorem at a bare [result] message received while analyzing. *)
Lemma result_without_data_is_swallowed_witness :
  Dashboard.isAnalyzing
    (Dashboard.ui
       (snd (Dashboard.onmessage Sample.firstRender (Sample.offline 0)
               {| WsMessage.type := "result";
                  WsMessage.status := None;
                  WsMessage.message := None;
                  WsMessage.agent_id := None;
                  WsMessage.task := None;
                  WsMessage.findings := None;
                  WsMessage.round := None;
                  WsMessage.data := None |}
               Sample.world)))
  = true.
Proof.
  rewrite (result_without_data_is_swallowed Sample.firstRender (Sample.offline 0)
             {| WsMessage.type := "result";
                WsMessage.status := None;
                WsMessage.message := None;
                WsMessage.agent_id := None;
                WsMessage.task := None;
                WsMessage.findings := None;
                WsMessage.round := None;
                WsMessage.data := None |}
             Sample.world eq_refl eq_refl).
  reflexivity.
Defined.

(** ** fetchFinalResults, request by request *)

Lemma fetchFinalResults_exact cl be id w :
  exists w',
    Dashboard.fetchFinalResults cl be id w = (Dashboard.Returned tt, w') /\
    Dashboard.wire w'
    = (Dashboard.wire w
       ++ Dashboard.ResultsExchange id
            (Dashboard.resultsReply be (length (Dashboard.wire w)) id)
          :: match Dashboard.resultsReply be (length (Dashboard.wire w)) id with
             | Some _ => []
             | None =>
                 [Dashboard.StatusExchange Dashboard.ByFetch id
                    (Dashboard.statusReply be (S (length (Dashboard.wire w))) id)]
             end)%list /\
    Dashboard.error (Dashboard.ui w')
    = match Dashboard.resultsReply be (length (Dashboard.wire w)) id,
            Dashboard.statusReply be (S (length (Dashboard.wire w))) id with
      | None, None => Some "Failed to fetch analysis results"
      | _, _ => Dashboard.error (Dashboard.ui w)
      end.
Proof.
  unfold Dashboard.fetchFinalResults, Dashboard.try_catch at 1.
  unfold Dashboard.bind at 1, Dashboard.API_getAnalysisResults.
  destruct (Dashboard.resultsReply be (length (Dashboard.wire w)) id)
    as [results|] eqn:Hresults.
  - unfold Dashboard.bind at 1.
    destruct (processResults_some cl be results
                (Dashboard.record (Dashboard.ResultsExchange id (Some results)) w))
      as (w1 & Hrun & _ & He & _ & Hwire).
    rewrite Hrun. unfold_effects. simpl.
    eexists. split; [reflexivity|]. simpl. rewrite Hwire, He. simpl.
    split; reflexivity.
  - unfold Dashboard.bind at 1, Dashboard.log at 1.
    unfold Dashboard.bind at 1, Dashboard.try_catch at 1.
    unfold Dashboard.bind at 1, Dashboard.API_getAnalysisStatus.
    assert (Hlen : length (Dashboard.wire
                      {| Dashboard.ui :=
                           Dashboard.ui
                             (Dashboard.record (Dashboard.ResultsExchange id None) w);
                         Dashboard.console :=
                           (Dashboard.console
                              (Dashboard.record (Dashboard.ResultsExchange id None) w)
                            ++ ["Error fetching results:"])%list;
                         Dashboard.wire :=
                           Dashboard.wire
                             (Dashboard.record (Dashboard.ResultsExchange id None) w) |})
                   = S (length (Dashboard.wire w))).
    { simpl. rewrite length_app. simpl. lia. }
    rewrite Hlen.
    destruct (Dashboard.statusReply be (S (length (Dashboard.wire w))) id)
      as [status|] eqn:Hstatus.
    + unfold Dashboard.when.
      destruct (StatusJson.results status) as [results|] eqn:Hres0;
        cbn [JS.truthyObj].
      * match goal with
        | |- context [Dashboard.processResults cl be (Some results) ?w0] =>
            destruct (processResults_some cl be results w0)
              as (w1 & Hrun & _ & He & _ & Hwire)
        end.
        rewrite Hrun. unfold_effects. simpl.
        eexists. split; [reflexivity|]. simpl. rewrite Hwire, He. simpl.
        rewrite <- app_assoc. split; reflexivity.
      * unfold_effects. simpl.
        eexists. split; [reflexivity|]. simpl.
        rewrite <- app_assoc. split; reflexivity.
    + unfold_effects. simpl.
      eexists. split; [reflexivity|]. simpl.
      rewrite <- app_assoc. split; reflexivity.
Qed.

(** X20. [fetchFinalResults] asks for the results once and, only if that
    request is rejected, for the status once; it sets the error 'Failed to
    fetch analysis results' exactly when both requests are rejected and
    otherwise leaves the error as it was; in every case it clears the busy
    flag. *)
Theorem fetchFinalResults_reports cl be id w :
  let results := Dashboard.resultsReply be (length (Dashboard.wire w)) id in
  let status := Dashboard.statusReply be (S (length (Dashboard.wire w))) id in
  let w' := snd (Dashboard.fetchFinalResults cl be id w) in
  Dashboard.wire w'
  = (Dashboard.wire w
     ++ Dashboard.ResultsExchange id results
        :: match results with
           | Some _ => []
           | None => [Dashboard.StatusExchange Dashboard.ByFetch id status]
           end)%list /\
  Dashboard.error (Dashboard.ui w')
  = match results, status with
    | None, None => Some "Failed to fetch analysis results"
    | _, _ => Dashboard.error (Dashboard.ui w)
    end /\
  Dashboard.isAnalyzing (Dashboard.ui w') = false.
Proof.
  cbv zeta.
  destruct (fetchFinalResults_exact cl be id w) as (w' & Hrun & Hwire & Herror).
  destruct (fetchFinalResults_outcome cl be id w) as (w'' & Hrun' & Hidle & _).
  rewrite Hrun in Hrun'. inversion Hrun'. subst w''.
  rewrite Hrun. simpl. split; [exact Hwire|]. split; [exact Herror | exact Hidle].
Qed.

(** ** The reply that ends the polling *)

(** A reply that keeps the loop polling changes the agents at most: one
    exchange is logged, the error, the busy flag and the result stay. *)
Lemma pollTry_keeps_all cl be id w :
  Runs.keepsPolling (Dashboard.statusReply be (length (Dashboard.wire w)) id) ->
  exists r w',
    Dashboard.pollTry cl be id w = (r, w') /\
    r <> Dashboard.Returned Dashboard.Done /\
    Dashboard.wire w'
    = (Dashboard.wire w
       ++ [Dashboard.StatusExchange Dashboard.ByPoll id
             (Dashboard.statusReply be (length (Dashboard.wire w)) id)])%list /\
    Dashboard.error (Dashboard.ui w') = Dashboard.error (Dashboard.ui w) /\
    Dashboard.isAnalyzing (Dashboard.ui w') = Dashboard.isAnalyzing (Dashboard.ui w) /\
    Dashboard.analysisResult (Dashboard.ui w')
    = Dashboard.analysisResult (Dashboard.ui w).
Proof.
  unfold Dashboard.pollTry.
  unfold Dashboard.bind at 1, Dashboard.API_getAnalysisStatus.
  destruct (Dashboard.statusReply be (length (Dashboard.wire w)) id)
    as [status|] eqn:Hstatus; simpl.
  - intros [Hcompleted Hfailed]. rewrite Hcompleted, Hfailed.
    destruct (StatusJson.completed_agents status); unfold_effects; simpl;
      eexists; eexists; (split; [reflexivity|]); (split; [discriminate|]);
      repeat split.
  - intros _. eexists; eexists. split; [reflexivity|].
    split; [discriminate|]. repeat split.
Qed.

Lemma poll_keeps_all cl be id l :
  (Dashboard.attempts l < Dashboard.maxAttempts)%nat ->
  Runs.keepsPolling
    (Dashboard.statusReply be (length (Dashboard.wire (Dashboard.world l))) id) ->
  Dashboard.timer (Dashboard.poll cl be id l) <> None /\
  Dashboard.attempts (Dashboard.poll cl be id l) = S (Dashboard.attempts l) /\
  Dashboard.wire (Dashboard.world (Dashboard.poll cl be id l))
  = (Dashboard.wire (Dashboard.world l)
     ++ [Dashboard.StatusExchange Dashboard.ByPoll id
           (Dashboard.statusReply be
              (length (Dashboard.wire (Dashboard.world l))) id)])%list /\
  Dashboard.error (Dashboard.ui (Dashboard.world (Dashboard.poll cl be id l)))
  = Dashboard.error (Dashboard.ui (Dashboard.world l)) /\
  Dashboard.isAnalyzing (Dashboard.ui (Dashboard.world (Dashboard.poll cl be id l)))
  = Dashboard.isAnalyzing (Dashboard.ui (Dashboard.world l)) /\
  Dashboard.analysisResult (Dashboard.ui (Dashboard.world (Dashboard.poll cl be id l)))
  = Dashboard.analysisResult (Dashboard.ui (Dashboard.world l)).
Proof.
  intros H Hkeep. unfold Dashboard.poll.
  apply Nat.leb_gt in H. rewrite H.
  destruct (pollTry_keeps_all cl be id (Dashboard.world l) Hkeep)
    as (r & w' & Hrun & Hnot & Hwire & He & Hb & Hr).
  rewrite Hrun.
  destruct r as [[|]|]; [congruence | |]; simpl;
    (split; [discriminate|]); (split; [reflexivity|]);
    (split; [exact Hwire|]); (split; [exact He|]); split; assumption.
Qed.

(** [k] replies that keep the loop polling take it [k] runs of [poll]
    further and change nothing the user sees but the agents. *)
Lemma run_keeps cl be id k :
  forall n l,
    Dashboard.timer l <> None ->
    (Dashboard.attempts l + k <= Dashboard.maxAttempts)%nat ->
    (forall j, (j < k)%nat ->
       Runs.keepsPolling
         (Dashboard.statusReply be
            (length (Dashboard.wire (Dashboard.world l)) + j) id)) ->
    exists lk,
      Dashboard.run cl be id (k + n) l = Dashboard.run cl be id n lk /\
      Dashboard.timer lk <> None /\
      Dashboard.attempts lk = (Dashboard.attempts l + k)%nat /\
      length (Dashboard.wire (Dashboard.world lk))
      = (length (Dashboard.wire (Dashboard.world l)) + k)%nat /\
      Dashboard.pollRequests (Dashboard.wire (Dashboard.world lk))
      = (Dashboard.pollRequests (Dashboard.wire (Dashboard.world l)) + k)%nat /\
      Dashboard.error (Dashboard.ui (Dashboard.world lk))
      = Dashboard.error (Dashboard.ui (Dashboard.world l)) /\
      Dashboard.isAnalyzing (Dashboard.ui (Dashboard.world lk))
      = Dashboard.isAnalyzing (Dashboard.ui (Dashboard.world l)) /\
      Dashboard.analysisResult (Dashboard.ui (Dashboard.world lk))
      = Dashboard.analysisResult (Dashboard.ui (Dashboard.world l)).
Proof.
  induction k as [|k IH]; intros n l Htimer Hle Hkeep.
  - exists l. simpl. rewrite !Nat.add_0_r. repeat split. exact Htimer.
  - cbn [Nat.add Dashboard.run].
    destruct (Dashboard.timer l) as [delay|] eqn:Et; [clear Htimer | congruence].
    assert (Hnow : Runs.keepsPolling
                     (Dashboard.statusReply be
                        (length (Dashboard.wire (Dashboard.world l))) id)).
    { pose proof (Hkeep 0%nat) as H0. rewrite Nat.add_0_r in H0. apply H0. lia. }
    destruct (poll_keeps_all cl be id l) as (Hsome & Hatt & Hwire & He & Hb & Hr);
      [lia | exact Hnow |].
    assert (Hlen : length (Dashboard.wire (Dashboard.world (Dashboard.poll cl be id l)))
                   = S (length (Dashboard.wire (Dashboard.world l)))).
    { rewrite Hwire, length_app. simpl. lia. }
    destruct (IH n (Dashboard.poll cl be id l)) as (lk & Hrun & Ht & Ha & Hl & Hp & He' & Hb' & Hr');
      [exact Hsome | lia | |].
    + intros j Hj. rewrite Hlen.
      replace (S (length (Dashboard.wire (Dashboard.world l))) + j)%nat
        with (length (Dashboard.wire (Dashboard.world l)) + S j)%nat by lia.
      apply Hkeep. lia.
    + exists lk. split; [exact Hrun|]. split; [exact Ht|].
      split; [lia|]. split; [lia|].
      split.
      * rewrite Hp, Hwire, pollRequests_app.
        unfold Dashboard.pollRequests at 2. simpl. lia.
      * rewrite He', Hb', Hr', He, Hb, Hr. repeat split.
Qed.

(** The try block on a [failed] status. *)
Lemma pollTry_failed cl be id w status :
  Dashboard.statusReply be (length (Dashboard.wire w)) id = Some status ->
  StatusJson.status status = Some "failed" ->
  exists w',
    Dashboard.pollTry cl be id w = (Dashboard.Returned Dashboard.Done, w') /\
    Dashboard.error (Dashboard.ui w')
    = Some (JS.orStrD (StatusJson.error status) "Analysis failed") /\
    Dashboard.analysisResult (Dashboard.ui w')
    = Dashboard.analysisResult (Dashboard.ui w) /\
    length (Dashboard.wire w') = S (length (Dashboard.wire w)).
Proof.
  intros Hreply Hfailed. unfold Dashboard.pollTry.
  unfold Dashboard.bind at 1, Dashboard.API_getAnalysisStatus.
  rewrite Hreply, Hfailed. cbn [JS.strictEq].
  change ("failed" =? "completed")%string with false.
  change ("failed" =? "failed")%string with true. cbv iota.
  destruct (StatusJson.completed_agents status); unfold_effects; simpl;
    eexists; (split; [reflexivity|]); simpl;
    rewrite length_app; simpl; repeat split; lia.
Qed.

Lemma poll_failed cl be id l status :
  (Dashboard.attempts l < Dashboard.maxAttempts)%nat ->
  Dashboard.statusReply be (length (Dashboard.wire (Dashboard.world l))) id
  = Some status ->
  StatusJson.status status = Some "failed" ->
  Dashboard.timer (Dashboard.poll cl be id l) = None /\
  Dashboard.error (Dashboard.ui (Dashboard.world (Dashboard.poll cl be id l)))
  = Some (JS.orStrD (StatusJson.error status) "Analysis failed") /\
  Dashboard.analysisResult (Dashboard.ui (Dashboard.world (Dashboard.poll cl be id l)))
  = Dashboard.analysisResult (Dashboard.ui (Dashboard.world l)) /\
  length (Dashboard.wire (Dashboard.world (Dashboard.poll cl be id l)))
  = S (length (Dashboard.wire (Dashboard.world l))).
Proof.
  intros H Hreply Hfailed. unfold Dashboard.poll.
  apply Nat.leb_gt in H. rewrite H.
  destruct (pollTry_failed cl be id (Dashboard.world l) status Hreply Hfailed)
    as (w' & Hrun & He & Hr & Hl).
  rewrite Hrun. simpl. repeat split; assumption.
Qed.

(** The try block on a [completed] status carrying results. *)
Lemma pollTry_completed cl be id w status results :
  Dashboard.statusReply be (length (Dashboard.wire w)) id = Some status ->
  StatusJson.status status = Some "completed" ->
  StatusJson.results status = Some results ->
  exists w',
    Dashboard.pollTry cl be id w = (Dashboard.Returned Dashboard.Done, w') /\
    Dashboard.analysisResult (Dashboard.ui w')
    = Some (Dashboard.resultOf (Dashboard.seen_agents cl)
              (Dashboard.dateNow be (S (length (Dashboard.wire w)))) results) /\
    Dashboard.error (Dashboard.ui w') = Dashboard.error (Dashboard.ui w) /\
    length (Dashboard.wire w') = S (length (Dashboard.wire w)).
Proof.
  intros Hreply Hcompleted Hresults. unfold Dashboard.pollTry.
  unfold Dashboard.bind at 1, Dashboard.API_getAnalysisStatus.
  rewrite Hreply, Hcompleted, Hresults. cbn [JS.strictEq].
  change ("completed" =? "completed")%string with true. cbv iota.
  set (w0 := Dashboard.record _ w).
  assert (Hlen0 : length (Dashboard.wire w0) = S (length (Dashboard.wire w))).
  { subst w0. simpl. rewrite length_app. simpl. lia. }
  assert (He0 : Dashboard.error (Dashboard.ui w0) = Dashboard.error (Dashboard.ui w))
    by reflexivity.
  clearbody w0.
  unfold Dashboard.bind at 1, Dashboard.log at 1.
  set (w1 := {| Dashboard.ui := Dashboard.ui w0; Dashboard.console := _;
                Dashboard.wire := Dashboard.wire w0 |}).
  unfold Dashboard.bind at 1.
  assert (Hagents : exists w2,
             match StatusJson.completed_agents status with
             | Some completed_agents =>
                 Dashboard.setAgents
                   (map (Dashboard.pollAgent status completed_agents))
             | None => Dashboard.ret tt
             end w1 = (Dashboard.Returned tt, w2) /\
             Dashboard.wire w2 = Dashboard.wire w0 /\
             Dashboard.error (Dashboard.ui w2) = Dashboard.error (Dashboard.ui w0)).
  { destruct (StatusJson.completed_agents status); unfold_effects;
      eexists; repeat split. }
  destruct Hagents as (w2 & Hrun2 & Hwire2 & Herr2). rewrite Hrun2.
  unfold Dashboard.bind at 1.
  destruct (processResults_some cl be results w2)
    as (w3 & Hrun & Hres & He & _ & Hwire).
  rewrite Hrun. unfold_effects. simpl.
  eexists. split; [reflexivity|]. simpl.
  rewrite Hres, He, Herr2, Hwire, Hwire2, Hlen0, He0. repeat split.
Qed.

Lemma poll_completed cl be id l status results :
  (Dashboard.attempts l < Dashboard.maxAttempts)%nat ->
  Dashboard.statusReply be (length (Dashboard.wire (Dashboard.world l))) id
  = Some status ->
  StatusJson.status status = Some "completed" ->
  StatusJson.results status = Some results ->
  Dashboard.timer (Dashboard.poll cl be id l) = None /\
  Dashboard.analysisResult (Dashboard.ui (Dashboard.world (Dashboard.poll cl be id l)))
  = Some (Dashboard.resultOf (Dashboard.seen_agents cl)
            (Dashboard.dateNow be (S (length (Dashboard.wire (Dashboard.world l)))))
            results) /\
  Dashboard.error (Dashboard.ui (Dashboard.world (Dashboard.poll cl be id l)))
  = Dashboard.error (Dashboard.ui (Dashboard.world l)) /\
  length (Dashboard.wire (Dashboard.world (Dashboard.poll cl be id l)))
  = S (length (Dashboard.wire (Dashboard.world l))).
Proof.
  intros H Hreply Hcompleted Hresults. unfold Dashboard.poll.
  apply Nat.leb_gt in H. rewrite H.
  destruct (pollTry_completed cl be id (Dashboard.world l) status results
              Hreply Hcompleted Hresults) as (w' & Hrun & Hr & He & Hl).
  rewrite Hrun. simpl. repeat split; assumption.
Qed.

(** X21. The first [failed] status ends the polling: when the first [k]
    replies keep the loop polling and reply [k] (below 120) says [failed],
    the loop stops after [k + 1] requests with the status' error text, or
    'Analysis failed' when it has none, and stores no result. *)
Theorem first_failed_reply_stops cl be id w0 k status :
  (k < 120)%nat ->
  (forall j, (j < k)%nat ->
     Runs.keepsPolling
       (Dashboard.statusReply be (length (Dashboard.wire w0) + j) id)) ->
  Dashboard.statusReply be (length (Dashboard.wire w0) + k) id = Some status ->
  StatusJson.status status = Some "failed" ->
  let l := Dashboard.run cl be id (S Dashboard.maxAttempts)
             (Dashboard.pollAnalysisStatus w0) in
  Dashboard.timer l = None /\
  Dashboard.error (Dashboard.ui (Dashboard.world l))
  = Some (JS.orStrD (StatusJson.error status) "Analysis failed") /\
  Dashboard.analysisResult (Dashboard.ui (Dashboard.world l))
  = Dashboard.analysisResult (Dashboard.ui w0) /\
  length (Dashboard.wire (Dashboard.world l)) = (length (Dashboard.wire w0) + S k)%nat.
Proof.
  intros Hk Hkeep Hreply Hfailed l.
  destruct (run_keeps cl be id k (S Dashboard.maxAttempts - k)
              (Dashboard.pollAnalysisStatus w0))
    as (lk & Hrun & Ht & Ha & Hl & _ & _ & _ & Hr);
    [discriminate | unfold Dashboard.maxAttempts; simpl; lia | exact Hkeep |].
  assert (Hfuel : (k + (S Dashboard.maxAttempts - k) = S Dashboard.maxAttempts)%nat)
    by (unfold Dashboard.maxAttempts; lia).
  rewrite Hfuel in Hrun. subst l. rewrite Hrun.
  assert (Hstep : (S Dashboard.maxAttempts - k = S (Dashboard.maxAttempts - k))%nat)
    by (unfold Dashboard.maxAttempts; lia).
  rewrite Hstep. cbn [Dashboard.run].
  destruct (Dashboard.timer lk) as [delay|] eqn:Et; [|congruence].
  simpl in Ha, Hl.
  destruct (poll_failed cl be id lk status) as (Hnone & Herr & Hres & Hlen);
    [unfold Dashboard.maxAttempts; lia | rewrite Hl; exact Hreply | exact Hfailed |].
  rewrite (run_rest cl be id _ _ Hnone).
  split; [exact Hnone|]. split; [exact Herr|].
  split; [rewrite Hres; exact Hr | lia].
Qed.

Lemma first_failed_reply_stops_witness :
  let l := Dashboard.run Sample.laterRender (Script.failsAfter 3 None) "run-1"
             (S Dashboard.maxAttempts) (Dashboard.pollAnalysisStatus Sample.world) in
  Dashboard.timer l = None /\
  Dashboard.error (Dashboard.ui (Dashboard.world l)) = Some "Analysis failed" /\
  Dashboard.analysisResult (Dashboard.ui (Dashboard.world l)) = None /\
  length (Dashboard.wire (Dashboard.world l)) = 4%nat.
Proof.
  apply (first_failed_reply_stops Sample.laterRender (Script.failsAfter 3 None)
           "run-1" Sample.world 3
           {| StatusJson.status := Some "failed";
              StatusJson.results := None;
              StatusJson.error := None;
              StatusJson.completed_agents := Some ["sentinel"];
              StatusJson.pending_agents := None |}).
  - lia.
  - intros j Hj. simpl.
    destruct j as [|[|[|j]]]; [simpl; split; reflexivity .. | lia].
  - reflexivity.
  - reflexivity.
Defined.

(** X22. The first [completed] status that carries its results ends the
    polling: after [k] replies that keep the loop polling, the loop stops
    after [k + 1] requests, all to the status route, with the result built
    from those results and with the error as it was. *)
Theorem first_completed_reply_stops cl be id w0 k status results :
  (k < 120)%nat ->
  (forall j, (j < k)%nat ->
     Runs.keepsPolling
       (Dashboard.statusReply be (length (Dashboard.wire w0) + j) id)) ->
  Dashboard.statusReply be (length (Dashboard.wire w0) + k) id = Some status ->
  StatusJson.status status = Some "completed" ->
  StatusJson.results status = Some results ->
  let l := Dashboard.run cl be id (S Dashboard.maxAttempts)
             (Dashboard.pollAnalysisStatus w0) in
  Dashboard.timer l = None /\
  Dashboard.analysisResult (Dashboard.ui (Dashboard.world l))
  = Some (Dashboard.resultOf (Dashboard.seen_agents cl)
            (Dashboard.dateNow be (length (Dashboard.wire w0) + S k)) results) /\
  Dashboard.error (Dashboard.ui (Dashboard.world l)) = Dashboard.error (Dashboard.ui w0) /\
  length (Dashboard.wire (Dashboard.world l)) = (length (Dashboard.wire w0) + S k)%nat.
Proof.
  intros Hk Hkeep Hreply Hcompleted Hresults l.
  destruct (run_keeps cl be id k (S Dashboard.maxAttempts - k)
              (Dashboard.pollAnalysisStatus w0))
    as (lk & Hrun & Ht & Ha & Hl & _ & He & _ & _);
    [discriminate | unfold Dashboard.maxAttempts; simpl; lia | exact Hkeep |].
  assert (Hfuel : (k + (S Dashboard.maxAttempts - k) = S Dashboard.maxAttempts)%nat)
    by (unfold Dashboard.maxAttempts; lia).
  rewrite Hfuel in Hrun. subst l. rewrite Hrun.
  assert (Hstep : (S Dashboard.maxAttempts - k = S (Dashboard.maxAttempts - k))%nat)
    by (unfold Dashboard.maxAttempts; lia).
  rewrite Hstep. cbn [Dashboard.run].
  destruct (Dashboard.timer lk) as [delay|] eqn:Et; [|congruence].
  simpl in Ha, Hl.
  destruct (poll_completed cl be id lk status results)
    as (Hnone & Hres & Herr & Hlen);
    [unfold Dashboard.maxAttempts; lia | rewrite Hl; exact Hreply
    | exact Hcompleted | exact Hresults |].
  rewrite (run_rest cl be id _ _ Hnone).
  split; [exact Hnone|].
  split; [rewrite Hres, Hl, Nat.add_succ_r; reflexivity|].
  split; [rewrite Herr; exact He | lia].
Qed.

Lemma first_completed_reply_stops_witness :
  let l := Dashboard.run Sample.laterRender (Script.completesAfter 2) "run-1"
             (S Dashboard.maxAttempts) (Dashboard.pollAnalysisStatus Sample.world) in
  Dashboard.timer l = None /\
  Dashboard.analysisResult (Dashboard.ui (Dashboard.world l))
  = Some (Dashboard.resultOf [Sample.agent "sentinel" idle] 3 Sample.payload) /\
  Dashboard.error (Dashboard.ui (Dashboard.world l)) = None /\
  length (Dashboard.wire (Dashboard.world l)) = 3%nat.
Proof.
  apply (first_completed_reply_stops Sample.laterRender (Script.completesAfter 2)
           "run-1" Sample.world 2
           (Sample.statusJson "completed" (Some Sample.payload)) Sample.payload).
  - lia.
  - intros j Hj. simpl.
    destruct j as [|[|j]]; [exact I .. | lia].
  - reflexivity.
  - reflexivity.
  - reflexivity.
Defined.


(** ** Starting a run *)

Lemma trim_blank (s : string) : Analyze.blank s -> Ticker.trim s = "".
Proof.
  unfold Analyze.blank, Ticker.trim.
  induction s as [|c s IH]; simpl; intros H; [reflexivity|].
  inversion H as [|? ? Hc Hs]; subst. rewrite Hc. apply IH. exact Hs.
Qed.

(** A ticker symbol is left alone by [toUpperCase]. *)
Lemma symbol_upper input ticker :
  Ticker.getTickerFromInput input = Ticker.Symbol ticker ->
  JS.toUpperCase ticker = ticker.
Proof.
  unfold Ticker.getTickerFromInput.
  destruct (Ticker.own (Ticker.trim (JS.toLowerCase input)) Ticker.TICKER_MAP)
    as [known|] eqn:Eown.
  - intros H. inversion H. subst known. apply own_In in Eown. simpl in Eown.
    repeat match goal with
           | H : _ \/ _ |- _ => destruct H as [H | H]
           end; try contradiction; inversion Eown; reflexivity.
  - destruct (Ticker.inherited (Ticker.trim (JS.toLowerCase input)));
      [discriminate|].
    intros H. inversion H. rewrite <- trim_upper, toUpperCase_upper. reflexivity.
Qed.

(** The state the statements before the [try] leave. *)
Lemma reset_state w :
  snd (Analyze.reset w)
  = {| Dashboard.ui :=
         {| Dashboard.isAnalyzing := true;
            Dashboard.analysisResult := None;
            Dashboard.agents := Analyze.initialAgents;
            Dashboard.error := None;
            Dashboard.analysisId := Dashboard.analysisId (Dashboard.ui w);
            Dashboard.blockchainStatus := None;
            Dashboard.debateSessions := [];
            Dashboard.greenwashingSignals := [];
            Dashboard.isDebating := false;
            Dashboard.currentDebateRound := 0 |};
       Dashboard.console := Dashboard.console w;
       Dashboard.wire := Dashboard.wire w |}.
Proof. reflexivity. Qed.

(** The [catch] block sets a message that shows and clears the busy flag. *)
Lemma failure_state detail message w :
  exists text,
    text <> "" /\
    Dashboard.error (Dashboard.ui (snd (Analyze.failure detail message w))) = Some text /\
    Dashboard.isAnalyzing (Dashboard.ui (snd (Analyze.failure detail message w))) = false /\
    Dashboard.analysisResult (Dashboard.ui (snd (Analyze.failure detail message w)))
    = Dashboard.analysisResult (Dashboard.ui w) /\
    Dashboard.agents (Dashboard.ui (snd (Analyze.failure detail message w)))
    = Dashboard.agents (Dashboard.ui w) /\
    Dashboard.wire (snd (Analyze.failure detail message w)) = Dashboard.wire w.
Proof.
  exists (JS.orStrD (JS.orStr detail message) "Failed to start analysis").
  split; [|repeat split].
  unfold JS.orStrD. destruct (JS.orStr detail message) as [s|]; [|discriminate].
  destruct (String.eqb s "") eqn:E; [discriminate|].
  apply String.eqb_neq. exact E.
Qed.

(** X23. Submitting an input box that holds nothing but blanks does
    nothing: no state changes, no request is posted, the socket stays and
    no polling starts. *)
Theorem blank_input_starts_nothing engine companyInput socket reply w :
  Analyze.blank companyInput ->
  Analyze.handleAnalyze engine companyInput socket reply w
  = {| Analyze.posted := None; Analyze.closed := None; Analyze.wsRef := socket;
       Analyze.polling := None; Analyze.after := w |}.
Proof.
  intros H. unfold Analyze.handleAnalyze. rewrite (trim_blank _ H). reflexivity.
Qed.

Lemma blank_input_starts_nothing_witness :
  Analyze.handleAnalyze Analyze.v8 "   " (Some "run-0") (Analyze.Started "run-1")
    Sample.world
  = {| Analyze.posted := None; Analyze.closed := None;
       Analyze.wsRef := Some "run-0"; Analyze.polling := None;
       Analyze.after := Sample.world |}.
Proof.
  apply (blank_input_starts_nothing Analyze.v8 "   " (Some "run-0")
           (Analyze.Started "run-1") Sample.world).
  unfold Analyze.blank. simpl. repeat constructor.
Defined.

(** X24. A submit with a non-blank ASCII input ends in one of two ways.
    Either polling starts: then the server answered with the run's id,
    that id is stored, a socket for it replaces the old one, the dashboard
    is busy and shows no error. Or no polling starts: then a non-empty
    error message is set, the busy flag is cleared and [wsRef] holds what
    it held; the old socket is left open, unless the server had answered
    and it was [new WebSocket] that threw - then the old socket is closed
    and the run's id stored. Either way the old result is gone, the
    agents are the seven of [GAIA_AGENTS] set to idle, and no status or
    results request was made. *)
Theorem submit_starts_or_reports engine companyInput socket reply w :
  Ticker.isAscii companyInput ->
  Ticker.trim companyInput <> "" ->
  let o := Analyze.handleAnalyze engine companyInput socket reply w in
  match Analyze.polling o with
  | Some id =>
      reply = Analyze.Started id /\
      Dashboard.analysisId (Dashboard.ui (Analyze.after o)) = Some id /\
      Analyze.wsRef o = Some id /\
      Analyze.closed o = socket /\
      Analyze.posted o <> None /\
      Dashboard.isAnalyzing (Dashboard.ui (Analyze.after o)) = true /\
      Dashboard.error (Dashboard.ui (Analyze.after o)) = None
  | None =>
      (exists text,
         text <> "" /\
         Dashboard.error (Dashboard.ui (Analyze.after o)) = Some text) /\
      Dashboard.isAnalyzing (Dashboard.ui (Analyze.after o)) = false /\
      Analyze.wsRef o = socket /\
      (Analyze.closed o = None \/
       exists id,
         reply = Analyze.Started id /\
         Analyze.newWebSocket engine
           (AnalysisAPI.url (AnalysisAPI.request (AnalysisAPI.connectWebSocket id)))
         <> None /\
         Analyze.closed o = socket /\
         Analyze.posted o <> None /\
         Dashboard.analysisId (Dashboard.ui (Analyze.after o)) = Some id)
  end /\
  Dashboard.analysisResult (Dashboard.ui (Analyze.after o)) = None /\
  Dashboard.agents (Dashboard.ui (Analyze.after o)) = Analyze.initialAgents /\
  Dashboard.wire (Analyze.after o) = Dashboard.wire w.
Proof.
  intros _ Hinput o. subst o. unfold Analyze.handleAnalyze.
  apply String.eqb_neq in Hinput. rewrite Hinput.
  destruct (Ticker.getTickerFromInput (Ticker.trim companyInput)) as [ticker|key].
  - destruct reply as [id|detail message].
    + destruct (Analyze.newWebSocket engine
                  (AnalysisAPI.url
                     (AnalysisAPI.request (AnalysisAPI.connectWebSocket id))))
        as [thrown|] eqn:Esocket;
        cbn [Analyze.polling Analyze.after Analyze.wsRef Analyze.closed
             Analyze.posted].
      * match goal with
        | |- context [Analyze.failure ?d ?m ?w3] =>
            destruct (failure_state d m w3)
              as (text & Htext & He & Hb & Hr & Ha & Hw)
        end.
        rewrite Hr, Ha, Hw. split; [|repeat split].
        split; [exists text; split; assumption|].
        split; [exact Hb|]. split; [reflexivity|].
        right. exists id. split; [reflexivity|].
        split; [rewrite Esocket; discriminate|]. split; [reflexivity|].
        split; [discriminate|].
        unfold Analyze.failure. reflexivity.
      * repeat split. discriminate.
    + cbn [Analyze.polling Analyze.after Analyze.wsRef Analyze.closed Analyze.posted].
      match goal with
      | |- context [Analyze.failure detail message ?w2] =>
          destruct (failure_state detail message w2)
            as (text & Htext & He & Hb & Hr & Ha & Hw)
      end.
      rewrite Hr, Ha, Hw. split; [|repeat split].
      split; [exists text; split; assumption|].
      split; [exact Hb|]. split; [reflexivity|]. left. reflexivity.
  - cbn [Analyze.polling Analyze.after Analyze.wsRef Analyze.closed Analyze.posted].
    match goal with
    | |- context [Analyze.failure ?d ?m ?w2] =>
        destruct (failure_state d m w2)
          as (text & Htext & He & Hb & Hr & Ha & Hw)
    end.
    rewrite Hr, Ha, Hw. split; [|repeat split].
    split; [exists text; split; assumption|].
    split; [exact Hb|]. split; [reflexivity|]. left. reflexivity.
Qed.

(** The theorem on a page that may not open sockets: the server answers,
    the old socket is closed, and the constructor throws. *)
Lemma submit_starts_or_reports_witness :
  let o := Analyze.handleAnalyze Analyze.blocked "Tesla" (Some "run-0")
             (Analyze.Started "run-1") Sample.world in
  match Analyze.polling o with
  | Some id =>
      Analyze.Started "run-1" = Analyze.Started id /\
      Dashboard.analysisId (Dashboard.ui (Analyze.after o)) = Some id /\
      Analyze.wsRef o = Some id /\
      Analyze.closed o = Some "run-0" /\
      Analyze.posted o <> None /\
      Dashboard.isAnalyzing (Dashboard.ui (Analyze.after o)) = true /\
      Dashboard.error (Dashboard.ui (Analyze.after o)) = None
  | None =>
      (exists text,
         text <> "" /\
         Dashboard.error (Dashboard.ui (Analyze.after o)) = Some text) /\
      Dashboard.isAnalyzing (Dashboard.ui (Analyze.after o)) = false /\
      Analyze.wsRef o = Some "run-0" /\
      (Analyze.closed o = None \/
       exists id,
         Analyze.Started "run-1" = Analyze.Started id /\
         Analyze.newWebSocket Analyze.blocked
           (AnalysisAPI.url (AnalysisAPI.request (AnalysisAPI.connectWebSocket id)))
         <> None /\
         Analyze.closed o = Some "run-0" /\
         Analyze.posted o <> None /\
         Dashboard.analysisId (Dashboard.ui (Analyze.after o)) = Some id)
  end /\
  Dashboard.analysisResult (Dashboard.ui (Analyze.after o)) = None /\
  Dashboard.agents (Dashboard.ui (Analyze.after o)) = Analyze.initialAgents /\
  Dashboard.wire (Analyze.after o) = Dashboard.wire Sample.world.
Proof.
  apply (submit_starts_or_reports Analyze.blocked "Tesla" (Some "run-0")
           (Analyze.Started "run-1") Sample.world).
  - unfold Ticker.isAscii. simpl. repeat constructor.
  - discriminate.
Defined.

(** X25. The POST of a submit carries the ticker as [getTickerFromInput]
    returned it - the [toUpperCase] of [startAnalysis] changes nothing -
    and the trimmed input as company name, with the three data sources
    switched on and three debate rounds. *)
Theorem start_request_carries_ticker engine companyInput socket reply w ticker :
  Ticker.isAscii companyInput ->
  Ticker.trim companyInput <> "" ->
  Ticker.getTickerFromInput (Ticker.trim companyInput) = Ticker.Symbol ticker ->
  Analyze.posted (Analyze.handleAnalyze engine companyInput socket reply w)
  = Some {| AnalysisAPI.verb := AnalysisAPI.POST;
            AnalysisAPI.url := "/api/v1/analyze";
            AnalysisAPI.body :=
              Some {| AnalysisAPI.ticker := ticker;
                      AnalysisAPI.company_name := Some (Ticker.trim companyInput);
                      AnalysisAPI.include_satellite := true;
                      AnalysisAPI.include_sentiment := true;
                      AnalysisAPI.include_supply_chain := true;
                      AnalysisAPI.debate_rounds := 3 |} |}.
Proof.
  intros _ Hinput Hticker. unfold Analyze.handleAnalyze.
  apply String.eqb_neq in Hinput. rewrite Hinput, Hticker.
  destruct reply as [id|detail message];
    [destruct (Analyze.newWebSocket engine
                 (AnalysisAPI.url
                    (AnalysisAPI.request (AnalysisAPI.connectWebSocket id))))|];
    cbn [Analyze.posted AnalysisAPI.request];
    rewrite (symbol_upper _ _ Hticker); reflexivity.
Qed.

Lemma start_request_carries_ticker_witness :
  Analyze.posted
    (Analyze.handleAnalyze Analyze.v8 " exxon Mobil " None (Analyze.Started "run-1")
       Sample.world)
  = Some {| AnalysisAPI.verb := AnalysisAPI.POST;
            AnalysisAPI.url := "/api/v1/analyze";
            AnalysisAPI.body :=
              Some {| AnalysisAPI.ticker := "XOM";
                      AnalysisAPI.company_name := Some "exxon Mobil";
                      AnalysisAPI.include_satellite := true;
                      AnalysisAPI.include_sentiment := true;
                      AnalysisAPI.include_supply_chain := true;
                      AnalysisAPI.debate_rounds := 3 |} |}.
Proof.
  apply (start_request_carries_ticker Analyze.v8 " exxon Mobil " None
           (Analyze.Started "run-1") Sample.world "XOM").
  - unfold Ticker.isAscii. simpl. repeat constructor.
  - discriminate.
  - reflexivity.
Defined.

(** X26. An input that, lower-cased and trimmed, names a property every
    object inherits ([constructor], [__proto__]) never reaches the server:
    the table lookup returns the inherited object, calling [toUpperCase]
    on it throws, and the submit ends with the TypeError's message as the
    error (or 'Failed to start analysis' if that message is empty), the
    busy flag cleared and nothing posted. *)
Theorem prototype_key_fails_before_request engine companyInput socket reply w :
  Ticker.isAscii companyInput ->
  Ticker.inherited (Ticker.trim (JS.toLowerCase companyInput)) = true ->
  let o := Analyze.handleAnalyze engine companyInput socket reply w in
  Analyze.posted o = None /\
  Analyze.polling o = None /\
  Dashboard.error (Dashboard.ui (Analyze.after o))
  = Some (JS.orStrD (Some (Analyze.notAFunction engine)) "Failed to start analysis") /\
  Dashboard.isAnalyzing (Dashboard.ui (Analyze.after o)) = false.
Proof.
  intros _ Hinh o. subst o. unfold Analyze.handleAnalyze.
  assert (Hnorm : Ticker.trim (JS.toLowerCase (Ticker.trim companyInput))
                  = Ticker.trim (JS.toLowerCase companyInput)).
  { rewrite <- trim_lower, trim_idem. reflexivity. }
  assert (Hfull : Ticker.trim companyInput <> "").
  { intros Hempty. rewrite trim_lower, Hempty in Hinh. discriminate. }
  apply String.eqb_neq in Hfull. rewrite Hfull.
  unfold Ticker.getTickerFromInput. rewrite Hnorm.
  assert (Hown : Ticker.own (Ticker.trim (JS.toLowerCase companyInput))
                   Ticker.TICKER_MAP = None).
  { unfold Ticker.inherited in Hinh. apply orb_true_iff in Hinh.
    destruct Hinh as [H | H]; apply String.eqb_eq in H; rewrite H; reflexivity. }
  rewrite Hown, Hinh.
  cbn [Analyze.posted Analyze.polling Analyze.after].
  split; [reflexivity|]. split; [reflexivity|].
  unfold Analyze.failure. unfold_effects. simpl.
  unfold JS.orStr. simpl.
  destruct (String.eqb (Analyze.notAFunction engine) "") eqn:E; simpl;
    split; reflexivity.
Qed.

Lemma prototype_key_fails_before_request_witness :
  let o := Analyze.handleAnalyze Analyze.v8 " Constructor" None
             (Analyze.Started "run-1") Sample.world in
  Analyze.posted o = None /\
  Analyze.polling o = None /\
  Dashboard.error (Dashboard.ui (Analyze.after o))
  = Some "ticker.toUpperCase is not a function" /\
  Dashboard.isAnalyzing (Dashboard.ui (Analyze.after o)) = false.
Proof.
  apply (prototype_key_fails_before_request Analyze.v8 " Constructor" None
           (Analyze.Started "run-1") Sample.world).
  - unfold Ticker.isAscii. simpl. repeat constructor.
  - reflexivity.
Defined.

(** The world a submit leaves when it starts to poll. *)
Lemma started_world engine companyInput socket reply w id :
  Analyze.polling (Analyze.handleAnalyze engine companyInput socket reply w) = Some id ->
  Dashboard.agents
    (Dashboard.ui (Analyze.after (Analyze.handleAnalyze engine companyInput socket reply w)))
  = Analyze.initialAgents /\
  Dashboard.wire (Analyze.after (Analyze.handleAnalyze engine companyInput socket reply w))
  = Dashboard.wire w.
Proof.
  unfold Analyze.handleAnalyze.
  destruct (String.eqb (Ticker.trim companyInput) ""); [discriminate|].
  destruct (Ticker.getTickerFromInput (Ticker.trim companyInput)); [|discriminate].
  destruct reply as [started|]; [|discriminate].
  destruct (Analyze.newWebSocket engine
              (AnalysisAPI.url
                 (AnalysisAPI.request (AnalysisAPI.connectWebSocket started))));
    [discriminate|].
  intros _. split; reflexivity.
Qed.

(** X27. A run that a submit started always comes to rest: whatever the
    server answers to the status requests, after at most 121 runs of
    [poll] no timer is pending, the busy flag is cleared, at most 120 poll
    requests were added, and the agents on display are still the seven of
    [GAIA_AGENTS], in their order. *)
Theorem started_run_comes_to_rest engine cl be companyInput socket reply w id :
  Analyze.polling (Analyze.handleAnalyze engine companyInput socket reply w) = Some id ->
  let l := Dashboard.run cl be id (S Dashboard.maxAttempts)
             (Dashboard.pollAnalysisStatus
                (Analyze.after
                   (Analyze.handleAnalyze engine companyInput socket reply w))) in
  Dashboard.timer l = None /\
  Dashboard.isAnalyzing (Dashboard.ui (Dashboard.world l)) = false /\
  Invariant.roster (Dashboard.world l) = map Invariant.card Analyze.GAIA_AGENTS /\
  (Dashboard.pollRequests (Dashboard.wire (Dashboard.world l))
   <= Dashboard.pollRequests (Dashboard.wire w) + 120)%nat.
Proof.
  intros Hstarted l.
  destruct (started_world _ _ _ _ _ _ Hstarted) as (Hagents & Hwire).
  set (w1 := Analyze.after (Analyze.handleAnalyze engine companyInput socket reply w))
    in *.
  destruct (run_settles cl be id (S Dashboard.maxAttempts)
              (Dashboard.pollAnalysisStatus w1)) as (Hnone & Hpolls & _);
    [unfold Dashboard.maxAttempts; simpl; lia
    | unfold Dashboard.maxAttempts; simpl; lia | discriminate |].
  destruct (run_untouched cl be id (S Dashboard.maxAttempts)
              (Dashboard.pollAnalysisStatus w1)) as (Hroster & _ & Hidle).
  subst l. split; [exact Hnone|].
  split; [apply Hidle; [discriminate | exact Hnone]|].
  split.
  - rewrite Hroster. unfold Invariant.roster.
    change (Dashboard.world (Dashboard.pollAnalysisStatus w1)) with w1.
    rewrite Hagents. reflexivity.
  - change (Dashboard.world (Dashboard.pollAnalysisStatus w1)) with w1 in Hpolls.
    change (Dashboard.attempts (Dashboard.pollAnalysisStatus w1)) with 0%nat in Hpolls.
    rewrite Hwire in Hpolls. unfold Dashboard.maxAttempts in *. lia.
Qed.

Lemma started_run_comes_to_rest_witness :
  let l := Dashboard.run Sample.firstRender Sample.stuck "run-1"
             (S Dashboard.maxAttempts)
             (Dashboard.pollAnalysisStatus
                (Analyze.after
                   (Analyze.handleAnalyze Analyze.v8 "Tesla" None
                      (Analyze.Started "run-1") Sample.world))) in
  Dashboard.timer l = None /\
  Dashboard.isAnalyzing (Dashboard.ui (Dashboard.world l)) = false /\
  Invariant.roster (Dashboard.world l) = map Invariant.card Analyze.GAIA_AGENTS /\
  (Dashboard.pollRequests (Dashboard.wire (Dashboard.world l))
   <= Dashboard.pollRequests (Dashboard.wire Sample.world) + 120)%nat.
Proof.
  apply (started_run_comes_to_rest Analyze.v8 Sample.firstRender Sample.stuck
           "Tesla" None (Analyze.Started "run-1") Sample.world "run-1").
  reflexivity.
Defined.


(** ** The history list *)

(** X28. [formatDate] picks its unit by the age of the date: below an hour
    (and for every date in the future, however far) whole minutes, below
    a day whole hours from 1 to 23, below a week whole days from 1 to 6,
    and from a week on the locale's date. *)
Theorem formatDate_units env text date :
  text <> "" ->
  AnalysisHistory.parse env text = Some date ->
  (Z.abs (AnalysisHistory.now env - date) < 2 ^ 52)%Z ->
  let diff := (AnalysisHistory.now env - date)%Z in
  ((diff < 3600000)%Z ->
   AnalysisHistory.formatDate env (Some text)
   = JS.showZ (diff / 60000) ++ "m ago") /\
  ((3600000 <= diff < 86400000)%Z ->
   AnalysisHistory.formatDate env (Some text)
   = JS.showZ (diff / 3600000) ++ "h ago" /\
   (1 <= diff / 3600000 < 24)%Z) /\
  ((86400000 <= diff < 604800000)%Z ->
   AnalysisHistory.formatDate env (Some text)
   = JS.showZ (diff / 86400000) ++ "d ago" /\
   (1 <= diff / 86400000 < 7)%Z) /\
  ((604800000 <= diff)%Z ->
   AnalysisHistory.formatDate env (Some text)
   = AnalysisHistory.toLocaleDateString env date).
Proof.
  intros Htext Hparse _ diff. unfold AnalysisHistory.formatDate.
  apply String.eqb_neq in Htext. cbn [JS.truthyStr JS.chain negb].
  rewrite Htext, Hparse. cbn [negb].
  change (1000 * 60 * 60 * 24)%Z with 86400000%Z.
  change (1000 * 60 * 60)%Z with 3600000%Z.
  change (1000 * 60)%Z with 60000%Z.
  fold diff. clearbody diff.
  assert (Hdiv : forall d k, (0 < d)%Z -> (d * k <= diff)%Z -> (k <= diff / d)%Z)
    by (intros d k Hd Hk; apply Z.div_le_lower_bound; lia).
  assert (Hlt : forall d k, (0 < d)%Z -> (diff < d * k)%Z -> (diff / d < k)%Z)
    by (intros d k Hd Hk; apply Z.div_lt_upper_bound; lia).
  split; [|split; [|split]].
  - intros H.
    assert (Hm : (diff / 60000 < 60)%Z) by (apply Hlt; lia).
    apply Z.ltb_lt in Hm. rewrite Hm. reflexivity.
  - intros H.
    assert (Hm : (60 <= diff / 60000)%Z) by (apply Hdiv; lia).
    assert (Hh : (diff / 3600000 < 24)%Z) by (apply Hlt; lia).
    assert (Hh1 : (1 <= diff / 3600000)%Z) by (apply Hdiv; lia).
    apply Z.ltb_ge in Hm. apply Z.ltb_lt in Hh. rewrite Hm, Hh.
    apply Z.ltb_lt in Hh. split; [reflexivity | lia].
  - intros H.
    assert (Hm : (60 <= diff / 60000)%Z) by (apply Hdiv; lia).
    assert (Hh : (24 <= diff / 3600000)%Z) by (apply Hdiv; lia).
    assert (Hd : (diff / 86400000 < 7)%Z) by (apply Hlt; lia).
    assert (Hd1 : (1 <= diff / 86400000)%Z) by (apply Hdiv; lia).
    apply Z.ltb_ge in Hm. apply Z.ltb_ge in Hh. apply Z.ltb_lt in Hd.
    rewrite Hm, Hh, Hd. apply Z.ltb_lt in Hd. split; [reflexivity | lia].
  - intros H.
    assert (Hm : (60 <= diff / 60000)%Z) by (apply Hdiv; lia).
    assert (Hh : (24 <= diff / 3600000)%Z) by (apply Hdiv; lia).
    assert (Hd : (7 <= diff / 86400000)%Z) by (apply Hdiv; lia).
    apply Z.ltb_ge in Hm. apply Z.ltb_ge in Hh. apply Z.ltb_ge in Hd.
    rewrite Hm, Hh, Hd. reflexivity.
Qed.

(** The theorem at a date three days ahead of the clock. *)
Lemma formatDate_units_witness :
  AnalysisHistory.formatDate (AnalysisHistory.clockAt 0 259200000)
    (Some "2025-01-04T00:00:00Z")
  = "-4320m ago".
Proof.
  rewrite (proj1 (formatDate_units (AnalysisHistory.clockAt 0 259200000)
                    "2025-01-04T00:00:00Z" 259200000
                    ltac:(discriminate) eq_refl ltac:(simpl; lia))).
  - reflexivity.
  - simpl. lia.
Defined.

(** X29. The history filter: with an empty search box and no risk level
    chosen every analysis is listed; the search ignores the letter case of
    what is typed; and with a risk level chosen every listed analysis
    carries exactly that level. *)
Theorem history_filter_rows (searchTicker : string) (level : string)
    (filterRisk : option string) (analyses : list AnalysisHistory.AnalysisSummary) :
  Ticker.isAscii searchTicker ->
  level <> "" ->
  AnalysisHistory.filteredAnalyses "" None analyses = analyses /\
  AnalysisHistory.filteredAnalyses (JS.toUpperCase searchTicker) filterRisk analyses
  = AnalysisHistory.filteredAnalyses searchTicker filterRisk analyses /\
  Forall (fun a => AnalysisHistory.risk_level a = Some level)
    (AnalysisHistory.filteredAnalyses searchTicker (Some level) analyses).
Proof.
  intros _ Hlevel. unfold AnalysisHistory.filteredAnalyses.
  split; [|split].
  - induction analyses as [|a rest IH]; simpl; [reflexivity|].
    rewrite IH. reflexivity.
  - apply filter_ext. intros a. unfold AnalysisHistory.keeps.
    rewrite toLowerCase_upper. cbn [JS.truthyStr].
    destruct searchTicker as [|c s]; [reflexivity|]. reflexivity.
  - apply Forall_forall. intros a Ha. apply filter_In in Ha.
    destruct Ha as [_ Hkeep]. unfold AnalysisHistory.keeps in Hkeep.
    apply String.eqb_neq in Hlevel.
    destruct (JS.truthyStr (Some searchTicker)
              && negb (JS.includes (JS.toLowerCase (AnalysisHistory.ticker a))
                         (JS.toLowerCase searchTicker))); [discriminate|].
    cbn [JS.truthyStr] in Hkeep. rewrite Hlevel in Hkeep. cbn [negb andb] in Hkeep.
    unfold JS.strictEq in Hkeep.
    destruct (AnalysisHistory.risk_level a) as [risk|]; [|discriminate].
    destruct (String.eqb risk level) eqn:E; [|discriminate].
    apply String.eqb_eq in E. subst risk. reflexivity.
Qed.

Lemma history_filter_rows_witness :
  let analyses := [AnalysisHistory.row "TSLA" (Some "HIGH");
                   AnalysisHistory.row "AAPL" (Some "LOW");
                   AnalysisHistory.row "MSFT" None] in
  AnalysisHistory.filteredAnalyses "" None analyses = analyses /\
  AnalysisHistory.filteredAnalyses (JS.toUpperCase "ts") None analyses
  = AnalysisHistory.filteredAnalyses "ts" None analyses /\
  Forall (fun a => AnalysisHistory.risk_level a = Some "LOW")
    (AnalysisHistory.filteredAnalyses "ts" (Some "LOW") analyses).
Proof.
  apply (history_filter_rows "ts" "LOW" None).
  - unfold Ticker.isAscii. simpl. repeat constructor.
  - discriminate.
Defined.

(** ** The demo data *)

(** X30. [generateMockData] knows two profiles only. A company that its
    test on the ticker and the name finds to be of high inclusion gets
    grade 'A-', risk level 'low' and no indicator; every other company
    gets grade 'B', risk level 'high' and two indicators. The branches
    for grade 'B+' and risk level 'moderate' are never taken. *)
Theorem mock_data_two_profiles (ticker companyName : string) :
  (FinancialInclusion.isHighInclusion ticker companyName = true /\
   FinancialInclusion.grade ticker companyName = "A-" /\
   FinancialInclusion.risk_level ticker companyName = "low" /\
   FinancialInclusion.indicators ticker companyName = []
   \/
   FinancialInclusion.isHighInclusion ticker companyName = false /\
   FinancialInclusion.grade ticker companyName = "B" /\
   FinancialInclusion.risk_level ticker companyName = "high" /\
   length (FinancialInclusion.indicators ticker companyName) = 2%nat) /\
  FinancialInclusion.grade ticker companyName <> "B+" /\
  FinancialInclusion.risk_level ticker companyName <> "moderate".
Proof.
  unfold FinancialInclusion.grade, FinancialInclusion.risk_level,
    FinancialInclusion.indicators, FinancialInclusion.baseScore.
  split; [|split].
  - destruct (FinancialInclusion.isHighInclusion ticker companyName);
      [left | right]; repeat split.
  - destruct (FinancialInclusion.isHighInclusion ticker companyName); discriminate.
  - destruct (FinancialInclusion.isHighInclusion ticker companyName); discriminate.
Qed.
